(** * tensorflow/python/training/distribute.py

    A shallow embedding of the thread-mode guards, the strategy scope, the
    argument-passing convention, [ReplicaContext.merge_call], the default
    (single replica) strategy and [InputContext], followed by the properties
    proved about them.

    Python objects are compared with [is]: a strategy or a replica context is
    a record that carries its address, and [is] is equality of records.
    Code runs in [M], a state-and-exception monad over the per-thread state. *)

From Stdlib Require Import ZArith.
From stdpp Require Import gmap strings list fin_maps.

Set Default Proof Using "Type".

(** ** Objects and values *)

Definition addr := nat.

(** The classes of strategy objects.  [Descendant_class n] stands for a
    concrete subclass written outside this file: it implements the hooks that
    raise [NotImplementedError] in the base class and inherits every other
    method. *)
Inductive StrategyClass :=
| DistributionStrategy_class
| _DefaultDistributionStrategy_class
| Descendant_class (n : nat).

Record Strategy := {
  strategy_addr : addr;
  strategy_class : StrategyClass;
  _default_device : option string   (* set to None by __init__ *)
}.

(** Modelled from the spec: [reduce_util.ReduceOp], which is not part of
    this file; section 4.3 lists the reduce ops. *)
Inductive ReduceOp := SUM | MEAN | ONLY_FIRST_REPLICA.

(** [variable_scope.VariableAggregation], which is not part of this file:
    the three members that [reduce] names in its assertion, and [VA_NONE]
    for every other member. *)
Inductive VariableAggregation := VA_NONE | VA_SUM | VA_MEAN | VA_ONLY_FIRST_REPLICA.

(** The [aggregation] argument of [reduce] and [batch_reduce]. *)
Inductive Aggregation :=
| ReduceOp_ (op : ReduceOp)
| VariableAggregation_ (a : VariableAggregation).

#[warnings="-register-all"]
Inductive Value :=
| VNone
| VBool (b : bool)
| VInt (z : Z)
| VStr (s : string)
| VTuple (l : list Value)
| VList (l : list Value)
| VDict (d : gmap string Value)
| VStrategy (s : Strategy)
| VObject (a : addr).               (* a tensor, a variable, an op, ... *)

Record ReplicaContext := {
  replica_context_addr : addr;
  _distribution_strategy : Strategy;
  _replica_id_in_sync_group : Z
}.

(** Modelled from the spec: the thread modes of
    [distribution_strategy_context], which is not part of this file.  Section
    3 of the spec gives the tagged variant
    [Default | CrossReplica{strategy} | InReplica{replicaContext}]. *)
Inductive ExecutionMode :=
| Default
| CrossReplica (strategy : Strategy)
| InReplica (replicaContext : ReplicaContext).

#[global] Instance StrategyClass_eq_dec : EqDecision StrategyClass.
Proof. solve_decision. Defined.
#[global] Instance VariableAggregation_eq_dec : EqDecision VariableAggregation.
Proof. solve_decision. Defined.
#[global] Instance Strategy_eq_dec : EqDecision Strategy.
Proof. solve_decision. Defined.
#[global] Instance ReplicaContext_eq_dec : EqDecision ReplicaContext.
Proof. solve_decision. Defined.
#[global] Instance ExecutionMode_eq_dec : EqDecision ExecutionMode.
Proof. solve_decision. Defined.

(** [x is y] *)
Definition is_ {A} `{EqDecision A} (x y : A) : bool := bool_decide (x = y).

(** ** Exceptions *)

Inductive Message :=
| Need_to_be_inside_scope_for (s : Strategy)
    (* Need to be inside 'with distribution_strategy.scope()' for %s *)
| Mixing_different_DistributionStrategy_objects (current : option Strategy) (s : Strategy)
    (* Mixing different DistributionStrategy objects: %s is not %s *)
| Method_requires_cross_replica_context_use_merge_call
    (* Method requires being in cross-replica context, use
       get_replica_context().merge_call() *)
| Need_to_be_inside_call_for_each_replica
| Mismatching_replica_context
| Mismatching_DistributionStrategy_objects (current : option Strategy) (s : Strategy)
| Must_not_nest_DistributionStrategy_scopes
| Cant_pass_args_and_args_to (method : string)
    (* Can't pass *args and args=... to %s *)
| Cant_pass_kwargs_and_kwargs_to (method : string)
    (* Can't pass **kwargs and kwargs=... to %s *)
| Not_divisible (global_batch_size num_replicas_in_sync : Z)
    (* The `global_batch_size` %r is not divisible by `num_replicas_in_sync` %r *)
| must_be_implemented_in_descendants
| TODO.

Inductive Exception :=
| RuntimeError (m : Message)
| ValueError (m : Message)
| NotImplementedError (m : Message)
| AssertionError
| TypeError
| AttributeError
| IndexError
| ZeroDivisionError
| Raised (payload : Value).         (* whatever user code raises *)

(** ** Per-thread state *)

(** What a [variable_creator_scope] or a [variable_scope] installs: the
    closure built by [scope], named after the source. *)
Inductive Installed :=
| creator_with_resource_vars (self : Strategy)
| distributed_getter (self : Strategy)
| creator (self : Strategy).

Record State := {
  (** Modelled from the spec: the per-thread LIFO stack of modes of section
      4.1, top first; the empty stack stands for the implicit [Default]. *)
  mode_stack : list ExecutionMode;
  (** [_update_device.current]; unset reads as None. *)
  _update_device_current : Value;
  (** Modelled from the spec: the variable-creation interceptors and the
      device placements that [scope] installs (section 4.3), kept as stacks
      that entering pushes on and leaving pops. *)
  variable_creator_stack : list Installed;
  variable_scope_stack : list Installed;
  device_stack : list string;
  colocation_stack : list Value;
  (** The next fresh object address. *)
  next_addr : addr
}.

Definition set_mode_stack (f : list ExecutionMode -> list ExecutionMode) (st : State) : State :=
  {| mode_stack := f (mode_stack st);
     _update_device_current := _update_device_current st;
     variable_creator_stack := variable_creator_stack st;
     variable_scope_stack := variable_scope_stack st;
     device_stack := device_stack st;
     colocation_stack := colocation_stack st;
     next_addr := next_addr st |}.

Definition set_update_device (v : Value) (st : State) : State :=
  {| mode_stack := mode_stack st;
     _update_device_current := v;
     variable_creator_stack := variable_creator_stack st;
     variable_scope_stack := variable_scope_stack st;
     device_stack := device_stack st;
     colocation_stack := colocation_stack st;
     next_addr := next_addr st |}.

Definition set_variable_creator_stack (f : list Installed -> list Installed) (st : State) : State :=
  {| mode_stack := mode_stack st;
     _update_device_current := _update_device_current st;
     variable_creator_stack := f (variable_creator_stack st);
     variable_scope_stack := variable_scope_stack st;
     device_stack := device_stack st;
     colocation_stack := colocation_stack st;
     next_addr := next_addr st |}.

Definition set_variable_scope_stack (f : list Installed -> list Installed) (st : State) : State :=
  {| mode_stack := mode_stack st;
     _update_device_current := _update_device_current st;
     variable_creator_stack := variable_creator_stack st;
     variable_scope_stack := f (variable_scope_stack st);
     device_stack := device_stack st;
     colocation_stack := colocation_stack st;
     next_addr := next_addr st |}.

Definition set_device_stack (f : list string -> list string) (st : State) : State :=
  {| mode_stack := mode_stack st;
     _update_device_current := _update_device_current st;
     variable_creator_stack := variable_creator_stack st;
     variable_scope_stack := variable_scope_stack st;
     device_stack := f (device_stack st);
     colocation_stack := colocation_stack st;
     next_addr := next_addr st |}.

Definition set_colocation_stack (f : list Value -> list Value) (st : State) : State :=
  {| mode_stack := mode_stack st;
     _update_device_current := _update_device_current st;
     variable_creator_stack := variable_creator_stack st;
     variable_scope_stack := variable_scope_stack st;
     device_stack := device_stack st;
     colocation_stack := f (colocation_stack st);
     next_addr := next_addr st |}.

Definition set_next_addr (n : addr) (st : State) : State :=
  {| mode_stack := mode_stack st;
     _update_device_current := _update_device_current st;
     variable_creator_stack := variable_creator_stack st;
     variable_scope_stack := variable_scope_stack st;
     device_stack := device_stack st;
     colocation_stack := colocation_stack st;
     next_addr := n |}.

(** ** The monad of Python code: a result or an exception, and the state *)

Definition M (A : Type) : Type := State -> (Exception + A) * State.

Definition ret {A} (a : A) : M A := fun st => (inr a, st).

Definition raise {A} (e : Exception) : M A := fun st => (inl e, st).

Definition bind {A B} (m : M A) (k : A -> M B) : M B := fun st =>
  match m st with
  | (inl e, st') => (inl e, st')
  | (inr a, st') => k a st'
  end.

Declare Scope py_scope.
Delimit Scope py_scope with py.
Notation "x <- c1 ;; c2" := (bind c1 (fun x => c2))
  (at level 100, c1 at next level, right associativity) : py_scope.
Notation "c1 ;; c2" := (bind c1 (fun _ => c2))
  (at level 100, right associativity) : py_scope.
Open Scope py_scope.

Definition get_state : M State := fun st => (inr st, st).
Definition modify (f : State -> State) : M unit := fun st => (inr tt, f st).

(** [assert b] *)
Definition assert_ (b : bool) : M unit :=
  if b then ret tt else raise AssertionError.

(** [try: body finally: final] *)
Definition try_finally {A} (body : M A) (final : M unit) : M A := fun st =>
  let '(r, st1) := body st in
  match final st1 with
  | (inl e, st2) => (inl e, st2)
  | (inr _, st2) => (r, st2)
  end.

(** [with cm as x: body], for a context manager whose [__exit__] returns
    None (no exception is swallowed); [enter] gives back the manager as
    [__enter__] left it, together with what [as] binds. *)
Definition with_ {T A} (enter : M T) (exit : T -> M unit) (body : T -> M A) : M A :=
  cm <- enter ;; try_finally (body cm) (exit cm).

(** [[f(x) for x in l]] *)
Fixpoint for_each {A B} (f : A -> M B) (l : list A) : M (list B) :=
  match l with
  | [] => ret []
  | x :: l' => y <- f x ;; ys <- for_each f l' ;; ret (y :: ys)
  end.

(** A Python callable, called with the positional and the keyword arguments. *)
Definition Callable : Type := list Value -> gmap string Value -> M Value.

(** What a subclass written outside this file supplies: the hooks that the
    base class leaves to its descendants. *)
Record Hooks := {
  hook__broadcast : Strategy -> Value -> Value -> M Value;
  hook__run_steps_on_dataset : Strategy -> Callable -> Value -> Value -> Value -> M Value;
  hook__call_for_each_replica : Strategy -> Callable -> Value -> Value -> M Value;
  hook__reduce : Strategy -> ReduceOp -> Value -> Value -> M Value;
  hook__update : Strategy -> Value -> Callable -> Value -> Value -> Value -> M Value;
  hook__update_non_slot : Strategy -> Value -> Callable -> Value -> Value -> Value -> M Value;
  hook__unwrap : Strategy -> Value -> M Value
}.

(** The code of the repository that this file calls and does not contain,
    taken as parameters. *)
Class External := {
  (** the hooks of the descendant classes *)
  descendant : nat -> Hooks;
  (** [reduce_util.ReduceOp.from_variable_aggregation] *)
  from_variable_aggregation : VariableAggregation -> Exception + ReduceOp
}.

(** ** Python values *)

(** [bool(v)] *)
Definition truthy (v : Value) : bool :=
  match v with
  | VNone => false
  | VBool b => b
  | VInt z => negb (z =? 0)%Z
  | VStr s => negb (bool_decide (s = ""))
  | VTuple l | VList l => negb (bool_decide (l = []))
  | VDict d => negb (bool_decide (d = ∅))
  | VStrategy _ | VObject _ => true
  end.

(** [x and y] *)
Definition and_ (x y : Value) : Value := if truthy x then y else x.

(** [v is not None] *)
Definition is_not_None (v : Value) : bool :=
  match v with VNone => false | _ => true end.

(** [d.pop(key, default)] on the keyword dictionary of a call: the value and
    the dictionary that is left. *)
Definition dict_pop (key : string) (default : Value) (d : gmap string Value)
  : Value * gmap string Value :=
  (match d !! key with Some v => v | None => default end, delete key d).

(** [v.pop(key, None)] where [v] is whatever the local variable holds: only a
    dictionary has a two-argument [pop]. *)
Definition value_pop (key : string) (v : Value) : M Value :=
  match v with
  | VDict d => ret (VDict (delete key d))
  | VList _ => raise TypeError
  | _ => raise AttributeError
  end.

(** The elements that [*v] and [tuple(v)] iterate over, None when [v] is not
    iterable.  A string gives its characters: a string of the model is the
    sequence of its characters, each with a code below 256, and not an
    encoding, so that a character is one element; strings with other
    characters are not values of the model.  A dictionary gives its keys;
    the values of the model do not record the order in which the keys were
    inserted, which is the order of Python 3.7 and later and is left open by
    the earlier versions that this file also runs on, and the keys come in
    the order of the finite map.  The examples below pass tuples and lists
    as containers of positional arguments. *)
Definition iter_value (v : Value) : option (list Value) :=
  match v with
  | VTuple l | VList l => Some l
  | VStr s => Some ((fun c => VStr (String c EmptyString)) <$> String.list_ascii_of_string s)
  | VDict d => Some (VStr <$> (map_to_list d).*1)
  | _ => None
  end.

(** The mapping that [**v] expands. *)
Definition mapping_value (v : Value) : option (gmap string Value) :=
  match v with
  | VDict d => Some d
  | _ => None
  end.

(** [tuple(v)] *)
Definition tuple_ (v : Value) : M (list Value) :=
  match iter_value v with
  | Some l => ret l
  | None => raise TypeError
  end.

(** [fn(first..., *args, **kwargs)] *)
Definition call (fn : Callable) (first : list Value) (args kwargs : Value) : M Value :=
  match iter_value args, mapping_value kwargs with
  | Some l, Some d => fn (first ++ l) d
  | _, _ => raise TypeError
  end.

(** Modelled from the spec: [nest.map_structure] of
    [tensorflow/python/util/nest.py], which is not part of this file.  The
    docstring of [update] calls its result a nest of lists: [func] is applied
    to every leaf of nested tuples, lists and dictionaries and the structure
    is kept. *)
Module nest.
(** Modelled from the spec: [map_structure(func, structure)], see above. *)
Fixpoint map_structure (func : Value -> Value) (structure : Value) : Value :=
  match structure with
  | VTuple l => VTuple (map_structure func <$> l)
  | VList l => VList (map_structure func <$> l)
  | VDict d => VDict (map_structure func <$> d)
  | _ => func structure
  end.
End nest.

(** Modelled from the spec: [distribution_strategy_context], which is not
    part of this file.  Section 4.1: [push(mode)], [pop()] and [top()], which
    returns the current mode or the implicit [Default] when the stack is empty;
    section 4.2 (a): no strategy is current when no strategy scope is active
    at all, that is when the mode is [Default]. *)
Module distribution_strategy_context.

(** Modelled from the spec: the mode [CrossReplica{strategy}]. *)
Definition _CrossReplicaThreadMode (distribution_strategy : Strategy) : ExecutionMode :=
  CrossReplica distribution_strategy.

(** Modelled from the spec: the mode [InReplica{replicaContext}]. *)
Definition _InReplicaThreadMode (replica_ctx : ReplicaContext) : ExecutionMode :=
  InReplica replica_ctx.

(** Modelled from the spec: the attribute [cross_replica_context] of a mode,
    the strategy of a cross-replica mode and None otherwise. *)
Definition cross_replica_context (mode : ExecutionMode) : option Strategy :=
  match mode with
  | CrossReplica s => Some s
  | _ => None
  end.

(** Modelled from the spec: the attribute [replica_context] of a mode, the
    replica context of a replica mode and None otherwise (section 4.2: not
    inside any replica call). *)
Definition replica_context (mode : ExecutionMode) : option ReplicaContext :=
  match mode with
  | InReplica r => Some r
  | _ => None
  end.

(** Modelled from the spec: the attribute [distribution_strategy] of a
    mode, the strategy whose scope is active: the one of a cross-replica
    mode, the owner of the replica context of a replica mode, and none in
    the [Default] mode. *)
Definition distribution_strategy (mode : ExecutionMode) : option Strategy :=
  match mode with
  | Default => None
  | CrossReplica s => Some s
  | InReplica r => Some (_distribution_strategy r)
  end.

(** Modelled from the spec: [top()], the current mode or the implicit
    [Default] when the stack is empty. *)
Definition top (stack : list ExecutionMode) : ExecutionMode :=
  match stack with
  | [] => Default
  | mode :: _ => mode
  end.

(** Modelled from the spec: [push(mode)]. *)
Definition _push_per_thread_mode (context : ExecutionMode) : M unit :=
  modify (set_mode_stack (cons context)).

(** Modelled from the spec: [pop()], which must match a prior push; with
    nothing to pop it raises, as popping an empty list does. *)
Definition _pop_per_thread_mode : M unit := fun st =>
  match mode_stack st with
  | [] => (inl IndexError, st)
  | _ :: rest => (inr tt, set_mode_stack (fun _ => rest) st)
  end.

(** Modelled from the spec: the read of [top()]. *)
Definition _get_per_thread_mode : M ExecutionMode := fun st =>
  (inr (top (mode_stack st)), st).

(** Modelled from the spec: whether a strategy scope is active at all on
    this thread (section 4.2 (a)). *)
Definition has_distribution_strategy : M bool :=
  mode <- _get_per_thread_mode ;;
  ret (match mode with Default => false | _ => true end).

End distribution_strategy_context.

(** Shorthand for some methods from distribution_strategy_context. *)
Definition _push_per_thread_mode := distribution_strategy_context._push_per_thread_mode.
Definition _get_per_thread_mode := distribution_strategy_context._get_per_thread_mode.
Definition _pop_per_thread_mode := distribution_strategy_context._pop_per_thread_mode.

(** Modelled from the spec: the context managers of [variable_scope] and
    [ops], which are not part of this file.  Entering installs, leaving
    removes what was installed last (section 4.3). *)
Module variable_scope.
(** Modelled from the spec: entering [variable_creator_scope(c)] installs
    the variable-creation interceptor [c]. *)
Definition variable_creator_scope__enter__ (c : Installed) : M unit :=
  modify (set_variable_creator_stack (cons c)).
(** Modelled from the spec: leaving it removes the last interceptor. *)
Definition variable_creator_scope__exit__ : M unit :=
  modify (set_variable_creator_stack (drop 1)).
(** Modelled from the spec: entering [variable_scope(..., custom_getter)]
    installs the getter. *)
Definition variable_scope__enter__ (getter : Installed) : M unit :=
  modify (set_variable_scope_stack (cons getter)).
(** Modelled from the spec: leaving it removes the last getter. *)
Definition variable_scope__exit__ : M unit :=
  modify (set_variable_scope_stack (drop 1)).
End variable_scope.

Module ops.
(** Modelled from the spec: entering [ops.device(name)] installs the default
    device placement. *)
Definition device__enter__ (name : string) : M unit :=
  modify (set_device_stack (cons name)).
(** Modelled from the spec: leaving it removes the last placement. *)
Definition device__exit__ : M unit :=
  modify (set_device_stack (drop 1)).
(** Modelled from the spec: entering [ops.colocate_with(op)] places what
    follows with [op] (section 4.5: with the target device active). *)
Definition colocate_with__enter__ (op : Value) : M unit :=
  modify (set_colocation_stack (cons op)).
(** Modelled from the spec: leaving it removes the last colocation. *)
Definition colocate_with__exit__ : M unit :=
  modify (set_colocation_stack (drop 1)).
End ops.

(** ** Context tracking whether in a distribution.update() or
    .update_non_slot() call *)

(** Get the current device if in a [DistributionStrategy.update()] call. *)
Definition get_update_device : M Value := fun st =>
  (inr (_update_device_current st), st).

Module UpdateContext.
Record t := { _device : Value; _old_device : Value }.

Definition __init__ (device : Value) : t :=
  {| _device := device; _old_device := VNone |}.

Definition __enter__ (self : t) : M t :=
  old <- get_update_device ;;
  modify (set_update_device (_device self)) ;;
  ret {| _device := _device self; _old_device := old |}.

Definition __exit__ (self : t) : M unit :=
  modify (set_update_device (_old_device self)).
End UpdateContext.

(** ** Internal API for validating the current thread mode *)

(** Verify in cross-replica context for [distribution_strategy]. *)
Definition _require_cross_replica_context (distribution_strategy : Strategy) : M unit :=
  context <- _get_per_thread_mode ;;
  if is_ (distribution_strategy_context.cross_replica_context context)
         (Some distribution_strategy)
  then ret tt
  else
    (* We have an error to report, figure out the right message. *)
    if negb (is_ (distribution_strategy_context.distribution_strategy context)
                 (Some distribution_strategy))
    then
      has <- distribution_strategy_context.has_distribution_strategy ;;
      if negb has
      then raise (RuntimeError (Need_to_be_inside_scope_for distribution_strategy))
      else raise (RuntimeError (Mixing_different_DistributionStrategy_objects
                    (distribution_strategy_context.distribution_strategy context)
                    distribution_strategy))
    else
      assert_ (is_ (distribution_strategy_context.cross_replica_context context) None) ;;
      raise (RuntimeError Method_requires_cross_replica_context_use_merge_call).

(** Verify in [replica_ctx] replica context. *)
Definition require_replica_context (replica_ctx : ReplicaContext) : M unit :=
  context <- _get_per_thread_mode ;;
  if is_ (distribution_strategy_context.replica_context context) (Some replica_ctx)
  then ret tt
  else
    if is_ (distribution_strategy_context.replica_context context) None
    then raise (RuntimeError Need_to_be_inside_call_for_each_replica)
    else
      if is_ (distribution_strategy_context.distribution_strategy context)
             (Some (_distribution_strategy replica_ctx))
      then
        (* Two different ReplicaContexts with the same DistributionStrategy. *)
        raise (RuntimeError Mismatching_replica_context)
      else
        raise (RuntimeError (Mismatching_DistributionStrategy_objects
                 (distribution_strategy_context.distribution_strategy context)
                 (_distribution_strategy replica_ctx))).

(** Verify in a [distribution_strategy.scope()] in this thread. *)
Definition _require_distribution_strategy_scope (distribution_strategy : Strategy) : M unit :=
  context <- _get_per_thread_mode ;;
  if is_ (distribution_strategy_context.distribution_strategy context)
         (Some distribution_strategy)
  then ret tt
  else
    has <- distribution_strategy_context.has_distribution_strategy ;;
    if negb has
    then raise (RuntimeError (Need_to_be_inside_scope_for distribution_strategy))
    else raise (RuntimeError (Mixing_different_DistributionStrategy_objects
                  (distribution_strategy_context.distribution_strategy context)
                  distribution_strategy)).

(** ** Internal context managers used to implement the DistributionStrategy
    base class *)

(** Context manager for setting the [DistributionStrategy] and var creator. *)
Module _CurrentDistributionContext.
Record t := {
  _context : ExecutionMode;
  _var_creator_scope : Installed;
  _var_scope : option Installed;
  _device_scope : option string
}.

Definition __init__ (distribution_strategy : Strategy) (var_creator_scope : Installed)
    (var_scope : option Installed) (default_device : option string) : t :=
  {| _context := distribution_strategy_context._CrossReplicaThreadMode distribution_strategy;
     _var_creator_scope := var_creator_scope;
     _var_scope := var_scope;
     _device_scope :=
       match default_device with
       | Some name => if bool_decide (name = "") then None else Some name
       | None => None
       end |}.

Definition __enter__ (self : t) : M (option Strategy) :=
  _push_per_thread_mode (_context self) ;;
  match _var_scope self with
  | Some getter => variable_scope.variable_scope__enter__ getter
  | None => ret tt
  end ;;
  variable_scope.variable_creator_scope__enter__ (_var_creator_scope self) ;;
  match _device_scope self with
  | Some name => ops.device__enter__ name
  | None => ret tt
  end ;;
  ret (distribution_strategy_context.distribution_strategy (_context self)).

Definition __exit__ (self : t) : M unit :=
  match _device_scope self with
  | Some _ => ops.device__exit__
  | None => ret tt
  end ;;
  variable_scope.variable_creator_scope__exit__ ;;
  match _var_scope self with
  | Some _ => variable_scope.variable_scope__exit__
  | None => ret tt
  end ;;
  _pop_per_thread_mode.
End _CurrentDistributionContext.

(** Trivial context manager when you are already in [scope()]. *)
Module _SameScopeAgainContext.
Record t := { _distribution_strategy : Strategy }.

Definition __init__ (distribution_strategy : Strategy) : t :=
  {| _distribution_strategy := distribution_strategy |}.

Definition __enter__ (self : t) : M (option Strategy) :=
  ret (Some (_distribution_strategy self)).

Definition __exit__ (self : t) : M unit := ret tt.
End _SameScopeAgainContext.

(** What [scope()] returns: an object of one of the two classes above. *)
Inductive ScopeContextManager :=
| a_CurrentDistributionContext (cm : _CurrentDistributionContext.t)
| a_SameScopeAgainContext (cm : _SameScopeAgainContext.t).

Definition scope__enter__ (cm : ScopeContextManager) : M (option Strategy) :=
  match cm with
  | a_CurrentDistributionContext c => _CurrentDistributionContext.__enter__ c
  | a_SameScopeAgainContext c => _SameScopeAgainContext.__enter__ c
  end.

Definition scope__exit__ (cm : ScopeContextManager) : M unit :=
  match cm with
  | a_CurrentDistributionContext c => _CurrentDistributionContext.__exit__ c
  | a_SameScopeAgainContext c => _SameScopeAgainContext.__exit__ c
  end.

(** [with cm as d: body d], for [cm] returned by [scope()]. *)
Definition with_scope {A} (cm : ScopeContextManager) (body : option Strategy -> M A) : M A :=
  with_ (scope__enter__ cm) (fun _ => scope__exit__ cm) body.

(** A class wrapping information needed by an input function. *)
Module InputContext.
Record t := {
  _num_input_pipelines : Z;
  _input_pipeline_id : Z;
  _num_replicas_in_sync : Z
}.

Definition __init__ (num_input_pipelines input_pipeline_id num_replicas_in_sync : Z) : t :=
  {| _num_input_pipelines := num_input_pipelines;
     _input_pipeline_id := input_pipeline_id;
     _num_replicas_in_sync := num_replicas_in_sync |}.

Definition num_replicas_in_sync (self : t) : Z := _num_replicas_in_sync self.
Definition input_pipeline_id (self : t) : Z := _input_pipeline_id self.
Definition num_input_pipelines (self : t) : Z := _num_input_pipelines self.

(** [a % b] and [a // b] on Python integers: floored, and an error when
    the divisor is zero. *)
Definition py_mod (a b : Z) : Exception + Z :=
  if (b =? 0)%Z then inl ZeroDivisionError else inr (a mod b)%Z.
Definition py_floordiv (a b : Z) : Exception + Z :=
  if (b =? 0)%Z then inl ZeroDivisionError else inr (a / b)%Z.

(** Returns the per-replica batch size. *)
Definition get_per_replica_batch_size (self : t) (global_batch_size : Z) : Exception + Z :=
  match py_mod global_batch_size (_num_replicas_in_sync self) with
  | inl e => inl e
  | inr r =>
      if negb (r =? 0)%Z
      then inl (ValueError (Not_divisible global_batch_size (_num_replicas_in_sync self)))
      else py_floordiv global_batch_size (_num_replicas_in_sync self)
  end.
End InputContext.

(** ** The argument-passing convention

    [call_for_each_replica], [update], [update_non_slot] and [merge_call] all
    start with the same lines, which handle old [*args, **kwargs] and new
    [args=(...), kwargs={...}]; [method] is the name that the messages end
    with.  [args] and [kwargs] are the positional tuple and the keyword
    dictionary of the call; the results are what the local variables [args]
    and [kwargs] hold afterwards. *)
Definition handle_old_and_new_args (method : string)
    (args : list Value) (kwargs : gmap string Value) : M (Value * Value) :=
  let '(a, kwargs) := dict_pop "args" VNone kwargs in
  args <- (if is_not_None a
           then (if truthy (VTuple args)
                 then raise (ValueError (Cant_pass_args_and_args_to method))
                 else ret a)
           else ret (VTuple args)) ;;
  let '(k, kwargs) := dict_pop "kwargs" VNone kwargs in
  kwargs <- (if is_not_None k
             then (if truthy (VDict kwargs)
                   then raise (ValueError (Cant_pass_kwargs_and_kwargs_to method))
                   else ret k)
             else ret (VDict kwargs)) ;;
  ret (args, kwargs).

(** ** DistributionStrategy API inside a [call_for_each_replica()] call *)

Module ReplicaContext.

Definition __init__ (distribution_strategy : Strategy) (replica_id_in_sync_group : Z)
  : M ReplicaContext :=
  st <- get_state ;;
  modify (set_next_addr (S (next_addr st))) ;;
  ret {| replica_context_addr := next_addr st;
         _distribution_strategy := distribution_strategy;
         _replica_id_in_sync_group := replica_id_in_sync_group |}.

Definition _thread_context (self : ReplicaContext) : ExecutionMode :=
  distribution_strategy_context._InReplicaThreadMode self.

Definition __enter__ (self : ReplicaContext) : M unit :=
  _push_per_thread_mode (_thread_context self).

Definition __exit__ (self : ReplicaContext) : M unit :=
  _pop_per_thread_mode.

(** Default implementation for single replica. *)
Definition _merge_call (self : ReplicaContext) (merge_fn : Callable)
    (args kwargs : Value) : M Value :=
  _push_per_thread_mode
    (distribution_strategy_context._CrossReplicaThreadMode (_distribution_strategy self)) ;;
  try_finally
    (call merge_fn [VStrategy (_distribution_strategy self)] args kwargs)
    _pop_per_thread_mode.

(** Merge args across replicas and run [merge_fn] in a cross-replica
    context. *)
Definition merge_call (self : ReplicaContext) (merge_fn : Callable)
    (args : list Value) (kwargs : gmap string Value) : M Value :=
  require_replica_context self ;;
  p <- handle_old_and_new_args "merge_call" args kwargs ;;
  _merge_call self merge_fn p.1 p.2.

Definition replica_id_in_sync_group (self : ReplicaContext) : M Z :=
  require_replica_context self ;;
  ret (_replica_id_in_sync_group self).

Definition distribution_strategy (self : ReplicaContext) : Strategy :=
  _distribution_strategy self.

End ReplicaContext.

(** ** Default [DistributionStrategy] if none is explicitly selected

    The methods that [_DefaultDistributionStrategy] overrides.  It has no
    subclass, so [self._update_non_slot] and [self._unwrap] below are its
    own. *)
Module _DefaultDistributionStrategy.

(** Context manager setting a variable creator and [self] as current. *)
Definition scope (self : Strategy) : M ScopeContextManager :=
  has <- distribution_strategy_context.has_distribution_strategy ;;
  if has
  then raise (RuntimeError Must_not_nest_DistributionStrategy_scopes)
  else ret (a_CurrentDistributionContext
              (_CurrentDistributionContext.__init__ self (creator self) None None)).

Definition _broadcast (self : Strategy) (tensor destinations : Value) : M Value :=
  if negb (is_not_None destinations)
  then ret tensor
  else raise (NotImplementedError TODO).

Definition _call_for_each_replica (self : Strategy) (fn : Callable)
    (args kwargs : Value) : M Value :=
  ctx <- ReplicaContext.__init__ self 0 ;;
  with_ (ReplicaContext.__enter__ ctx) (fun _ => ReplicaContext.__exit__ ctx)
    (fun _ => call fn [] args kwargs).

Definition _reduce (self : Strategy) (reduce_op : ReduceOp)
    (value destinations : Value) : M Value :=
  ret value.

Definition _unwrap (self : Strategy) (distributed_value : Value) : Value :=
  VList [distributed_value].

Definition _update_non_slot (self : Strategy) (colocate_with : Value) (fn : Callable)
    (args kwargs should_group : Value) : M Value :=
  with_ (ops.colocate_with__enter__ colocate_with) (fun _ => ops.colocate_with__exit__)
    (fun _ =>
       with_ (UpdateContext.__enter__ (UpdateContext.__init__ colocate_with))
         UpdateContext.__exit__
         (fun _ =>
            result <- call fn [] args kwargs ;;
            if truthy should_group
            then ret result
            else ret (nest.map_structure (_unwrap self) result))).

(** The implementations of _update() and _update_non_slot() are identical
    except _update() passes [var] as the first argument to [fn()]. *)
Definition _update (self : Strategy) (var : Value) (fn : Callable)
    (args kwargs group : Value) : M Value :=
  rest <- tuple_ args ;;
  _update_non_slot self var fn (VTuple (var :: rest)) kwargs group.

End _DefaultDistributionStrategy.

(** ** Base class for all distribution strategies

    A call [self.m(...)] is resolved on the class of [self]: the branch for
    [DistributionStrategy_class] is the body that the base class gives to
    [m], the one for [_DefaultDistributionStrategy_class] is the override
    above when there is one, the one for [Descendant_class] is the hook of
    that descendant for an abstract [m] and the base body otherwise. *)
Module DistributionStrategy.
Section methods.
Context `{External}.

Definition __init__ (a : addr) (class : StrategyClass) : Strategy :=
  {| strategy_addr := a; strategy_class := class; _default_device := None |}.

(** Returns a context manager selecting this DistributionStrategy as
    current. *)
Definition scope (self : Strategy) : M ScopeContextManager :=
  match strategy_class self with
  | _DefaultDistributionStrategy_class => _DefaultDistributionStrategy.scope self
  | _ =>
      has <- distribution_strategy_context.has_distribution_strategy ;;
      if has
      then
        _require_cross_replica_context self ;;
        ret (a_SameScopeAgainContext (_SameScopeAgainContext.__init__ self))
      else
        ret (a_CurrentDistributionContext
               (_CurrentDistributionContext.__init__ self
                  (creator_with_resource_vars self)
                  (Some (distributed_getter self))
                  (_default_device self)))
  end.

Definition _broadcast (self : Strategy) (tensor destinations : Value) : M Value :=
  match strategy_class self with
  | DistributionStrategy_class =>
      raise (NotImplementedError must_be_implemented_in_descendants)
  | _DefaultDistributionStrategy_class =>
      _DefaultDistributionStrategy._broadcast self tensor destinations
  | Descendant_class n => hook__broadcast (descendant n) self tensor destinations
  end.

(** Mirror a tensor on one device to all worker devices. *)
Definition broadcast (self : Strategy) (tensor destinations : Value) : M Value :=
  _require_cross_replica_context self ;;
  _broadcast self tensor destinations.

Definition _run_steps_on_dataset (self : Strategy) (fn : Callable)
    (iterator iterations initial_loop_values : Value) : M Value :=
  match strategy_class self with
  | Descendant_class n =>
      hook__run_steps_on_dataset (descendant n) self fn iterator iterations
        initial_loop_values
  | _ => raise (NotImplementedError must_be_implemented_in_descendants)
  end.

(** Run [fn] with input from [iterator] for [iterations] times. *)
Definition run_steps_on_dataset (self : Strategy) (fn : Callable)
    (iterator iterations initial_loop_values : Value) : M Value :=
  _require_cross_replica_context self ;;
  _run_steps_on_dataset self fn iterator iterations initial_loop_values.

Definition _call_for_each_replica (self : Strategy) (fn : Callable)
    (args kwargs : Value) : M Value :=
  match strategy_class self with
  | DistributionStrategy_class =>
      raise (NotImplementedError must_be_implemented_in_descendants)
  | _DefaultDistributionStrategy_class =>
      _DefaultDistributionStrategy._call_for_each_replica self fn args kwargs
  | Descendant_class n => hook__call_for_each_replica (descendant n) self fn args kwargs
  end.

(** Run [fn] once per replica. *)
Definition call_for_each_replica (self : Strategy) (fn : Callable)
    (args : list Value) (kwargs : gmap string Value) : M Value :=
  _require_cross_replica_context self ;;
  p <- handle_old_and_new_args "call_for_each_replica" args kwargs ;;
  kwargs <- value_pop "run_concurrently" p.2 ;;   (* Ignore old option. *)
  _call_for_each_replica self fn p.1 kwargs.

Definition _reduce (self : Strategy) (reduce_op : ReduceOp)
    (value destinations : Value) : M Value :=
  match strategy_class self with
  | DistributionStrategy_class =>
      raise (NotImplementedError must_be_implemented_in_descendants)
  | _DefaultDistributionStrategy_class =>
      _DefaultDistributionStrategy._reduce self reduce_op value destinations
  | Descendant_class n => hook__reduce (descendant n) self reduce_op value destinations
  end.

(** The lines of [reduce] and [batch_reduce] that turn the deprecated
    [VariableAggregation] values into a [ReduceOp]. *)
Definition reduce_op_of (aggregation : Aggregation) : M ReduceOp :=
  match aggregation with
  | VariableAggregation_ a =>
      assert_ (bool_decide (a ∈ [VA_SUM; VA_MEAN; VA_ONLY_FIRST_REPLICA])) ;;
      match from_variable_aggregation a with
      | inl e => raise e
      | inr op => ret op
      end
  | ReduceOp_ op => ret op
  end.

(** Combine (via e.g. sum or mean) values across replicas. *)
Definition reduce (self : Strategy) (aggregation : Aggregation)
    (value destinations : Value) : M Value :=
  _require_cross_replica_context self ;;
  reduce_op <- reduce_op_of aggregation ;;
  _reduce self reduce_op value destinations.

Definition _batch_reduce (self : Strategy) (reduce_op : ReduceOp)
    (value_destination_pairs : list (Value * Value)) : M Value :=
  l <- for_each (fun p => reduce self (ReduceOp_ reduce_op) p.1 p.2)
         value_destination_pairs ;;
  ret (VList l).

(** Combine multiple [reduce] calls into one for faster execution. *)
Definition batch_reduce (self : Strategy) (aggregation : Aggregation)
    (value_destination_pairs : list (Value * Value)) : M Value :=
  _require_cross_replica_context self ;;
  reduce_op <- reduce_op_of aggregation ;;
  _batch_reduce self reduce_op value_destination_pairs.

Definition _update (self : Strategy) (var : Value) (fn : Callable)
    (args kwargs group : Value) : M Value :=
  match strategy_class self with
  | DistributionStrategy_class =>
      raise (NotImplementedError must_be_implemented_in_descendants)
  | _DefaultDistributionStrategy_class =>
      _DefaultDistributionStrategy._update self var fn args kwargs group
  | Descendant_class n => hook__update (descendant n) self var fn args kwargs group
  end.

(** Run [fn] to update [var] using inputs mirrored to the same devices. *)
Definition update (self : Strategy) (var : Value) (fn : Callable)
    (args : list Value) (kwargs : gmap string Value) : M Value :=
  _require_cross_replica_context self ;;
  let '(group, kwargs) := dict_pop "group" (VBool true) kwargs in
  (* We temporarily support "grouped" in addition to "group" for backward-
     compatibility. *)
  let '(grouped, kwargs) := dict_pop "grouped" (VBool true) kwargs in
  let group := and_ grouped group in
  p <- handle_old_and_new_args "update" args kwargs ;;
  _update self var fn p.1 p.2 group.

Definition _update_non_slot (self : Strategy) (colocate_with : Value) (fn : Callable)
    (args kwargs group : Value) : M Value :=
  match strategy_class self with
  | DistributionStrategy_class =>
      raise (NotImplementedError must_be_implemented_in_descendants)
  | _DefaultDistributionStrategy_class =>
      _DefaultDistributionStrategy._update_non_slot self colocate_with fn args kwargs group
  | Descendant_class n =>
      hook__update_non_slot (descendant n) self colocate_with fn args kwargs group
  end.

(** Runs [fn] on [colocate_with] devices. *)
Definition update_non_slot (self : Strategy) (colocate_with : Value) (fn : Callable)
    (args : list Value) (kwargs : gmap string Value) : M Value :=
  _require_cross_replica_context self ;;
  let '(group, kwargs) := dict_pop "group" (VBool true) kwargs in
  let '(grouped, kwargs) := dict_pop "grouped" (VBool true) kwargs in
  let group := and_ grouped group in
  p <- handle_old_and_new_args "update_non_slot" args kwargs ;;
  _update_non_slot self colocate_with fn p.1 p.2 group.

Definition _unwrap (self : Strategy) (distributed_value : Value) : M Value :=
  match strategy_class self with
  | DistributionStrategy_class =>
      raise (NotImplementedError must_be_implemented_in_descendants)
  | _DefaultDistributionStrategy_class =>
      ret (_DefaultDistributionStrategy._unwrap self distributed_value)
  | Descendant_class n => hook__unwrap (descendant n) self distributed_value
  end.

(** Returns the list of all per-replica values contained in [value]. *)
Definition unwrap (self : Strategy) (value : Value) : M Value :=
  _unwrap self value.

End methods.
End DistributionStrategy.

(** * The rest of the file

    The functions that the first part leaves out and that can be followed
    in this file alone: the accessors of the replica context, the input
    functions, [value_container], [num_replicas_in_sync] and
    [non_slot_devices]. *)

(** Modelled from the spec: [get_replica_context()] of
    [distribution_strategy_context], which is not part of this file and which
    the docstrings of this file call: the replica context of the current
    mode, None when the thread is not in a replica context. *)
Definition get_replica_context : M (option ReplicaContext) :=
  mode <- _get_per_thread_mode ;;
  ret (distribution_strategy_context.replica_context mode).

(** The messages of the exceptions that only this part raises. *)
Inductive Message_rest :=
| dataset_fn_must_return_a_Dataset
    (* dataset_fn() must return a tf.data.Dataset when using a
       DistributionStrategy. *)
| Input_replication_mode_not_supported (replication_mode : Value)
    (* Input replication mode not supported: %r *)
| min_arg_is_an_empty_sequence.
    (* what the builtin min raises on an empty list *)

(** The exceptions of this part: those of the first part, and the
    ValueErrors with the messages above. *)
Inductive Exception_rest :=
| Earlier (e : Exception)
| ValueError_rest (m : Message_rest).

Definition M_rest (A : Type) : Type := State -> (Exception_rest + A) * State.

(** Replication mode for input function: the one member of the enum, or
    whatever else a caller passes. *)
Inductive InputReplicationMode :=
| PER_WORKER
| not_a_replication_mode (v : Value).

(** A dataset function, called as [dataset_fn(input_context)] or as
    [dataset_fn()]. *)
Definition DatasetFn : Type := option InputContext.t -> M Value.

(** A variable, for what [non_slot_devices] reads of it. *)
Record TFVariable := { variable_addr : addr; name : string }.

(** The code of the repository that this part calls and does not contain,
    taken as parameters. *)
Class External_rest := {
  (** [isinstance(result, dataset_ops.Dataset)] *)
  isinstance_Dataset : Value -> bool;
  (** the overrides of the descendant classes *)
  descendant_value_container : nat -> Strategy -> Value -> M Value;
  descendant_num_replicas_in_sync : nat -> Strategy -> M Z;
  descendant_distribute_dataset : nat -> Strategy -> DatasetFn -> M_rest Value;
  descendant__make_input_fn_iterator :
    nat -> Strategy -> DatasetFn -> InputReplicationMode -> M_rest Value
}.

(** [min(l, key=key)] on strings: the first element whose key is smallest;
    a later element replaces the best one only when its key is strictly
    smaller. *)
Fixpoint min_from {A} (key : A -> string) (best : A) (l : list A) : A :=
  match l with
  | [] => best
  | x :: l' => min_from key (if String.ltb (key x) (key best) then x else best) l'
  end.

Definition py_min {A} (key : A -> string) (l : list A) : Exception_rest + A :=
  match l with
  | [] => inl (ValueError_rest min_arg_is_an_empty_sequence)
  | x :: l' => inr (min_from key x l')
  end.

Module DistributionStrategy_rest.
Section methods.
Context `{External_rest}.

(** Call the [dataset_fn] with [input_context] as argument. *)
Definition _call_dataset_fn (self : Strategy) (dataset_fn : DatasetFn)
    (input_context : option InputContext.t) : M_rest Value := fun st =>
  let '(r, st') :=
    match input_context with
    | Some c => dataset_fn (Some c) st
    | None => dataset_fn None st
    end in
  match r with
  | inl e => (inl (Earlier e), st')
  | inr result =>
      if negb (isinstance_Dataset result)
      then (inl (ValueError_rest dataset_fn_must_return_a_Dataset), st')
      else (inr result, st')
  end.

(** [InputContext()], with the defaults of [__init__]. *)
Definition InputContext_default : InputContext.t := InputContext.__init__ 1 0 1.

(** Return a [dataset] split across all replicas. *)
Definition distribute_dataset (self : Strategy) (dataset_fn : DatasetFn) : M_rest Value :=
  match strategy_class self with
  | DistributionStrategy_class =>
      fun st => (inl (Earlier (NotImplementedError must_be_implemented_in_descendants)), st)
  | _DefaultDistributionStrategy_class => _call_dataset_fn self dataset_fn None
  | Descendant_class n => descendant_distribute_dataset n self dataset_fn
  end.

Definition _make_input_fn_iterator (self : Strategy) (input_fn : DatasetFn)
    (replication_mode : InputReplicationMode) : M_rest Value :=
  match strategy_class self with
  | DistributionStrategy_class =>
      fun st => (inl (Earlier (NotImplementedError must_be_implemented_in_descendants)), st)
  | _DefaultDistributionStrategy_class =>
      _call_dataset_fn self input_fn (Some InputContext_default)
  | Descendant_class n => descendant__make_input_fn_iterator n self input_fn replication_mode
  end.

(** Returns an iterator split across replicas created from an input
    function. *)
Definition make_input_fn_iterator (self : Strategy) (input_fn : DatasetFn)
    (replication_mode : InputReplicationMode) : M_rest Value :=
  match replication_mode with
  | not_a_replication_mode v =>
      fun st => (inl (ValueError_rest (Input_replication_mode_not_supported v)), st)
  | PER_WORKER => _make_input_fn_iterator self input_fn replication_mode
  end.

(** Returns the container that this per-replica [value] belongs to. *)
Definition value_container (self : Strategy) (value : Value) : M Value :=
  match strategy_class self with
  | DistributionStrategy_class =>
      raise (NotImplementedError must_be_implemented_in_descendants)
  | _DefaultDistributionStrategy_class => ret value
  | Descendant_class n => descendant_value_container n self value
  end.

(** Returns number of replicas over which gradients are aggregated. *)
Definition num_replicas_in_sync (self : Strategy) : M Z :=
  match strategy_class self with
  | DistributionStrategy_class =>
      raise (NotImplementedError must_be_implemented_in_descendants)
  | _DefaultDistributionStrategy_class => ret 1%Z
  | Descendant_class n => descendant_num_replicas_in_sync n self
  end.

(** [ReplicaContext.num_replicas_in_sync] *)
Definition ReplicaContext_num_replicas_in_sync (self : ReplicaContext) : M Z :=
  num_replicas_in_sync (_distribution_strategy self).

End methods.
End DistributionStrategy_rest.

Module _DefaultDistributionStrategy_rest.
(** [min(var_list, key=lambda x: x.name)] *)
Definition non_slot_devices (self : Strategy) (var_list : list TFVariable)
  : Exception_rest + TFVariable :=
  py_min name var_list.
End _DefaultDistributionStrategy_rest.

(** ** The closures that intercept variable creation

    [scope] and [colocate_vars_with] define local functions and hand them
    to [variable_scope]; here they are functions of the strategy that they
    close over.  [variable_scope] calls a creator with the next creator as
    first argument and a custom getter with the true getter as first
    argument; these are the parameters [next_creator] and [getter], and
    [args] are the positional arguments after them.  The warning that
    [distributed_getter] logs is not part of the state. *)

(** What the descendant classes supply for them. *)
Class External_creators := {
  descendant__create_variable :
    nat -> Strategy -> Callable -> list Value -> gmap string Value -> M Value;
  descendant__allow_variable_partition : nat -> Strategy -> bool
}.

Module DistributionStrategy_creators.
Section methods.
Context `{External_creators}.

Definition _allow_variable_partition (self : Strategy) : bool :=
  match strategy_class self with
  | Descendant_class n => descendant__allow_variable_partition n self
  | _ => false
  end.

Definition _create_variable (self : Strategy) (next_creator : Callable)
    (args : list Value) (kwargs : gmap string Value) : M Value :=
  match strategy_class self with
  | Descendant_class n => descendant__create_variable n self next_creator args kwargs
  | _ => raise (NotImplementedError must_be_implemented_in_descendants)
  end.

(** [creator_with_resource_vars] of [DistributionStrategy.scope] *)
Definition creator_with_resource_vars_closure (self : Strategy) (next_creator : Callable)
    (args : list Value) (kwargs : gmap string Value) : M Value :=
  _require_distribution_strategy_scope self ;;
  let kwargs := <["use_resource" := VBool true]> kwargs in
  _create_variable self next_creator args kwargs.

(** [distributed_getter] of [DistributionStrategy.scope] *)
Definition distributed_getter_closure (self : Strategy) (getter : Callable)
    (args : list Value) (kwargs : gmap string Value) : M Value :=
  let kwargs :=
    if negb (_allow_variable_partition self)
    then (dict_pop "partitioner" VNone kwargs).2
    else kwargs in
  getter args kwargs.

(** [create_colocated_variable] of [DistributionStrategy.colocate_vars_with] *)
Definition create_colocated_variable (self : Strategy) (colocate_with_variable : Value)
    (next_creator : Callable) (args : list Value) (kwargs : gmap string Value) : M Value :=
  _require_distribution_strategy_scope self ;;
  let kwargs := <["use_resource" := VBool true]> kwargs in
  let kwargs := <["colocate_with" := colocate_with_variable]> kwargs in
  next_creator args kwargs.

(** [creator] of [_DefaultDistributionStrategy.scope] *)
Definition creator_closure (self : Strategy) (next_creator : Callable)
    (args : list Value) (kwargs : gmap string Value) : M Value :=
  _require_distribution_strategy_scope self ;;
  next_creator args kwargs.

End methods.
End DistributionStrategy_creators.

(** * Properties *)

(** The mode that the calling thread is in. *)
Definition current_mode (st : State) : ExecutionMode :=
  distribution_strategy_context.top (mode_stack st).

(** [m] leaves the per-thread stack of modes as it found it. *)
Definition keeps_mode_stack {A} (m : M A) : Prop :=
  ∀ st, mode_stack (m st).2 = mode_stack st.

(** [m] does not touch the state at all. *)
Definition keeps_state {A} (m : M A) : Prop :=
  ∀ st, (m st).2 = st.

(** The first exception of a list of outcomes, or all the results. *)
Fixpoint collect {A} (l : list (Exception + A)) : Exception + list A :=
  match l with
  | [] => inr []
  | inl e :: _ => inl e
  | inr a :: l' =>
      match collect l' with
      | inl e => inl e
      | inr r => inr (a :: r)
      end
  end.

(** ** The argument convention as the specification words it

    Positional arguments come either as trailing arguments or in the
    [args=] container, keyword arguments either directly or in the
    [kwargs=] container; using both styles for one kind is an error. *)

(** The container that a call passes under [key], if any; [key=None] passes
    none. *)
Definition container (kwargs : gmap string Value) (key : string) : option Value :=
  match kwargs !! key with
  | Some v => if is_not_None v then Some v else None
  | None => None
  end.

(** The keyword arguments that are given directly. *)
Definition direct_keywords (kwargs : gmap string Value) : gmap string Value :=
  delete "kwargs" (delete "args" kwargs).

(** What is passed on: the container when there is one, the arguments given
    directly otherwise. *)
Definition forwarded (args : list Value) (kwargs : gmap string Value) : Value * Value :=
  (default (VTuple args) (container kwargs "args"),
   default (VDict (direct_keywords kwargs)) (container kwargs "kwargs")).

Definition argument_convention (method : string) (args : list Value)
    (kwargs : gmap string Value) : Exception + Value * Value :=
  if bool_decide (is_Some (container kwargs "args")) && negb (bool_decide (args = []))
  then inl (ValueError (Cant_pass_args_and_args_to method))
  else
    if bool_decide (is_Some (container kwargs "kwargs"))
       && negb (bool_decide (direct_keywords kwargs = ∅))
    then inl (ValueError (Cant_pass_kwargs_and_kwargs_to method))
    else inr (forwarded args kwargs).

(** Both styles in one call: trailing positional arguments together with an
    [args=] container, or direct keyword arguments together with a [kwargs=]
    container. *)
Definition both_styles (args : list Value) (kwargs : gmap string Value) : Prop :=
  (is_Some (container kwargs "args") ∧ args ≠ []) ∨
  (is_Some (container kwargs "kwargs") ∧ direct_keywords kwargs ≠ ∅).

(** The value of the keyword [key], or [default_] when it is not given. *)
Definition keyword_or (default_ : Value) (kwargs : gmap string Value) (key : string) : Value :=
  match kwargs !! key with
  | Some v => v
  | None => default_
  end.

(** ** Objects for the examples *)

(** A descendant that adds up the integers of a per-replica list in
    [_reduce] and leaves the other hooks unimplemented. *)
Definition summing_hooks : Hooks :=
  {| hook__broadcast := fun _ _ _ =>
       raise (NotImplementedError must_be_implemented_in_descendants);
     hook__run_steps_on_dataset := fun _ _ _ _ _ =>
       raise (NotImplementedError must_be_implemented_in_descendants);
     hook__call_for_each_replica := fun _ _ _ _ =>
       raise (NotImplementedError must_be_implemented_in_descendants);
     hook__reduce := fun _ _ value _ =>
       match value with
       | VList l =>
           ret (VInt (foldr (fun v acc => match v with VInt z => z + acc | _ => acc end)%Z
                        0%Z l))
       | _ => ret value
       end;
     hook__update := fun _ _ _ args kwargs group => ret (VTuple [args; kwargs; group]);
     hook__update_non_slot := fun _ _ _ args kwargs group =>
       ret (VTuple [args; kwargs; group]);
     hook__unwrap := fun _ _ =>
       raise (NotImplementedError must_be_implemented_in_descendants) |}.

Definition example_external : External :=
  {| descendant := fun _ => summing_hooks;
     from_variable_aggregation := fun a =>
       match a with
       | VA_SUM => inr SUM
       | VA_MEAN => inr MEAN
       | VA_ONLY_FIRST_REPLICA => inr ONLY_FIRST_REPLICA
       | VA_NONE => inl (ValueError must_be_implemented_in_descendants)
       end |}.

Definition default_strategy : Strategy :=
  {| strategy_addr := 1; strategy_class := _DefaultDistributionStrategy_class;
     _default_device := None |}.

Definition strategy_A : Strategy :=
  {| strategy_addr := 2; strategy_class := Descendant_class 0;
     _default_device := Some "/device:GPU:0" |}.

Definition strategy_B : Strategy :=
  {| strategy_addr := 3; strategy_class := Descendant_class 0;
     _default_device := None |}.

Definition replica_0 : ReplicaContext :=
  {| replica_context_addr := 4; _distribution_strategy := default_strategy;
     _replica_id_in_sync_group := 0 |}.

(** A thread that has entered nothing. *)
Definition fresh_thread : State :=
  {| mode_stack := []; _update_device_current := VNone;
     variable_creator_stack := []; variable_scope_stack := [];
     device_stack := []; colocation_stack := []; next_addr := 10 |}.

(** A thread whose modes are [stack], top first. *)
Definition thread_in (stack : list ExecutionMode) : State :=
  set_mode_stack (fun _ => stack) fresh_thread.

(** A function that returns the strategy whose cross-replica context it
    runs in, or the replica id of the replica context it runs in. *)
Definition observe_mode : Callable := fun _ _ =>
  mode <- _get_per_thread_mode ;;
  match mode with
  | Default => ret VNone
  | CrossReplica s => ret (VStrategy s)
  | InReplica r => ret (VInt (_replica_id_in_sync_group r))
  end.

(** A replica function that fetches its replica context, as
    [get_replica_context()] does, and merges with [observe_mode]. *)
Definition merging_fn : Callable := fun _ _ =>
  mode <- _get_per_thread_mode ;;
  match distribution_strategy_context.replica_context mode with
  | Some replica_ctx => ReplicaContext.merge_call replica_ctx observe_mode [] ∅
  | None => raise (RuntimeError Need_to_be_inside_call_for_each_replica)
  end.

(** A function that raises. *)
Definition boom : Callable := fun _ _ => raise (Raised (VStr "boom")).

(** A function that returns a tuple of an op and a dictionary with an op. *)
Definition nested_result : Callable := fun _ _ =>
  ret (VTuple [VObject 1; VDict (<["a" := VObject 2]> ∅)]).

(** A function that returns the arguments it is called with. *)
Definition echo : Callable := fun args kwargs => ret (VTuple [VTuple args; VDict kwargs]).

(** ** Code that uses the methods, for the properties of the rest *)

(** [with self.scope() as d: body d] *)
Definition with_strategy_scope {A} (self : Strategy) (body : option Strategy -> M A) : M A :=
  cm <- DistributionStrategy.scope self ;; with_scope cm body.

(** The state in which the body of [with self.scope()] starts. *)
Definition in_scope_of (self : Strategy) (st : State) : State :=
  match (DistributionStrategy.scope self st).1 with
  | inr cm => (scope__enter__ cm st).2
  | inl _ => st
  end.

(** A merge function that reduces its argument to [destinations]:
    [lambda distribution, t: distribution.reduce(op, t, destinations)]. *)
Definition reducing_merge_fn `{External} (op : ReduceOp) (destinations : Value) : Callable :=
  fun args _ =>
    match args with
    | [VStrategy distribution; t] =>
        DistributionStrategy.reduce distribution (ReduceOp_ op) t destinations
    | _ => raise TypeError
    end.

(** [x + y] and [sum(l)] on the integers of the example below. *)
Definition add_int (x y : Value) : M Value :=
  match x, y with
  | VInt a, VInt b => ret (VInt (a + b))
  | _, _ => raise TypeError
  end.

Fixpoint sum_from (acc : Value) (l : list Value) : M Value :=
  match l with
  | [] => ret acc
  | x :: l' => acc' <- add_int acc x ;; sum_from acc' l'
  end.

Definition sum_ (v : Value) : M Value :=
  match iter_value v with
  | Some l => sum_from (VInt 0) l
  | None => raise TypeError
  end.

(** The example of the docstring of [call_for_each_replica]:
    [merge_fn(distribution, three_plus_replica_id)] returns
    [sum(distribution.unwrap(three_plus_replica_id))]. *)
Definition docstring_merge_fn `{External} : Callable := fun args _ =>
  match args with
  | [VStrategy distribution; three_plus_replica_id] =>
      l <- DistributionStrategy.unwrap distribution three_plus_replica_id ;;
      sum_ l
  | _ => raise TypeError
  end.

(** [fn(three)] of the same example. *)
Definition docstring_fn `{External} : Callable := fun args _ =>
  match args with
  | [three] =>
      ctx <- get_replica_context ;;
      match ctx with
      | None => raise AttributeError
      | Some replica_ctx =>
          id <- ReplicaContext.replica_id_in_sync_group replica_ctx ;;
          v <- add_int three (VInt id) ;;
          s <- ReplicaContext.merge_call replica_ctx docstring_merge_fn []
                 (<["args" := VTuple [v]]> ∅) ;;
          add_int s v
      end
  | _ => raise TypeError
  end.

(** The body of its [with distribution.scope():] block, up to the list that
    it prints. *)
Definition docstring_example `{External} (distribution : Strategy) (three : Z) : M Value :=
  with_strategy_scope distribution (fun _ =>
    merged_results <- DistributionStrategy.call_for_each_replica distribution docstring_fn
                        [] (<["args" := VList [VInt three]]> ∅) ;;
    DistributionStrategy.unwrap distribution merged_results).

Definition example_external_rest : External_rest :=
  {| isinstance_Dataset := fun v => match v with VObject _ => true | _ => false end;
     descendant_value_container := fun _ _ value => ret value;
     descendant_num_replicas_in_sync := fun _ _ => ret 2%Z;
     descendant_distribute_dataset := fun _ _ _ st =>
       (inl (Earlier (NotImplementedError must_be_implemented_in_descendants)), st);
     descendant__make_input_fn_iterator := fun _ _ _ _ st =>
       (inl (Earlier (NotImplementedError must_be_implemented_in_descendants)), st) |}.

(** An input function that asks the input context for the per-replica batch
    size of a global batch of 64 and returns a dataset. *)
Definition batching_input_fn : DatasetFn := fun input_context =>
  match input_context with
  | Some c =>
      match InputContext.get_per_replica_batch_size c 64 with
      | inl e => raise e
      | inr b => ret (VObject (Z.to_nat b))
      end
  | None => ret (VObject 0)
  end.

(** A function that returns the update device. *)
Definition observe_update_device : Callable := fun _ _ => get_update_device.

(** Descendants that create a variable by calling the next creator and
    that do not allow partitioned variables. *)
Definition example_external_creators : External_creators :=
  {| descendant__create_variable := fun _ _ next_creator args kwargs =>
       next_creator args kwargs;
     descendant__allow_variable_partition := fun _ _ => false |}.

(** A replica function that returns the replica id of its own replica
    context, fetched with [get_replica_context()]. *)
Definition own_replica_id : Callable := fun _ _ =>
  ctx <- get_replica_context ;;
  match ctx with
  | Some replica_ctx =>
      id <- ReplicaContext.replica_id_in_sync_group replica_ctx ;; ret (VInt id)
  | None => raise AttributeError
  end.

(** A function that asks the replica context [replica_ctx], which it got
    from elsewhere, for its replica id. *)
Definition replica_id_of (replica_ctx : ReplicaContext) : Callable := fun _ _ =>
  id <- ReplicaContext.replica_id_in_sync_group replica_ctx ;; ret (VInt id).

(** A replica function that reads, from its own replica context, the
    replica id and the number of replicas in sync. *)
Definition replica_id_and_count `{External_rest} : Callable := fun _ _ =>
  ctx <- get_replica_context ;;
  match ctx with
  | Some replica_ctx =>
      id <- ReplicaContext.replica_id_in_sync_group replica_ctx ;;
      n <- DistributionStrategy_rest.ReplicaContext_num_replicas_in_sync replica_ctx ;;
      ret (VTuple [VInt id; VInt n])
  | None => raise AttributeError
  end.

(** The replica context that [_call_for_each_replica] of the default
    strategy makes in the state [st]. *)
Definition replica_context_made_in (self : Strategy) (st : State) : ReplicaContext :=
  {| replica_context_addr := next_addr st;
     _distribution_strategy := self;
     _replica_id_in_sync_group := 0 |}.

(** ** InputContext *)

Lemma get_per_replica_batch_size_nonzero (c : InputContext.t) (g : Z) :
  InputContext.num_replicas_in_sync c ≠ 0%Z →
  InputContext.get_per_replica_batch_size c g =
    if decide (g mod InputContext.num_replicas_in_sync c = 0)%Z
    then inr (g / InputContext.num_replicas_in_sync c)%Z
    else inl (ValueError (Not_divisible g (InputContext.num_replicas_in_sync c))).
Proof.
  intros Hn.
  unfold InputContext.get_per_replica_batch_size, InputContext.py_mod,
    InputContext.py_floordiv, InputContext.num_replicas_in_sync in *.
  destruct (Z.eqb_spec (InputContext._num_replicas_in_sync c) 0) as [E|_]; [done|].
  destruct (Z.eqb_spec (g mod InputContext._num_replicas_in_sync c) 0) as [E|E];
    simpl; case_decide; done.
Qed.

(** C5.  For an input context whose number of replicas in sync is not zero
    and every integer global batch size [g]: [get_per_replica_batch_size]
    raises an error exactly when [g] is not a multiple of
    [num_replicas_in_sync] (and then it is the ValueError that names both
    numbers); otherwise it returns the quotient, which is exact: multiplied
    by [num_replicas_in_sync] it gives [g] back. *)
Theorem C5_get_per_replica_batch_size (c : InputContext.t) (g : Z) :
  InputContext.num_replicas_in_sync c ≠ 0%Z →
  let n := InputContext.num_replicas_in_sync c in
  ((∃ e, InputContext.get_per_replica_batch_size c g = inl e) ↔ ¬ (n | g)%Z) ∧
  (¬ (n | g)%Z →
     InputContext.get_per_replica_batch_size c g = inl (ValueError (Not_divisible g n))) ∧
  ((n | g)%Z →
     InputContext.get_per_replica_batch_size c g = inr (g / n)%Z ∧ (n * (g / n) = g)%Z).
Proof.
  intros Hn n.
  rewrite (get_per_replica_batch_size_nonzero c g Hn). fold n.
  assert (Hdiv : (n | g)%Z ↔ (g mod n = 0)%Z).
  { split; intros Hd.
    - by apply Z.mod_divide.
    - by apply Z.mod_divide in Hd. }
  case_decide as Hm.
  - split_and!.
    + split; [intros [e ?]; done | intros Hnd; exfalso; apply Hnd, Hdiv, Hm].
    + intros Hnd. exfalso. apply Hnd, Hdiv, Hm.
    + intros _. split; [done|]. symmetry. by apply Z.div_exact.
  - split_and!.
    + split; [intros _ Hd; apply Hm, Hdiv, Hd | intros _; eauto].
    + done.
    + intros Hd. exfalso. apply Hm, Hdiv, Hd.
Qed.

(** 64 with 8 replicas in sync gives 8, and 64 with 7 raises. *)
Lemma C5_get_per_replica_batch_size_witness :
  InputContext.get_per_replica_batch_size (InputContext.__init__ 1 0 8) 64 = inr 8%Z ∧
  InputContext.get_per_replica_batch_size (InputContext.__init__ 1 0 7) 64
    = inl (ValueError (Not_divisible 64 7)).
Proof.
  split.
  - refine (proj1 (proj2 (proj2
      (C5_get_per_replica_batch_size (InputContext.__init__ 1 0 8) 64 _)) _)).
    + discriminate.
    + exists 8%Z. reflexivity.
  - refine (proj1 (proj2
      (C5_get_per_replica_batch_size (InputContext.__init__ 1 0 7) 64 _)) _).
    + discriminate.
    + intros [q Hq]. simpl in Hq. lia.
Defined.

(** ** The mode guards *)

Lemma is_true_iff {A} `{EqDecision A} (x y : A) : is_ x y = true ↔ x = y.
Proof. unfold is_. apply bool_decide_eq_true. Qed.

Lemma is_refl {A} `{EqDecision A} (x : A) : is_ x x = true.
Proof. by apply is_true_iff. Qed.

Lemma is_ne {A} `{EqDecision A} (x y : A) : x ≠ y → is_ x y = false.
Proof. unfold is_. apply bool_decide_eq_false_2. Qed.

(** What the guard does, mode by mode. *)
Lemma _require_cross_replica_context_eq (s : Strategy) (st : State) :
  _require_cross_replica_context s st =
    (match current_mode st with
     | Default => inl (RuntimeError (Need_to_be_inside_scope_for s))
     | CrossReplica s' =>
         if decide (s' = s) then inr tt
         else inl (RuntimeError (Mixing_different_DistributionStrategy_objects (Some s') s))
     | InReplica r =>
         if decide (_distribution_strategy r = s)
         then inl (RuntimeError Method_requires_cross_replica_context_use_merge_call)
         else inl (RuntimeError (Mixing_different_DistributionStrategy_objects
                      (Some (_distribution_strategy r)) s))
     end, st).
Proof.
  unfold _require_cross_replica_context, bind, _get_per_thread_mode,
    distribution_strategy_context._get_per_thread_mode,
    distribution_strategy_context.has_distribution_strategy, current_mode.
  destruct (distribution_strategy_context.top (mode_stack st)) as [|s'|r] eqn:Et; cbn.
  - rewrite !is_ne by done. cbn. by rewrite Et.
  - case_decide as E.
    + subst s'. by rewrite is_refl.
    + rewrite !is_ne by congruence. cbn. by rewrite Et.
  - case_decide as E.
    + rewrite E, is_refl, is_ne by done. cbn. by rewrite is_refl.
    + rewrite !is_ne by congruence. cbn. by rewrite Et.
Qed.

Lemma _require_cross_replica_context_ok (s : Strategy) (st : State) :
  current_mode st = CrossReplica s → _require_cross_replica_context s st = (inr tt, st).
Proof.
  intros E. rewrite _require_cross_replica_context_eq, E. by rewrite decide_True.
Qed.

Lemma _require_cross_replica_context_state (s : Strategy) (st : State) :
  (_require_cross_replica_context s st).2 = st.
Proof. by rewrite _require_cross_replica_context_eq. Qed.

(** A failing guard is the outcome of every operation that starts with it. *)
Lemma bind_guard_fails {A} (s : Strategy) (k : unit → M A) (st : State) (e : Exception) :
  (_require_cross_replica_context s st).1 = inl e →
  (x <- _require_cross_replica_context s ;; k x) st = (inl e, st).
Proof.
  intros E. unfold bind.
  pose proof (_require_cross_replica_context_state s st) as Hst.
  destruct (_require_cross_replica_context s st) as [[e'|[]] st']; simpl in *; congruence.
Qed.

Lemma bind_guard_ok {A} (s : Strategy) (k : unit → M A) (st : State) :
  current_mode st = CrossReplica s →
  (x <- _require_cross_replica_context s ;; k x) st = k tt st.
Proof.
  intros E. unfold bind. by rewrite (_require_cross_replica_context_ok s st E).
Qed.

Lemma _require_cross_replica_context_fails (s : Strategy) (st : State) :
  current_mode st ≠ CrossReplica s →
  ∃ e, _require_cross_replica_context s st = (inl e, st).
Proof.
  intros Hmode. rewrite _require_cross_replica_context_eq.
  destruct (current_mode st) as [|s'|r]; [by eexists| |].
  - case_decide; [congruence|by eexists].
  - case_decide; by eexists.
Qed.

(** C3.  For every strategy [s] and every thread state, the cross-replica
    guard never changes the state, and it returns normally exactly when the
    current mode is the cross-replica context of the very object [s].
    Otherwise it raises a RuntimeError whose message tells three causes
    apart: no strategy scope is active (the mode is [Default]); the current
    strategy is another object, and the message names both (in a scope or
    in a replica context of the other strategy); the thread is in a replica
    context of [s], and the message points to [merge_call].  A failing guard
    is the outcome, with the state untouched, of [reduce], [batch_reduce],
    [broadcast], [update], [update_non_slot], [call_for_each_replica] and
    [run_steps_on_dataset], which all start with it. *)
Theorem C3_require_cross_replica_context `{External} (s : Strategy) (st : State) :
  (_require_cross_replica_context s st).2 = st ∧
  ((_require_cross_replica_context s st).1 = inr tt ↔ current_mode st = CrossReplica s) ∧
  (current_mode st = Default →
     (_require_cross_replica_context s st).1
       = inl (RuntimeError (Need_to_be_inside_scope_for s))) ∧
  (∀ s', current_mode st = CrossReplica s' → s' ≠ s →
     (_require_cross_replica_context s st).1
       = inl (RuntimeError (Mixing_different_DistributionStrategy_objects (Some s') s))) ∧
  (∀ r, current_mode st = InReplica r → _distribution_strategy r ≠ s →
     (_require_cross_replica_context s st).1
       = inl (RuntimeError (Mixing_different_DistributionStrategy_objects
                              (Some (_distribution_strategy r)) s))) ∧
  (∀ r, current_mode st = InReplica r → _distribution_strategy r = s →
     (_require_cross_replica_context s st).1
       = inl (RuntimeError Method_requires_cross_replica_context_use_merge_call)) ∧
  (∀ e, (_require_cross_replica_context s st).1 = inl e →
     (∀ aggregation value destinations,
        DistributionStrategy.reduce s aggregation value destinations st = (inl e, st)) ∧
     (∀ aggregation pairs,
        DistributionStrategy.batch_reduce s aggregation pairs st = (inl e, st)) ∧
     (∀ tensor destinations,
        DistributionStrategy.broadcast s tensor destinations st = (inl e, st)) ∧
     (∀ var fn args kwargs,
        DistributionStrategy.update s var fn args kwargs st = (inl e, st)) ∧
     (∀ colocate_with fn args kwargs,
        DistributionStrategy.update_non_slot s colocate_with fn args kwargs st = (inl e, st)) ∧
     (∀ fn args kwargs,
        DistributionStrategy.call_for_each_replica s fn args kwargs st = (inl e, st)) ∧
     (∀ fn iterator iterations initial_loop_values,
        DistributionStrategy.run_steps_on_dataset s fn iterator iterations
          initial_loop_values st = (inl e, st))).
Proof.
  split_and!.
  - apply _require_cross_replica_context_state.
  - rewrite _require_cross_replica_context_eq.
    destruct (current_mode st) as [|s'|r]; simpl.
    + split; discriminate.
    + case_decide as E; simpl; split; try discriminate; try congruence.
    + case_decide; simpl; split; discriminate.
  - intros E. by rewrite _require_cross_replica_context_eq, E.
  - intros s' E Hne. rewrite _require_cross_replica_context_eq, E. by rewrite decide_False.
  - intros r E Hne. rewrite _require_cross_replica_context_eq, E. by rewrite decide_False.
  - intros r E Heq. rewrite _require_cross_replica_context_eq, E. by rewrite decide_True.
  - intros e He. split_and!; intros.
    + unfold DistributionStrategy.reduce. by apply bind_guard_fails.
    + unfold DistributionStrategy.batch_reduce. by apply bind_guard_fails.
    + unfold DistributionStrategy.broadcast. by apply bind_guard_fails.
    + unfold DistributionStrategy.update. by apply bind_guard_fails.
    + unfold DistributionStrategy.update_non_slot. by apply bind_guard_fails.
    + unfold DistributionStrategy.call_for_each_replica. by apply bind_guard_fails.
    + unfold DistributionStrategy.run_steps_on_dataset. by apply bind_guard_fails.
Qed.

(** The four outcomes of the guard on concrete threads, and a [reduce]
    called from inside a replica context. *)
Example _require_cross_replica_context_examples :
  _require_cross_replica_context strategy_A (thread_in [CrossReplica strategy_A])
    = (inr tt, thread_in [CrossReplica strategy_A]) ∧
  (_require_cross_replica_context default_strategy fresh_thread).1
    = inl (RuntimeError (Need_to_be_inside_scope_for default_strategy)) ∧
  (_require_cross_replica_context strategy_A (thread_in [CrossReplica strategy_B])).1
    = inl (RuntimeError
             (Mixing_different_DistributionStrategy_objects (Some strategy_B) strategy_A)) ∧
  (_require_cross_replica_context default_strategy
     (thread_in [InReplica replica_0; CrossReplica default_strategy])).1
    = inl (RuntimeError Method_requires_cross_replica_context_use_merge_call) ∧
  (@DistributionStrategy.reduce example_external default_strategy (ReduceOp_ SUM)
     (VInt 1) VNone (thread_in [InReplica replica_0; CrossReplica default_strategy])).1
    = inl (RuntimeError Method_requires_cross_replica_context_use_merge_call).
Proof. split_and!; vm_compute; reflexivity. Qed.

(** ** Code that leaves the stack of modes alone *)

Lemma keeps_mode_stack_ret {A} (a : A) : keeps_mode_stack (ret a).
Proof. by intros st. Qed.

Lemma keeps_mode_stack_raise {A} (e : Exception) : keeps_mode_stack (@raise A e).
Proof. by intros st. Qed.

Lemma keeps_mode_stack_bind {A B} (m : M A) (k : A → M B) :
  keeps_mode_stack m → (∀ a, keeps_mode_stack (k a)) → keeps_mode_stack (x <- m ;; k x).
Proof.
  intros Hm Hk st. unfold bind. specialize (Hm st).
  destruct (m st) as [[e|a] st']; simpl in *; [done|].
  by rewrite Hk.
Qed.

Lemma try_finally_ret_tt {A} (m : M A) (st : State) : try_finally m (ret tt) st = m st.
Proof. unfold try_finally, ret. by destruct (m st). Qed.

Lemma keeps_mode_stack_call (fn : Callable) (first : list Value) (args kwargs : Value) :
  (∀ a k, keeps_mode_stack (fn a k)) → keeps_mode_stack (call fn first args kwargs).
Proof.
  intros Hfn. unfold call.
  destruct (iter_value args), (mapping_value kwargs);
    first [apply Hfn | apply keeps_mode_stack_raise].
Qed.

Lemma keeps_mode_stack_guard (s : Strategy) :
  keeps_mode_stack (_require_cross_replica_context s).
Proof. intros st. by rewrite _require_cross_replica_context_state. Qed.

Create HintDb mode_stack.
#[local] Hint Resolve keeps_mode_stack_ret keeps_mode_stack_raise keeps_mode_stack_guard
  : mode_stack.

(** Entering pushes a mode, the body keeps the stack, leaving pops: the
    outcome is the body's, run under the pushed mode, and the stack is back
    to what it was, whether the body returned or raised. *)
Lemma with_push_pop {A} (mode : ExecutionMode) (body : M A) (st : State) :
  keeps_mode_stack body →
  with_ (_push_per_thread_mode mode) (fun _ => _pop_per_thread_mode) (fun _ => body) st =
    ((body (set_mode_stack (cons mode) st)).1,
     set_mode_stack (fun _ => mode_stack st) (body (set_mode_stack (cons mode) st)).2).
Proof.
  intros Hbody.
  unfold with_, bind, try_finally, _push_per_thread_mode, _pop_per_thread_mode,
    distribution_strategy_context._push_per_thread_mode,
    distribution_strategy_context._pop_per_thread_mode, modify.
  specialize (Hbody (set_mode_stack (cons mode) st)).
  destruct (body (set_mode_stack (cons mode) st)) as [res st2]. simpl in *.
  by rewrite Hbody.
Qed.

(** The lines shared by the four methods compute the convention of the
    specification; they read no state and change none. *)
Lemma container_lookup (kwargs : gmap string Value) (key : string) :
  bool_decide (is_Some (container kwargs key))
    = match kwargs !! key with Some v => is_not_None v | None => false end.
Proof.
  unfold container. destruct (kwargs !! key) as [v|]; [destruct (is_not_None v)|].
  - by apply bool_decide_eq_true_2.
  - apply bool_decide_eq_false_2. by intros [? ?].
  - apply bool_decide_eq_false_2. by intros [? ?].
Qed.

Lemma handle_old_and_new_args_eq (method : string) (args : list Value)
    (kwargs : gmap string Value) (st : State) :
  handle_old_and_new_args method args kwargs st
    = (argument_convention method args kwargs, st).
Proof.
  unfold handle_old_and_new_args, argument_convention, forwarded, dict_pop, bind.
  rewrite !container_lookup. unfold container, direct_keywords.
  rewrite lookup_delete_ne by done.
  destruct (kwargs !! "args") as [a|]; [destruct (is_not_None a)|];
    cbn [truthy andb]; try destruct (bool_decide (args = [])); cbn;
    (destruct (kwargs !! "kwargs") as [k|]; [destruct (is_not_None k)|]);
    cbn [truthy andb]; try destruct (bool_decide (_ = ∅)); done.
Qed.

Lemma container_None (kwargs : gmap string Value) (key : string) :
  kwargs !! key = None → container kwargs key = None.
Proof. unfold container. by intros ->. Qed.

(** Arguments given directly, with no container, are passed on as they
    are. *)
Lemma argument_convention_direct (method : string) (args : list Value)
    (kwargs : gmap string Value) :
  kwargs !! "args" = None → kwargs !! "kwargs" = None →
  argument_convention method args kwargs = inr (VTuple args, VDict kwargs).
Proof.
  intros Ha Hk. unfold argument_convention, forwarded.
  rewrite !container_None by done.
  rewrite (bool_decide_eq_false_2 (is_Some None)) by (by intros [? ?]). cbn.
  unfold direct_keywords. by rewrite !delete_id by (by rewrite ?lookup_delete_ne).
Qed.

Lemma keeps_mode_stack_handle (method : string) (args : list Value)
    (kwargs : gmap string Value) :
  keeps_mode_stack (handle_old_and_new_args method args kwargs).
Proof. intros st. by rewrite handle_old_and_new_args_eq. Qed.

(** ** merge_call *)

(** What the replica guard does, mode by mode. *)
Lemma require_replica_context_eq (r : ReplicaContext) (st : State) :
  require_replica_context r st =
    (match current_mode st with
     | InReplica r' =>
         if decide (r' = r) then inr tt
         else if decide (_distribution_strategy r' = _distribution_strategy r)
              then inl (RuntimeError Mismatching_replica_context)
              else inl (RuntimeError (Mismatching_DistributionStrategy_objects
                           (Some (_distribution_strategy r')) (_distribution_strategy r)))
     | _ => inl (RuntimeError Need_to_be_inside_call_for_each_replica)
     end, st).
Proof.
  unfold require_replica_context, bind, _get_per_thread_mode,
    distribution_strategy_context._get_per_thread_mode, current_mode.
  destruct (distribution_strategy_context.top (mode_stack st)) as [|s'|r']; cbn.
  - by rewrite is_ne, is_refl by done.
  - by rewrite is_ne, is_refl by done.
  - case_decide as E.
    + subst r'. by rewrite is_refl.
    + rewrite !is_ne by congruence. case_decide as E'.
      * by rewrite E', is_refl.
      * by rewrite is_ne by congruence.
Qed.

Lemma require_replica_context_ok (r : ReplicaContext) (st : State) :
  current_mode st = InReplica r → require_replica_context r st = (inr tt, st).
Proof.
  unfold current_mode. intros E.
  unfold require_replica_context, bind, _get_per_thread_mode,
    distribution_strategy_context._get_per_thread_mode.
  rewrite E. cbn. by rewrite is_refl.
Qed.

Lemma _merge_call_eq (r : ReplicaContext) (merge_fn : Callable) (args kwargs : Value)
    (st : State) :
  (∀ a k, keeps_mode_stack (merge_fn a k)) →
  let body := call merge_fn [VStrategy (_distribution_strategy r)] args kwargs in
  let st_in := set_mode_stack (cons (CrossReplica (_distribution_strategy r))) st in
  ReplicaContext._merge_call r merge_fn args kwargs st =
    ((body st_in).1, set_mode_stack (fun _ => mode_stack st) (body st_in).2).
Proof.
  intros Hfn body st_in.
  apply (with_push_pop (CrossReplica (_distribution_strategy r)) body st).
  by apply keeps_mode_stack_call.
Qed.

Lemma keeps_mode_stack_require_replica_context (r : ReplicaContext) :
  keeps_mode_stack (require_replica_context r).
Proof.
  intros st. unfold require_replica_context, bind, _get_per_thread_mode,
    distribution_strategy_context._get_per_thread_mode. cbn.
  repeat (match goal with |- context [if ?b then _ else _] => destruct b end; simpl);
    reflexivity.
Qed.

#[local] Hint Resolve keeps_mode_stack_handle keeps_mode_stack_require_replica_context
  : mode_stack.

Lemma keeps_mode_stack_merge_call (r : ReplicaContext) (merge_fn : Callable)
    (args : list Value) (kwargs : gmap string Value) :
  (∀ a k, keeps_mode_stack (merge_fn a k)) →
  keeps_mode_stack (ReplicaContext.merge_call r merge_fn args kwargs).
Proof.
  intros Hfn. unfold ReplicaContext.merge_call.
  apply keeps_mode_stack_bind; [auto with mode_stack|]. intros _.
  apply keeps_mode_stack_bind; [auto with mode_stack|].
  intros p st. by rewrite _merge_call_eq.
Qed.

(** C1.  Let [merge_call] be called on the replica context [r] by a thread
    whose current mode is the replica context [r], with a merge function that
    leaves the stack of modes as it found it (as every function does that
    changes modes only through [scope], [call_for_each_replica] and
    [merge_call]).  Then the stack of modes after the call is the one before
    it, so the current mode is the replica mode of [r] again, whether
    [merge_fn] returned, raised, or was not reached because the arguments
    were refused.  And when the argument convention accepts the arguments
    and passes on a sequence and a dictionary (as it does for arguments
    given directly, with no container), [merge_fn] runs once, on the
    strategy of [r] followed by the arguments, in the state where the
    cross-replica mode of that strategy has been pushed on top: the outcome
    of [merge_call], result or exception, is the outcome of that run. *)
Theorem C1_merge_call (r : ReplicaContext) (merge_fn : Callable)
    (args : list Value) (kwargs : gmap string Value) (st : State) :
  current_mode st = InReplica r →
  (∀ a k, keeps_mode_stack (merge_fn a k)) →
  let s := _distribution_strategy r in
  let st_in := set_mode_stack (cons (CrossReplica s)) st in
  mode_stack (ReplicaContext.merge_call r merge_fn args kwargs st).2 = mode_stack st ∧
  current_mode (ReplicaContext.merge_call r merge_fn args kwargs st).2 = InReplica r ∧
  current_mode st_in = CrossReplica s ∧
  mode_stack st_in = CrossReplica s :: mode_stack st ∧
  (∀ a k l d,
     argument_convention "merge_call" args kwargs = inr (a, k) →
     iter_value a = Some l → mapping_value k = Some d →
     ReplicaContext.merge_call r merge_fn args kwargs st =
       ((merge_fn (VStrategy s :: l) d st_in).1,
        set_mode_stack (fun _ => mode_stack st) (merge_fn (VStrategy s :: l) d st_in).2)) ∧
  (kwargs !! "args" = None → kwargs !! "kwargs" = None →
     ReplicaContext.merge_call r merge_fn args kwargs st =
       ((merge_fn (VStrategy s :: args) kwargs st_in).1,
        set_mode_stack (fun _ => mode_stack st)
          (merge_fn (VStrategy s :: args) kwargs st_in).2)).
Proof.
  intros Hmode Hfn s st_in.
  assert (Hkeep : mode_stack (ReplicaContext.merge_call r merge_fn args kwargs st).2
                  = mode_stack st)
    by by apply keeps_mode_stack_merge_call.
  assert (Hrun : ∀ a k l d,
     argument_convention "merge_call" args kwargs = inr (a, k) →
     iter_value a = Some l → mapping_value k = Some d →
     ReplicaContext.merge_call r merge_fn args kwargs st =
       ((merge_fn (VStrategy s :: l) d st_in).1,
        set_mode_stack (fun _ => mode_stack st) (merge_fn (VStrategy s :: l) d st_in).2)).
  { intros a k l d Hargs Hl Hd.
    unfold ReplicaContext.merge_call, bind.
    rewrite (require_replica_context_ok r st Hmode).
    rewrite handle_old_and_new_args_eq, Hargs. simpl.
    rewrite _merge_call_eq by done.
    unfold call. by rewrite Hl, Hd. }
  split_and!; try done.
  - unfold current_mode. by rewrite Hkeep.
  - intros Ha Hk.
    by apply (Hrun (VTuple args) (VDict kwargs) args kwargs);
      [apply argument_convention_direct|..].
Qed.

Lemma keeps_mode_stack_observe_mode (a : list Value) (k : gmap string Value) :
  keeps_mode_stack (observe_mode a k).
Proof.
  intros st. unfold observe_mode, bind, _get_per_thread_mode,
    distribution_strategy_context._get_per_thread_mode.
  by destruct (distribution_strategy_context.top (mode_stack st)).
Qed.

Lemma keeps_mode_stack_boom (a : list Value) (k : gmap string Value) :
  keeps_mode_stack (boom a k).
Proof. by intros st. Qed.

(** In the replica context [replica_0] of the default strategy, a merge
    function sees the cross-replica context of that strategy, and the replica
    mode is back afterwards, also when the merge function raises. *)
Lemma C1_merge_call_witness :
  let st := thread_in [InReplica replica_0; CrossReplica default_strategy] in
  ReplicaContext.merge_call replica_0 observe_mode [] ∅ st
    = (inr (VStrategy default_strategy), st) ∧
  ReplicaContext.merge_call replica_0 boom [VInt 1] ∅ st
    = (inl (Raised (VStr "boom")), st).
Proof.
  intros st. split.
  - destruct (C1_merge_call replica_0 observe_mode [] ∅ st eq_refl
                keeps_mode_stack_observe_mode) as (_ & _ & _ & _ & _ & Hrun).
    rewrite Hrun; reflexivity.
  - destruct (C1_merge_call replica_0 boom [VInt 1] ∅ st eq_refl
                keeps_mode_stack_boom) as (_ & _ & _ & _ & _ & Hrun).
    rewrite Hrun; reflexivity.
Defined.

(** ** call_for_each_replica *)

Lemma keeps_mode_stack_value_pop (key : string) (v : Value) :
  keeps_mode_stack (value_pop key v).
Proof. intros st. by destruct v. Qed.

(** The hook of the default strategy: [fn] runs once, in the replica context
    of a new [ReplicaContext] object with replica id 0, and the mode is
    popped whether [fn] returned or raised. *)
Lemma _DefaultDistributionStrategy__call_for_each_replica_eq (s : Strategy)
    (fn : Callable) (args kwargs : Value) (st : State) :
  (∀ a k, keeps_mode_stack (fn a k)) →
  let ctx := {| replica_context_addr := next_addr st;
                _distribution_strategy := s;
                _replica_id_in_sync_group := 0 |} in
  let st_in := set_mode_stack (cons (InReplica ctx)) (set_next_addr (S (next_addr st)) st) in
  _DefaultDistributionStrategy._call_for_each_replica s fn args kwargs st =
    ((call fn [] args kwargs st_in).1,
     set_mode_stack (fun _ => mode_stack st) (call fn [] args kwargs st_in).2).
Proof.
  intros Hfn ctx st_in.
  assert (Hinit : ReplicaContext.__init__ s 0 st
                  = (inr ctx, set_next_addr (S (next_addr st)) st)) by reflexivity.
  unfold _DefaultDistributionStrategy._call_for_each_replica, bind. rewrite Hinit.
  unfold ReplicaContext.__enter__, ReplicaContext.__exit__, ReplicaContext._thread_context,
    distribution_strategy_context._InReplicaThreadMode.
  apply (with_push_pop (InReplica ctx) (call fn [] args kwargs)).
  by apply keeps_mode_stack_call.
Qed.

Lemma keeps_mode_stack__call_for_each_replica `{External} (s : Strategy)
    (fn : Callable) (args kwargs : Value) :
  (∀ n, strategy_class s ≠ Descendant_class n) →
  (∀ a k, keeps_mode_stack (fn a k)) →
  keeps_mode_stack (DistributionStrategy._call_for_each_replica s fn args kwargs).
Proof.
  intros Hclass Hfn st. unfold DistributionStrategy._call_for_each_replica.
  destruct (strategy_class s) as [| |n] eqn:E.
  - reflexivity.
  - by rewrite _DefaultDistributionStrategy__call_for_each_replica_eq.
  - by destruct (Hclass n).
Qed.

#[local] Hint Resolve keeps_mode_stack_value_pop : mode_stack.

Lemma keeps_mode_stack_call_for_each_replica `{External} (s : Strategy)
    (fn : Callable) (args : list Value) (kwargs : gmap string Value) :
  (∀ n, strategy_class s ≠ Descendant_class n) →
  (∀ a k, keeps_mode_stack (fn a k)) →
  keeps_mode_stack (DistributionStrategy.call_for_each_replica s fn args kwargs).
Proof.
  intros Hclass Hfn. unfold DistributionStrategy.call_for_each_replica.
  apply keeps_mode_stack_bind; [auto with mode_stack|]. intros _.
  apply keeps_mode_stack_bind; [auto with mode_stack|]. intros p.
  apply keeps_mode_stack_bind; [auto with mode_stack|]. intros k.
  by apply keeps_mode_stack__call_for_each_replica.
Qed.

(** A [with] block over what [scope()] returned pushes and pops one mode
    when it installs the strategy, and none when it passes through. *)
Lemma keeps_mode_stack_with_scope {A} (cm : ScopeContextManager)
    (body : option Strategy → M A) :
  (∀ x, keeps_mode_stack (body x)) → keeps_mode_stack (with_scope cm body).
Proof.
  intros Hbody st. destruct cm as [c|c].
  - unfold with_scope, with_, scope__enter__, scope__exit__,
      _CurrentDistributionContext.__enter__, _CurrentDistributionContext.__exit__,
      variable_scope.variable_scope__enter__, variable_scope.variable_scope__exit__,
      variable_scope.variable_creator_scope__enter__,
      variable_scope.variable_creator_scope__exit__,
      ops.device__enter__, ops.device__exit__, _push_per_thread_mode, _pop_per_thread_mode,
      distribution_strategy_context._push_per_thread_mode,
      distribution_strategy_context._pop_per_thread_mode, try_finally, bind, modify, ret.
    destruct (_CurrentDistributionContext._var_scope c),
      (_CurrentDistributionContext._device_scope c); cbn;
      match goal with |- context [body ?x ?st'] =>
        pose proof (Hbody x st') as Hb; destruct (body x st') as [res st2]
      end; cbn in *; by rewrite Hb.
  - unfold with_scope, with_, bind. cbn. rewrite try_finally_ret_tt. apply Hbody.
Qed.

(** C2.  For every strategy of a class of this file (the base class or the
    default strategy) and every replica function that leaves the stack of
    modes as it found it, the stack of modes after
    [call_for_each_replica] is the one before the call: the same entries in
    the same order, whether the guard or the argument check refused the
    call, or [fn] returned, or [fn] raised.  For the default strategy the
    replica mode is really pushed and popped: [fn] runs in the state where
    the mode of a new replica context with replica id 0 is on top of the
    caller's stack, and its outcome, result or exception, is the outcome of
    the hook, and of the whole call when the arguments are given directly. *)
Theorem C2_call_for_each_replica `{External} (s : Strategy) (fn : Callable)
    (args : list Value) (kwargs : gmap string Value) (st : State) :
  (∀ n, strategy_class s ≠ Descendant_class n) →
  (∀ a k, keeps_mode_stack (fn a k)) →
  mode_stack (DistributionStrategy.call_for_each_replica s fn args kwargs st).2
    = mode_stack st ∧
  (strategy_class s = _DefaultDistributionStrategy_class →
   ∀ a k l d, iter_value a = Some l → mapping_value k = Some d →
     let ctx := {| replica_context_addr := next_addr st;
                   _distribution_strategy := s;
                   _replica_id_in_sync_group := 0 |} in
     let st_in := set_mode_stack (cons (InReplica ctx))
                    (set_next_addr (S (next_addr st)) st) in
     mode_stack st_in = InReplica ctx :: mode_stack st ∧
     DistributionStrategy._call_for_each_replica s fn a k st =
       ((fn l d st_in).1, set_mode_stack (fun _ => mode_stack st) (fn l d st_in).2)) ∧
  (strategy_class s = _DefaultDistributionStrategy_class →
   current_mode st = CrossReplica s →
   kwargs !! "args" = None → kwargs !! "kwargs" = None →
   kwargs !! "run_concurrently" = None →
     let ctx := {| replica_context_addr := next_addr st;
                   _distribution_strategy := s;
                   _replica_id_in_sync_group := 0 |} in
     let st_in := set_mode_stack (cons (InReplica ctx))
                    (set_next_addr (S (next_addr st)) st) in
     DistributionStrategy.call_for_each_replica s fn args kwargs st =
       ((fn args kwargs st_in).1,
        set_mode_stack (fun _ => mode_stack st) (fn args kwargs st_in).2)).
Proof.
  intros Hclass Hfn.
  assert (Hhook : strategy_class s = _DefaultDistributionStrategy_class →
   ∀ a k l d, iter_value a = Some l → mapping_value k = Some d →
     DistributionStrategy._call_for_each_replica s fn a k st =
       ((fn l d (set_mode_stack
                   (cons (InReplica {| replica_context_addr := next_addr st;
                                       _distribution_strategy := s;
                                       _replica_id_in_sync_group := 0 |}))
                   (set_next_addr (S (next_addr st)) st))).1,
        set_mode_stack (fun _ => mode_stack st)
          (fn l d (set_mode_stack
                     (cons (InReplica {| replica_context_addr := next_addr st;
                                         _distribution_strategy := s;
                                         _replica_id_in_sync_group := 0 |}))
                     (set_next_addr (S (next_addr st)) st))).2)).
  { intros E a k l d Hl Hd.
    unfold DistributionStrategy._call_for_each_replica. rewrite E.
    rewrite _DefaultDistributionStrategy__call_for_each_replica_eq by done.
    unfold call. by rewrite Hl, Hd. }
  split_and!.
  - by apply keeps_mode_stack_call_for_each_replica.
  - intros E a k l d Hl Hd ctx st_in. split; [done|]. by apply Hhook.
  - intros E Hmode Ha Hk Hrc ctx st_in.
    unfold DistributionStrategy.call_for_each_replica.
    rewrite bind_guard_ok by done. unfold bind at 1.
    rewrite handle_old_and_new_args_eq, argument_convention_direct by done.
    unfold bind, value_pop, ret. cbn [fst snd].
    rewrite delete_id by done.
    by apply Hhook.
Qed.

Lemma keeps_mode_stack_merging_fn (a : list Value) (k : gmap string Value) :
  keeps_mode_stack (merging_fn a k).
Proof.
  unfold merging_fn. apply keeps_mode_stack_bind; [by intros st|]. intros mode.
  destruct (distribution_strategy_context.replica_context mode) as [r|];
    [|auto with mode_stack].
  apply keeps_mode_stack_merge_call, keeps_mode_stack_observe_mode.
Qed.

(** The default strategy, called in its own scope: a replica function that
    raises leaves the stack of modes as it was, and a replica function that
    merges gets back what the merge function saw, the cross-replica context
    of the strategy, with the state as before but for the address used. *)
Lemma C2_call_for_each_replica_witness :
  let st := thread_in [CrossReplica default_strategy] in
  mode_stack (@DistributionStrategy.call_for_each_replica example_external
                default_strategy boom [VInt 1] ∅ st).2
    = [CrossReplica default_strategy] ∧
  @DistributionStrategy._call_for_each_replica example_external
     default_strategy merging_fn (VTuple []) (VDict ∅) st
    = (inr (VStrategy default_strategy), set_next_addr 11 st).
Proof.
  intros st. split.
  - apply (@C2_call_for_each_replica example_external default_strategy boom [VInt 1] ∅ st).
    + intros n. discriminate.
    + apply keeps_mode_stack_boom.
  - destruct (@C2_call_for_each_replica example_external default_strategy merging_fn
                [] ∅ st ltac:(intros n; discriminate) keeps_mode_stack_merging_fn)
      as (_ & Hrun & _).
    destruct (Hrun eq_refl (VTuple []) (VDict ∅) [] ∅ eq_refl eq_refl) as [_ ->].
    vm_compute. reflexivity.
Defined.

(** ** scope *)

Lemma has_distribution_strategy_eq (st : State) :
  distribution_strategy_context.has_distribution_strategy st =
    (inr (match current_mode st with Default => false | _ => true end), st).
Proof. reflexivity. Qed.

(** C4, as the code has it.  For every strategy [s] that inherits [scope]
    from the base class: when another strategy [s'] is the current one (in
    its scope or in one of its replica contexts), [s.scope()] raises the
    error that names both [s'] and [s]; when the current mode is the
    cross-replica context of [s] itself, [s.scope()] succeeds without
    changing the state and returns a [_SameScopeAgainContext], which gives
    [s] on entry and changes nothing on entry or exit, so that a [with]
    block over it is just its body; the first entry, from the default mode,
    returns instead a [_CurrentDistributionContext], whose entry pushes the
    cross-replica mode of [s] and installs the variable creator, the
    variable scope and (when there is one) the default device.  The default
    strategy overrides [scope]: whenever any strategy is current, its own
    included, it raises the fixed error [Must not nest DistributionStrategy
    scopes.], which names no strategy. *)
Theorem C4_scope (s : Strategy) (st : State) :
  strategy_class s ≠ _DefaultDistributionStrategy_class →
  (∀ s', distribution_strategy_context.distribution_strategy (current_mode st) = Some s' →
     s' ≠ s →
     DistributionStrategy.scope s st =
       (inl (RuntimeError (Mixing_different_DistributionStrategy_objects (Some s') s)), st)) ∧
  (current_mode st = CrossReplica s →
     let cm := a_SameScopeAgainContext (_SameScopeAgainContext.__init__ s) in
     DistributionStrategy.scope s st = (inr cm, st) ∧
     (∀ st', scope__enter__ cm st' = (inr (Some s), st')) ∧
     (∀ st', scope__exit__ cm st' = (inr tt, st')) ∧
     (∀ A (body : option Strategy → M A) st', with_scope cm body st' = body (Some s) st')) ∧
  (current_mode st = Default →
     ∃ c, DistributionStrategy.scope s st = (inr (a_CurrentDistributionContext c), st) ∧
       (scope__enter__ (a_CurrentDistributionContext c) st).1 = inr (Some s) ∧
       mode_stack (scope__enter__ (a_CurrentDistributionContext c) st).2
         = CrossReplica s :: mode_stack st ∧
       variable_creator_stack (scope__enter__ (a_CurrentDistributionContext c) st).2
         = creator_with_resource_vars s :: variable_creator_stack st ∧
       variable_scope_stack (scope__enter__ (a_CurrentDistributionContext c) st).2
         = distributed_getter s :: variable_scope_stack st ∧
       device_stack (scope__enter__ (a_CurrentDistributionContext c) st).2
         = match _default_device s with
           | Some name => if bool_decide (name = "") then device_stack st
                          else name :: device_stack st
           | None => device_stack st
           end) ∧
  (∀ d st', strategy_class d = _DefaultDistributionStrategy_class →
     current_mode st' ≠ Default →
     DistributionStrategy.scope d st' =
       (inl (RuntimeError Must_not_nest_DistributionStrategy_scopes), st')).
Proof.
  intros Hclass.
  assert (Hbase : DistributionStrategy.scope s st =
    (has <- distribution_strategy_context.has_distribution_strategy ;;
     if has
     then _require_cross_replica_context s ;;
          ret (a_SameScopeAgainContext (_SameScopeAgainContext.__init__ s))
     else ret (a_CurrentDistributionContext
                 (_CurrentDistributionContext.__init__ s (creator_with_resource_vars s)
                    (Some (distributed_getter s)) (_default_device s)))) st).
  { unfold DistributionStrategy.scope. by destruct (strategy_class s). }
  split_and!.
  - intros s' Hcur Hne. rewrite Hbase. unfold bind at 1.
    rewrite has_distribution_strategy_eq.
    destruct (current_mode st) as [|s0|r] eqn:E; simpl in Hcur; [done| |];
      injection Hcur as <-.
    + apply bind_guard_fails. rewrite _require_cross_replica_context_eq, E.
      by rewrite decide_False.
    + apply bind_guard_fails. rewrite _require_cross_replica_context_eq, E.
      by rewrite decide_False.
  - intros E cm. split_and!.
    + rewrite Hbase. unfold bind at 1. rewrite has_distribution_strategy_eq, E.
      by rewrite bind_guard_ok.
    + done.
    + done.
    + intros A body st'. unfold with_scope, with_, bind. simpl.
      apply try_finally_ret_tt.
  - intros E. eexists. split; [|split_and!].
    + rewrite Hbase. unfold bind. rewrite has_distribution_strategy_eq, E. reflexivity.
    + cbn. by destruct (_default_device s) as [name|]; [case_bool_decide|].
    + cbn. by destruct (_default_device s) as [name|]; [case_bool_decide|].
    + cbn. by destruct (_default_device s) as [name|]; [case_bool_decide|].
    + cbn. by destruct (_default_device s) as [name|]; [case_bool_decide|].
    + cbn. by destruct (_default_device s) as [name|]; [case_bool_decide|].
  - intros d st' Ed Hmode. unfold DistributionStrategy.scope. rewrite Ed.
    unfold _DefaultDistributionStrategy.scope, bind.
    rewrite has_distribution_strategy_eq. by destruct (current_mode st').
Qed.

(** [strategy_A] refuses to enter its scope inside the scope of
    [strategy_B], and passes through inside its own. *)
Lemma C4_scope_witness :
  DistributionStrategy.scope strategy_A
     (thread_in [CrossReplica strategy_B])
    = (inl (RuntimeError
              (Mixing_different_DistributionStrategy_objects (Some strategy_B) strategy_A)),
       thread_in [CrossReplica strategy_B]) ∧
  DistributionStrategy.scope strategy_A
     (thread_in [CrossReplica strategy_A])
    = (inr (a_SameScopeAgainContext (_SameScopeAgainContext.__init__ strategy_A)),
       thread_in [CrossReplica strategy_A]).
Proof.
  split.
  - apply (C4_scope strategy_A (thread_in [CrossReplica strategy_B]));
      [discriminate | reflexivity | discriminate].
  - apply (C4_scope strategy_A (thread_in [CrossReplica strategy_A]));
      [discriminate | reflexivity].
Defined.

(** C4 as stated fails for the default strategy: inside the scope of
    [strategy_A] its [scope] raises an error that names neither strategy,
    and inside its own scope it raises too instead of passing through. *)
Lemma C4_default_strategy_counterexample :
  current_mode (thread_in [CrossReplica strategy_A]) = CrossReplica strategy_A ∧
  strategy_A ≠ default_strategy ∧
  DistributionStrategy.scope default_strategy
     (thread_in [CrossReplica strategy_A])
    = (inl (RuntimeError Must_not_nest_DistributionStrategy_scopes),
       thread_in [CrossReplica strategy_A]) ∧
  (DistributionStrategy.scope default_strategy
     (thread_in [CrossReplica strategy_A])).1
    ≠ inl (RuntimeError
             (Mixing_different_DistributionStrategy_objects (Some strategy_A)
                default_strategy)) ∧
  current_mode (thread_in [CrossReplica default_strategy]) = CrossReplica default_strategy ∧
  DistributionStrategy.scope default_strategy
     (thread_in [CrossReplica default_strategy])
    = (inl (RuntimeError Must_not_nest_DistributionStrategy_scopes),
       thread_in [CrossReplica default_strategy]).
Proof. split_and!; try reflexivity; discriminate. Qed.

(** ** reduce, broadcast and unwrap in the default strategy *)

(** C7, as the code has it.  For a default strategy [d], called in its own
    cross-replica context: [reduce] returns [value] itself, for every reduce
    op and every [destinations], and leaves the state alone; [broadcast]
    returns [tensor] itself when [destinations] is None, which is its
    default, and raises NotImplementedError for every other [destinations].
    The hook [_reduce] is the identity in every state. *)
Theorem C7_default_reduce_broadcast `{External} (d : Strategy) (st : State) :
  strategy_class d = _DefaultDistributionStrategy_class →
  current_mode st = CrossReplica d →
  (∀ op value destinations,
     DistributionStrategy.reduce d (ReduceOp_ op) value destinations st = (inr value, st)) ∧
  (∀ tensor, DistributionStrategy.broadcast d tensor VNone st = (inr tensor, st)) ∧
  (∀ tensor destinations, destinations ≠ VNone →
     DistributionStrategy.broadcast d tensor destinations st
       = (inl (NotImplementedError TODO), st)) ∧
  (∀ op value destinations st',
     DistributionStrategy._reduce d op value destinations st' = (inr value, st')).
Proof.
  intros Hd Hmode. split_and!.
  - intros op value destinations. unfold DistributionStrategy.reduce.
    rewrite bind_guard_ok by done.
    unfold bind, DistributionStrategy.reduce_op_of, DistributionStrategy._reduce. simpl.
    by rewrite Hd.
  - intros tensor. unfold DistributionStrategy.broadcast.
    rewrite bind_guard_ok by done.
    unfold DistributionStrategy._broadcast. by rewrite Hd.
  - intros tensor destinations Hdest. unfold DistributionStrategy.broadcast.
    rewrite bind_guard_ok by done.
    unfold DistributionStrategy._broadcast. rewrite Hd.
    unfold _DefaultDistributionStrategy._broadcast. by destruct destinations.
  - intros op value destinations st'. unfold DistributionStrategy._reduce. by rewrite Hd.
Qed.

(** In its own scope the default strategy reduces a per-replica list to the
    list itself and broadcasts a tensor to the default destinations as it
    is. *)
Lemma C7_default_reduce_broadcast_witness :
  let st := thread_in [CrossReplica default_strategy] in
  @DistributionStrategy.reduce example_external default_strategy (ReduceOp_ MEAN)
     (VList [VInt 3; VInt 4]) (VStr "/device:CPU:0") st
    = (inr (VList [VInt 3; VInt 4]), st) ∧
  @DistributionStrategy.broadcast example_external default_strategy (VObject 7) VNone st
    = (inr (VObject 7), st).
Proof.
  intros st.
  destruct (@C7_default_reduce_broadcast example_external default_strategy st
              eq_refl eq_refl) as (Hreduce & Hbroadcast & _).
  split; [apply Hreduce | apply Hbroadcast].
Defined.

(** C7 as stated fails: with a destination the default strategy's
    [broadcast] raises instead of returning the tensor. *)
Lemma C7_broadcast_counterexample :
  let st := thread_in [CrossReplica default_strategy] in
  current_mode st = CrossReplica default_strategy ∧
  @DistributionStrategy.broadcast example_external default_strategy (VObject 7)
     (VStr "/device:CPU:0") st
    = (inl (NotImplementedError TODO), st) ∧
  (@DistributionStrategy.broadcast example_external default_strategy (VObject 7)
     (VStr "/device:CPU:0") st).1 ≠ inr (VObject 7).
Proof. split_and!; try reflexivity; discriminate. Qed.

(** C9.  In a default strategy [unwrap] returns the one-element list of its
    argument, for every value (a plain number, a tuple, a strategy, ...) and
    in every state, whatever the current mode, and it changes no state. *)
Theorem C9_default_unwrap `{External} (d : Strategy) (value : Value) (st : State) :
  strategy_class d = _DefaultDistributionStrategy_class →
  DistributionStrategy.unwrap d value st = (inr (VList [value]), st).
Proof.
  intros Hd. unfold DistributionStrategy.unwrap, DistributionStrategy._unwrap.
  by rewrite Hd.
Qed.

(** A scalar unwraps to the list that holds it, outside of any scope. *)
Lemma C9_default_unwrap_witness :
  @DistributionStrategy.unwrap example_external default_strategy (VInt 42) fresh_thread
    = (inr (VList [VInt 42]), fresh_thread).
Proof.
  apply (@C9_default_unwrap example_external default_strategy (VInt 42) fresh_thread).
  reflexivity.
Defined.

(** ** batch_reduce *)

Lemma for_each_ext {A B} (f g : A → M B) (l : list A) :
  (∀ x st, f x st = g x st) → ∀ st, for_each f l st = for_each g l st.
Proof.
  intros Hfg. induction l as [|x l IH]; intros st; [done|].
  simpl. unfold bind. rewrite Hfg.
  destruct (g x st) as [[e|y] st1]; [done|].
  by rewrite IH.
Qed.

(** When [f] changes no state, the comprehension computes every element from
    the state it started in: no element depends on the ones before it. *)
Lemma for_each_keeps_state {A B} (f : A → M B) (l : list A) (st : State) :
  (∀ x, keeps_state (f x)) →
  for_each f l st = (collect ((fun x => (f x st).1) <$> l), st).
Proof.
  intros Hf. induction l as [|x l IH]; [done|].
  simpl. unfold bind. specialize (Hf x st).
  destruct (f x st) as [[e|y] st1]; simpl in *; subst st1; [done|].
  rewrite IH. by destruct (collect _).
Qed.

Lemma collect_inr {A} (outcomes : list (Exception + A)) (results : list A) :
  collect outcomes = inr results → outcomes = inr <$> results.
Proof.
  revert results. induction outcomes as [|[e|a] outcomes IH]; intros results Hc.
  - by injection Hc as <-.
  - discriminate.
  - simpl in Hc. destruct (collect outcomes) as [e|r]; [discriminate|].
    injection Hc as <-. by rewrite (IH r).
Qed.

Lemma reduce_op_of_state `{External} (aggregation : Aggregation) (st st' : State) :
  DistributionStrategy.reduce_op_of aggregation st
    = ((DistributionStrategy.reduce_op_of aggregation st').1, st).
Proof.
  unfold DistributionStrategy.reduce_op_of.
  destruct aggregation as [op|a]; [done|].
  unfold bind, assert_. case_bool_decide; [|done].
  simpl. by destruct (from_variable_aggregation a).
Qed.

(** [reduce] on a deprecated aggregation value is [reduce] on the reduce op
    that it stands for. *)
Lemma reduce_converted `{External} (s : Strategy) (aggregation : Aggregation)
    (op : ReduceOp) (value destinations : Value) (st0 st : State) :
  (DistributionStrategy.reduce_op_of aggregation st0).1 = inr op →
  DistributionStrategy.reduce s aggregation value destinations st
    = DistributionStrategy.reduce s (ReduceOp_ op) value destinations st.
Proof.
  intros Hop. unfold DistributionStrategy.reduce, bind.
  destruct (_require_cross_replica_context s st) as [[e|[]] st1]; [done|].
  by rewrite (reduce_op_of_state aggregation st1 st0), Hop.
Qed.

Lemma keeps_state_reduce `{External} (s : Strategy) (aggregation : Aggregation)
    (value destinations : Value) :
  (∀ op v d, keeps_state (DistributionStrategy._reduce s op v d)) →
  keeps_state (DistributionStrategy.reduce s aggregation value destinations).
Proof.
  intros Hhook st. unfold DistributionStrategy.reduce, bind.
  pose proof (_require_cross_replica_context_state s st) as Hg.
  destruct (_require_cross_replica_context s st) as [[e|[]] st1]; simpl in Hg; subst st1;
    [done|].
  rewrite (reduce_op_of_state aggregation st st).
  destruct (DistributionStrategy.reduce_op_of aggregation st).1 as [e|op]; [done|].
  apply Hhook.
Qed.

(** C8.  For every strategy (all of them inherit [_batch_reduce] from the
    base class), called in its own cross-replica context with an accepted
    reduction: [batch_reduce] is the list, in the order of the pairs, of
    [reduce(op, t, destinations=v)] for every pair [(t, v)].  When the
    strategy's [_reduce] changes no thread state, every element is the
    outcome of [reduce] on its own pair in the state of the call, so that no
    element depends on another pair or on the order: the result has one
    element per pair, and the element at a position is what [reduce] returns
    for the pair at that position; the first pair whose [reduce] raises
    gives the exception of the whole call. *)
Theorem C8_batch_reduce `{External} (s : Strategy) (aggregation : Aggregation)
    (op : ReduceOp) (pairs : list (Value * Value)) (st : State) :
  current_mode st = CrossReplica s →
  (DistributionStrategy.reduce_op_of aggregation st).1 = inr op →
  DistributionStrategy.batch_reduce s aggregation pairs st =
    (l <- for_each (fun p => DistributionStrategy.reduce s aggregation p.1 p.2) pairs ;;
     ret (VList l)) st ∧
  ((∀ op' v d, keeps_state (DistributionStrategy._reduce s op' v d)) →
   DistributionStrategy.batch_reduce s aggregation pairs st =
     (match collect ((fun p => (DistributionStrategy.reduce s aggregation p.1 p.2 st).1)
                       <$> pairs) with
      | inl e => inl e
      | inr l => inr (VList l)
      end, st) ∧
   (∀ l, (DistributionStrategy.batch_reduce s aggregation pairs st).1 = inr (VList l) →
      length l = length pairs ∧
      ∀ i p, pairs !! i = Some p →
        ∃ v, l !! i = Some v ∧
             DistributionStrategy.reduce s aggregation p.1 p.2 st = (inr v, st))).
Proof.
  intros Hmode Hop.
  assert (Heq : DistributionStrategy.batch_reduce s aggregation pairs st =
    (l <- for_each (fun p => DistributionStrategy.reduce s aggregation p.1 p.2) pairs ;;
     ret (VList l)) st).
  { unfold DistributionStrategy.batch_reduce. rewrite bind_guard_ok by done.
    unfold bind at 1. rewrite (reduce_op_of_state aggregation st st), Hop.
    unfold DistributionStrategy._batch_reduce, bind.
    rewrite (for_each_ext
      (fun p => DistributionStrategy.reduce s (ReduceOp_ op) p.1 p.2)
      (fun p => DistributionStrategy.reduce s aggregation p.1 p.2)); [done|].
    intros p st'. symmetry. by apply (reduce_converted s aggregation op _ _ st). }
  split; [exact Heq|].
  intros Hhook.
  assert (Hindep : DistributionStrategy.batch_reduce s aggregation pairs st =
     (match collect ((fun p => (DistributionStrategy.reduce s aggregation p.1 p.2 st).1)
                       <$> pairs) with
      | inl e => inl e
      | inr l => inr (VList l)
      end, st)).
  { rewrite Heq. unfold bind.
    rewrite for_each_keeps_state by (intros p; by apply keeps_state_reduce).
    by destruct (collect _). }
  split; [exact Hindep|].
  intros l Hl. rewrite Hindep in Hl. simpl in Hl.
  destruct (collect _) as [e|l'] eqn:Hc; [discriminate|].
  injection Hl as ->. apply collect_inr in Hc.
  split.
  - apply (f_equal length) in Hc. rewrite !length_fmap in Hc. done.
  - intros i p Hp.
    assert (Hi : (inr <$> l : list (Exception + Value)) !! i
                 = Some (DistributionStrategy.reduce s aggregation p.1 p.2 st).1)
      by (by rewrite <- Hc, list_lookup_fmap, Hp).
    rewrite list_lookup_fmap in Hi.
    destruct (l !! i) as [v|]; [|discriminate].
    exists v. split; [done|].
    injection Hi as Hi.
    pose proof (keeps_state_reduce s aggregation p.1 p.2 Hhook st) as Hst.
    destruct (DistributionStrategy.reduce s aggregation p.1 p.2 st) as [res st'].
    simpl in *. by subst.
Qed.

Lemma keeps_state_summing_reduce (s : Strategy) (op : ReduceOp) (v d : Value) :
  keeps_state (hook__reduce summing_hooks s op v d).
Proof. intros st. by destruct v. Qed.

(** A descendant that sums per-replica lists, given two pairs under the
    deprecated SUM aggregation: one sum per pair, in the order of the
    pairs. *)
Lemma C8_batch_reduce_witness :
  let st := thread_in [CrossReplica strategy_A] in
  @DistributionStrategy.batch_reduce example_external strategy_A
     (VariableAggregation_ VA_SUM)
     [(VList [VInt 1; VInt 2], VStr "/device:GPU:0");
      (VList [VInt 3; VInt 4; VInt 5], VStr "/device:GPU:1")] st
    = (inr (VList [VInt 3; VInt 12]), st).
Proof.
  intros st.
  destruct (@C8_batch_reduce example_external strategy_A (VariableAggregation_ VA_SUM) SUM
              [(VList [VInt 1; VInt 2], VStr "/device:GPU:0");
               (VList [VInt 3; VInt 4; VInt 5], VStr "/device:GPU:1")] st
              eq_refl ltac:(vm_compute; reflexivity)) as [_ Hindep].
  destruct Hindep as [-> _]; [|vm_compute; reflexivity].
  intros op v d. apply keeps_state_summing_reduce.
Defined.

(** ** The argument convention *)

Lemma update_eq `{External} (s : Strategy) (var : Value) (fn : Callable)
    (args : list Value) (kwargs : gmap string Value) (st : State) :
  current_mode st = CrossReplica s →
  DistributionStrategy.update s var fn args kwargs st =
    match argument_convention "update" args (delete "grouped" (delete "group" kwargs)) with
    | inl e => (inl e, st)
    | inr p =>
        DistributionStrategy._update s var fn p.1 p.2
          (and_ (keyword_or (VBool true) kwargs "grouped")
                (keyword_or (VBool true) kwargs "group")) st
    end.
Proof.
  intros Hmode. unfold DistributionStrategy.update.
  rewrite bind_guard_ok by done.
  unfold dict_pop, keyword_or, bind. rewrite lookup_delete_ne by done.
  rewrite handle_old_and_new_args_eq. by destruct (argument_convention _ _ _).
Qed.

Lemma update_non_slot_eq `{External} (s : Strategy) (colocate_with : Value) (fn : Callable)
    (args : list Value) (kwargs : gmap string Value) (st : State) :
  current_mode st = CrossReplica s →
  DistributionStrategy.update_non_slot s colocate_with fn args kwargs st =
    match argument_convention "update_non_slot" args
            (delete "grouped" (delete "group" kwargs)) with
    | inl e => (inl e, st)
    | inr p =>
        DistributionStrategy._update_non_slot s colocate_with fn p.1 p.2
          (and_ (keyword_or (VBool true) kwargs "grouped")
                (keyword_or (VBool true) kwargs "group")) st
    end.
Proof.
  intros Hmode. unfold DistributionStrategy.update_non_slot.
  rewrite bind_guard_ok by done.
  unfold dict_pop, keyword_or, bind. rewrite lookup_delete_ne by done.
  rewrite handle_old_and_new_args_eq. by destruct (argument_convention _ _ _).
Qed.

(** Both styles at once are refused, in the words of the specification. *)
Lemma both_styles_refused (method : string) (args : list Value)
    (kwargs : gmap string Value) :
  both_styles args kwargs →
  argument_convention method args kwargs
    = inl (ValueError (Cant_pass_args_and_args_to method)) ∨
  argument_convention method args kwargs
    = inl (ValueError (Cant_pass_kwargs_and_kwargs_to method)).
Proof.
  intros Hboth. unfold argument_convention.
  destruct (bool_decide (is_Some (container kwargs "args")) && negb (bool_decide (args = [])))
    eqn:Eargs; [by left|right].
  destruct Hboth as [[Ha Hargs]|[Hk Hdirect]].
  - by rewrite (bool_decide_eq_true_2 _ Ha), (bool_decide_eq_false_2 _ Hargs) in Eargs.
  - by rewrite (bool_decide_eq_true_2 _ Hk), (bool_decide_eq_false_2 _ Hdirect).
Qed.

Lemma one_style_forwarded (method : string) (args : list Value)
    (kwargs : gmap string Value) :
  ¬ both_styles args kwargs →
  argument_convention method args kwargs = inr (forwarded args kwargs).
Proof.
  intros Hone. unfold argument_convention.
  destruct (bool_decide (is_Some (container kwargs "args")) && negb (bool_decide (args = [])))
    eqn:Eargs.
  { exfalso. apply Hone. left. apply andb_true_iff in Eargs as [Ha Hargs].
    apply bool_decide_eq_true in Ha. apply negb_true_iff, bool_decide_eq_false in Hargs.
    done. }
  destruct (bool_decide (is_Some (container kwargs "kwargs"))
            && negb (bool_decide (direct_keywords kwargs = ∅))) eqn:Ekw; [|done].
  exfalso. apply Hone. right. apply andb_true_iff in Ekw as [Hk Hdirect].
  apply bool_decide_eq_true in Hk. apply negb_true_iff, bool_decide_eq_false in Hdirect.
  done.
Qed.

(** An option keyword that a method takes for itself is no container. *)
Lemma container_delete (kwargs : gmap string Value) (option key : string) :
  option ≠ key → container (delete option kwargs) key = container kwargs key.
Proof. intros Hne. unfold container. by rewrite lookup_delete_ne. Qed.

Lemma direct_keywords_delete (kwargs : gmap string Value) (option : string) :
  direct_keywords (delete option kwargs) = delete option (direct_keywords kwargs).
Proof.
  unfold direct_keywords.
  by rewrite (delete_delete kwargs "args" option), (delete_delete _ "kwargs" option).
Qed.

Lemma both_styles_delete (args : list Value) (kwargs : gmap string Value) (option : string) :
  option ≠ "args" → option ≠ "kwargs" →
  both_styles args (delete option kwargs) → both_styles args kwargs.
Proof.
  intros Ha Hk [[Hc Hargs]|[Hc Hdirect]].
  - left. by rewrite container_delete in Hc.
  - right. rewrite container_delete in Hc by done. split; [done|].
    intros Hempty. apply Hdirect. by rewrite direct_keywords_delete, Hempty, delete_empty.
Qed.

(** [call_for_each_replica] in the required mode, before its old option is
    dropped. *)
Lemma call_for_each_replica_eq `{External} (s : Strategy) (fn : Callable)
    (args : list Value) (kwargs : gmap string Value) (st : State) :
  current_mode st = CrossReplica s →
  DistributionStrategy.call_for_each_replica s fn args kwargs st =
    match argument_convention "call_for_each_replica" args kwargs with
    | inl e => (inl e, st)
    | inr p =>
        (k <- value_pop "run_concurrently" p.2 ;;
         DistributionStrategy._call_for_each_replica s fn p.1 k) st
    end.
Proof.
  intros Hmode. unfold DistributionStrategy.call_for_each_replica.
  rewrite bind_guard_ok by done. unfold bind at 1.
  rewrite handle_old_and_new_args_eq. by destruct (argument_convention _ _ _).
Qed.

(** A method that starts with the cross-replica guard and then with the
    shared lines, called with both styles at once. *)
Lemma guarded_both_styles {A} (s : Strategy) (method : string) (args : list Value)
    (kwargs : gmap string Value) (k : Value * Value → M A) (st : State) :
  both_styles args kwargs →
  ∃ e, (_require_cross_replica_context s ;;
        p <- handle_old_and_new_args method args kwargs ;; k p) st = (inl e, st) ∧
       (current_mode st = CrossReplica s →
        e = ValueError (Cant_pass_args_and_args_to method) ∨
        e = ValueError (Cant_pass_kwargs_and_kwargs_to method)).
Proof.
  intros Hboth.
  destruct (decide (current_mode st = CrossReplica s)) as [Hmode|Hmode].
  - rewrite bind_guard_ok by done. unfold bind.
    rewrite handle_old_and_new_args_eq.
    destruct (both_styles_refused method args kwargs Hboth) as [-> | ->];
      eexists; (split; [done|]); intros _; [by left|by right].
  - destruct (_require_cross_replica_context_fails s st Hmode) as [e He].
    exists e. split; [|done].
    apply bind_guard_fails. by rewrite He.
Qed.

(** C6, as the code has it.  The convention: a non-empty tuple of trailing
    positional arguments together with an [args=] container is refused with
    a ValueError, and so are direct keyword arguments together with a
    [kwargs=] container; otherwise what is passed on is the container where
    there is one and what is given directly where there is none, unchanged.
    Each of [merge_call], [update], [update_non_slot] and
    [call_for_each_replica], called with both styles at once, raises and
    leaves the state alone, in every mode: the ValueError of the convention in
    the mode that the method requires, the error of its mode guard
    elsewhere.  Called in the required mode, each raises the error of the
    convention or hands what it passes on to [_merge_call], [_update],
    [_update_non_slot] and [_call_for_each_replica].  The options that a
    method takes for itself from the direct keywords are no arguments in
    this: [group] and [grouped] for [update] and [update_non_slot], and
    [run_concurrently] for [call_for_each_replica], which is stated for the
    calls without a [kwargs=] container and for those whose container is a
    dictionary without the key [run_concurrently] and comes without that
    option. *)
Theorem C6_argument_convention `{External} :
  (∀ method args kwargs a,
     container kwargs "args" = Some a → args ≠ [] →
     argument_convention method args kwargs
       = inl (ValueError (Cant_pass_args_and_args_to method))) ∧
  (∀ method args kwargs,
     both_styles args kwargs →
     argument_convention method args kwargs
       = inl (ValueError (Cant_pass_args_and_args_to method)) ∨
     argument_convention method args kwargs
       = inl (ValueError (Cant_pass_kwargs_and_kwargs_to method))) ∧
  (∀ method args kwargs,
     ¬ both_styles args kwargs →
     argument_convention method args kwargs = inr (forwarded args kwargs)) ∧
  (∀ method args kwargs,
     kwargs !! "args" = None → kwargs !! "kwargs" = None →
     argument_convention method args kwargs = inr (VTuple args, VDict kwargs)) ∧
  (∀ method a k,
     a ≠ VNone → k ≠ VNone →
     argument_convention method [] (<["args" := a]> (<["kwargs" := k]> ∅)) = inr (a, k)) ∧
  (∀ r merge_fn args kwargs st,
     both_styles args kwargs →
     ∃ e, ReplicaContext.merge_call r merge_fn args kwargs st = (inl e, st) ∧
          (current_mode st = InReplica r →
           e = ValueError (Cant_pass_args_and_args_to "merge_call") ∨
           e = ValueError (Cant_pass_kwargs_and_kwargs_to "merge_call"))) ∧
  (∀ s var fn args kwargs st,
     both_styles args (delete "grouped" (delete "group" kwargs)) →
     ∃ e, DistributionStrategy.update s var fn args kwargs st = (inl e, st) ∧
          (current_mode st = CrossReplica s →
           e = ValueError (Cant_pass_args_and_args_to "update") ∨
           e = ValueError (Cant_pass_kwargs_and_kwargs_to "update"))) ∧
  (∀ s colocate_with fn args kwargs st,
     both_styles args (delete "grouped" (delete "group" kwargs)) →
     ∃ e, DistributionStrategy.update_non_slot s colocate_with fn args kwargs st
            = (inl e, st) ∧
          (current_mode st = CrossReplica s →
           e = ValueError (Cant_pass_args_and_args_to "update_non_slot") ∨
           e = ValueError (Cant_pass_kwargs_and_kwargs_to "update_non_slot"))) ∧
  (∀ s fn args kwargs st,
     both_styles args (delete "run_concurrently" kwargs) →
     ∃ e, DistributionStrategy.call_for_each_replica s fn args kwargs st = (inl e, st) ∧
          (current_mode st = CrossReplica s →
           e = ValueError (Cant_pass_args_and_args_to "call_for_each_replica") ∨
           e = ValueError (Cant_pass_kwargs_and_kwargs_to "call_for_each_replica"))) ∧
  (∀ r merge_fn args kwargs st,
     current_mode st = InReplica r →
     ReplicaContext.merge_call r merge_fn args kwargs st =
       match argument_convention "merge_call" args kwargs with
       | inl e => (inl e, st)
       | inr p => ReplicaContext._merge_call r merge_fn p.1 p.2 st
       end) ∧
  (∀ s var fn args kwargs st,
     current_mode st = CrossReplica s →
     DistributionStrategy.update s var fn args kwargs st =
       match argument_convention "update" args
               (delete "grouped" (delete "group" kwargs)) with
       | inl e => (inl e, st)
       | inr p =>
           DistributionStrategy._update s var fn p.1 p.2
             (and_ (keyword_or (VBool true) kwargs "grouped")
                   (keyword_or (VBool true) kwargs "group")) st
       end) ∧
  (∀ s colocate_with fn args kwargs st,
     current_mode st = CrossReplica s →
     DistributionStrategy.update_non_slot s colocate_with fn args kwargs st =
       match argument_convention "update_non_slot" args
               (delete "grouped" (delete "group" kwargs)) with
       | inl e => (inl e, st)
       | inr p =>
           DistributionStrategy._update_non_slot s colocate_with fn p.1 p.2
             (and_ (keyword_or (VBool true) kwargs "grouped")
                   (keyword_or (VBool true) kwargs "group")) st
       end) ∧
  (∀ s fn args kwargs st,
     current_mode st = CrossReplica s →
     container kwargs "kwargs" = None ∨
     (kwargs !! "run_concurrently" = None ∧
      ∃ d, container kwargs "kwargs" = Some (VDict d) ∧ d !! "run_concurrently" = None) →
     DistributionStrategy.call_for_each_replica s fn args kwargs st =
       match argument_convention "call_for_each_replica" args
               (delete "run_concurrently" kwargs) with
       | inl e => (inl e, st)
       | inr p => DistributionStrategy._call_for_each_replica s fn p.1 p.2 st
       end).
Proof.
  split_and!.
  - intros method args kwargs a Ha Hargs. unfold argument_convention.
    rewrite Ha, (bool_decide_eq_true_2 (is_Some (Some a))) by eauto.
    by rewrite (bool_decide_eq_false_2 (args = [])).
  - intros. by apply both_styles_refused.
  - intros. by apply one_style_forwarded.
  - intros. by apply argument_convention_direct.
  - intros method a k Ha Hk. unfold argument_convention, forwarded, container, direct_keywords.
    rewrite lookup_insert_eq, lookup_insert_ne, lookup_insert_eq by done.
    rewrite delete_insert_eq, delete_insert_ne, delete_empty, delete_insert_eq,
      delete_empty by done.
    destruct a, k; try done.
  - intros r merge_fn args kwargs st Hboth. unfold ReplicaContext.merge_call, bind.
    rewrite require_replica_context_eq.
    destruct (current_mode st) as [|s'|r'] eqn:Hmode; [by eexists..|].
    destruct (decide (r' = r)) as [->|Hr].
    + rewrite handle_old_and_new_args_eq.
      destruct (both_styles_refused "merge_call" args kwargs Hboth) as [-> | ->];
        eexists; (split; [done|]); intros _; [by left|by right].
    + case_decide; eexists; (split; [done|]); intros [= ?]; done.
  - intros s var fn args kwargs st Hboth. unfold DistributionStrategy.update, dict_pop.
    apply (guarded_both_styles s "update" args _ _ st Hboth).
  - intros s colocate_with fn args kwargs st Hboth.
    unfold DistributionStrategy.update_non_slot, dict_pop.
    apply (guarded_both_styles s "update_non_slot" args _ _ st Hboth).
  - intros s fn args kwargs st Hboth. unfold DistributionStrategy.call_for_each_replica.
    apply (guarded_both_styles s "call_for_each_replica" args kwargs _ st).
    by apply (both_styles_delete args kwargs "run_concurrently").
  - intros r merge_fn args kwargs st Hmode. unfold ReplicaContext.merge_call, bind.
    rewrite (require_replica_context_ok r st Hmode), handle_old_and_new_args_eq.
    by destruct (argument_convention _ _ _).
  - intros. by apply update_eq.
  - intros. by apply update_non_slot_eq.
  - intros s fn args kwargs st Hmode Hscope. rewrite call_for_each_replica_eq by done.
    destruct Hscope as [Hnone|(Hdirect & d & Hd & Hkey)].
    + unfold argument_convention, forwarded.
      rewrite !container_delete, direct_keywords_delete, Hnone by done.
      rewrite (bool_decide_eq_false_2 (is_Some None)) by (by intros [? ?]).
      by destruct (bool_decide (is_Some (container kwargs "args"))
                   && negb (bool_decide (args = []))).
    + rewrite (delete_id kwargs "run_concurrently") by done.
      unfold argument_convention, forwarded. rewrite Hd.
      destruct (bool_decide (is_Some (container kwargs "args"))
                && negb (bool_decide (args = []))); [done|].
      destruct (bool_decide (is_Some (Some (VDict d)))
                && negb (bool_decide (direct_keywords kwargs = ∅))); [done|].
      cbn. unfold bind, ret. by rewrite (delete_id d "run_concurrently").
Qed.

(** Both styles at once are refused; trailing arguments and containers reach
    the function of an [update] in the default strategy alike, after the
    variable; and the function of a [call_for_each_replica] gets the
    arguments given directly. *)
Lemma C6_argument_convention_witness :
  let st := thread_in [CrossReplica default_strategy] in
  @DistributionStrategy.update example_external default_strategy (VObject 7) echo
     [VInt 1] (<["args" := VTuple [VInt 2]]> ∅) st
    = (inl (ValueError (Cant_pass_args_and_args_to "update")), st) ∧
  @DistributionStrategy.update example_external default_strategy (VObject 7) echo
     [VInt 1] (<["x" := VInt 2]> ∅) st
    = (inr (VTuple [VTuple [VObject 7; VInt 1]; VDict (<["x" := VInt 2]> ∅)]), st) ∧
  @DistributionStrategy.update example_external default_strategy (VObject 7) echo
     [] (<["args" := VTuple [VInt 1]]> (<["kwargs" := VDict (<["x" := VInt 2]> ∅)]> ∅)) st
    = (inr (VTuple [VTuple [VObject 7; VInt 1]; VDict (<["x" := VInt 2]> ∅)]), st) ∧
  @DistributionStrategy.call_for_each_replica example_external default_strategy echo
     [VInt 1] (<["x" := VInt 2]> ∅) st
    = (inr (VTuple [VTuple [VInt 1]; VDict (<["x" := VInt 2]> ∅)]), set_next_addr 11 st).
Proof.
  intros st.
  destruct (@C6_argument_convention example_external)
    as (_ & _ & _ & _ & _ & _ & _ & _ & _ & _ & Hupdate & _ & Hcall).
  split_and!.
  - rewrite Hupdate by reflexivity. vm_compute. reflexivity.
  - rewrite Hupdate by reflexivity. vm_compute. reflexivity.
  - rewrite Hupdate by reflexivity. vm_compute. reflexivity.
  - rewrite Hcall; [vm_compute; reflexivity | reflexivity |].
    left. vm_compute. reflexivity.
Defined.

(** C6 as stated fails for [call_for_each_replica]: a keyword argument named
    [run_concurrently], passed directly and alone, in one style only, does
    not reach the function: it is the old option that the method ignores. *)
Lemma C6_run_concurrently_counterexample :
  let st := thread_in [CrossReplica default_strategy] in
  let k : gmap string Value := <["run_concurrently" := VBool true]> ∅ in
  ¬ both_styles [] k ∧
  (@DistributionStrategy.call_for_each_replica example_external default_strategy echo
     [] k st).1
    = inr (VTuple [VTuple []; VDict ∅]) ∧
  (@DistributionStrategy.call_for_each_replica example_external default_strategy echo
     [] k st).1
    ≠ inr (VTuple [VTuple []; VDict k]).
Proof.
  intros st k. split_and!.
  - intros [[_ Hargs]|[[v Hk] _]]; [done|]. vm_compute in Hk. discriminate.
  - vm_compute. reflexivity.
  - vm_compute. discriminate.
Qed.

(** ** The grouping flag of update and update_non_slot *)

Lemma truthy_and_ (x y : Value) : truthy (and_ x y) = truthy x && truthy y.
Proof. unfold and_. by destruct (truthy x) eqn:E. Qed.

(** In the default strategy, the hook with any grouping flag is the grouped
    hook followed by the wrapping of the leaves, or by nothing. *)
Lemma _DefaultDistributionStrategy__update_non_slot_group (d : Strategy)
    (colocate_with : Value) (fn : Callable) (args kwargs should_group : Value) (st : State) :
  _DefaultDistributionStrategy._update_non_slot d colocate_with fn args kwargs should_group st
  = (result <- _DefaultDistributionStrategy._update_non_slot d colocate_with fn args kwargs
                 (VBool true) ;;
     ret (if truthy should_group then result
          else nest.map_structure (_DefaultDistributionStrategy._unwrap d) result)) st.
Proof.
  unfold _DefaultDistributionStrategy._update_non_slot, with_, bind, try_finally,
    ops.colocate_with__enter__, ops.colocate_with__exit__, UpdateContext.__enter__,
    UpdateContext.__exit__, UpdateContext.__init__, get_update_device, modify, ret, bind.
  cbn.
  destruct (call fn [] args kwargs _) as [[e|result] st2]; [done|].
  by destruct (truthy should_group).
Qed.

(** The hook of the default strategy runs [fn] once, colocated with
    [colocate_with] and with [colocate_with] as the update device, and
    returns its result, raw or with every leaf in a one-element list. *)
Lemma _DefaultDistributionStrategy__update_non_slot_result (d : Strategy)
    (colocate_with : Value) (fn : Callable) (args kwargs should_group : Value)
    (l : list Value) (kw : gmap string Value) (st : State) :
  iter_value args = Some l → mapping_value kwargs = Some kw →
  (_DefaultDistributionStrategy._update_non_slot d colocate_with fn args kwargs
     should_group st).1 =
    match (fn l kw (set_update_device colocate_with
                      (set_colocation_stack (cons colocate_with) st))).1 with
    | inl e => inl e
    | inr result =>
        inr (if truthy should_group then result
             else nest.map_structure (fun leaf => VList [leaf]) result)
    end.
Proof.
  intros Hl Hkw.
  unfold _DefaultDistributionStrategy._update_non_slot, with_, bind, try_finally,
    ops.colocate_with__enter__, ops.colocate_with__exit__, UpdateContext.__enter__,
    UpdateContext.__exit__, UpdateContext.__init__, get_update_device, modify, ret, bind,
    call.
  rewrite Hl, Hkw. cbn.
  destruct (fn l kw _) as [[e|result] st2]; [done|].
  by destruct (truthy should_group).
Qed.

Lemma _DefaultDistributionStrategy__update_group (d : Strategy)
    (var : Value) (fn : Callable) (args kwargs group : Value) (st : State) :
  _DefaultDistributionStrategy._update d var fn args kwargs group st
  = (result <- _DefaultDistributionStrategy._update d var fn args kwargs (VBool true) ;;
     ret (if truthy group then result
          else nest.map_structure (_DefaultDistributionStrategy._unwrap d) result)) st.
Proof.
  unfold _DefaultDistributionStrategy._update, tuple_.
  destruct (iter_value args) as [rest|]; [|done].
  transitivity (_DefaultDistributionStrategy._update_non_slot d var fn
                  (VTuple (var :: rest)) kwargs group st); [reflexivity|].
  by rewrite _DefaultDistributionStrategy__update_non_slot_group.
Qed.

(** The same with the state: [fn] starts with [colocate_with] as colocation
    and as update device, and both are taken back when it is done. *)
Lemma _DefaultDistributionStrategy__update_non_slot_run (d : Strategy)
    (colocate_with : Value) (fn : Callable) (args kwargs should_group : Value)
    (l : list Value) (kw : gmap string Value) (st : State) :
  iter_value args = Some l → mapping_value kwargs = Some kw →
  let st_in := set_update_device colocate_with
                 (set_colocation_stack (cons colocate_with) st) in
  _DefaultDistributionStrategy._update_non_slot d colocate_with fn args kwargs
    should_group st =
    (match (fn l kw st_in).1 with
     | inl e => inl e
     | inr result =>
         inr (if truthy should_group then result
              else nest.map_structure (fun leaf => VList [leaf]) result)
     end,
     set_colocation_stack (drop 1)
       (set_update_device (_update_device_current st) (fn l kw st_in).2)).
Proof.
  intros Hl Hkw st_in.
  unfold _DefaultDistributionStrategy._update_non_slot, with_, bind, try_finally,
    ops.colocate_with__enter__, ops.colocate_with__exit__, UpdateContext.__enter__,
    UpdateContext.__exit__, UpdateContext.__init__, get_update_device, modify, ret, bind,
    call.
  rewrite Hl, Hkw. cbn. fold st_in.
  destruct (fn l kw st_in) as [[e|result] st2]; [done|].
  by destruct (truthy should_group).
Qed.

Lemma _DefaultDistributionStrategy__update_run (d : Strategy)
    (var : Value) (fn : Callable) (args kwargs group : Value)
    (rest : list Value) (kw : gmap string Value) (st : State) :
  iter_value args = Some rest → mapping_value kwargs = Some kw →
  let st_in := set_update_device var (set_colocation_stack (cons var) st) in
  _DefaultDistributionStrategy._update d var fn args kwargs group st =
    (match (fn (var :: rest) kw st_in).1 with
     | inl e => inl e
     | inr result =>
         inr (if truthy group then result
              else nest.map_structure (fun leaf => VList [leaf]) result)
     end,
     set_colocation_stack (drop 1)
       (set_update_device (_update_device_current st) (fn (var :: rest) kw st_in).2)).
Proof.
  intros Hrest Hkw st_in.
  unfold _DefaultDistributionStrategy._update, tuple_. rewrite Hrest.
  transitivity (_DefaultDistributionStrategy._update_non_slot d var fn
                  (VTuple (var :: rest)) kwargs group st); [reflexivity|].
  by apply _DefaultDistributionStrategy__update_non_slot_run.
Qed.

(** The options read from the keywords when one of [group] and [grouped] is
    given with the value [v] and the other is left out. *)
Lemma options_with_one_flag (key : string) (v : Value) (kw : gmap string Value) :
  key = "group" ∨ key = "grouped" →
  kw !! "group" = None → kw !! "grouped" = None → truthy v = false →
  delete "grouped" (delete "group" (<[key := v]> kw)) = kw ∧
  and_ (keyword_or (VBool true) (<[key := v]> kw) "grouped")
       (keyword_or (VBool true) (<[key := v]> kw) "group") = v.
Proof.
  intros [-> | ->] Hgroup Hgrouped Hv; unfold keyword_or, and_.
  - rewrite delete_insert_eq, lookup_insert_eq, lookup_insert_ne by done.
    rewrite (delete_id kw "group"), (delete_id kw "grouped") by done.
    by rewrite Hgrouped.
  - rewrite delete_insert_ne, delete_insert_eq, lookup_insert_eq, lookup_insert_ne by done.
    rewrite (delete_id kw "group"), (delete_id kw "grouped") by done.
    by rewrite Hgroup, Hv.
Qed.

Lemma options_without_flag (kw : gmap string Value) :
  kw !! "group" = None → kw !! "grouped" = None →
  delete "grouped" (delete "group" kw) = kw ∧
  and_ (keyword_or (VBool true) kw "grouped") (keyword_or (VBool true) kw "group")
    = VBool true.
Proof.
  intros Hgroup Hgrouped. unfold keyword_or, and_.
  rewrite (delete_id kw "group"), (delete_id kw "grouped") by done.
  by rewrite Hgroup, Hgrouped.
Qed.

(** C10.  The flag that [update] and [update_non_slot] hand to the hook is
    [grouped and group], each read from the keywords with the default True,
    and it is true exactly when both are.  In the default strategy the hook
    under a false flag returns what it returns under a true flag with
    [_unwrap], which makes a one-element list, applied to every leaf of the
    result; under either flag the result is that of [fn], called once with
    [colocate_with] as the update device: on the arguments by
    [_update_non_slot], and on the variable followed by the arguments by
    [_update].  So for the default strategy, called in its own cross-replica
    context with arguments given directly, [update(var, fn, ...)] and
    [update_non_slot(colocate_with, fn, ...)] return the result of [fn] as
    it is when neither option is given, and with every leaf in a
    one-element list, the tuples, lists and dictionaries kept, when a false
    value is passed as [group=] or as [grouped=] (the other being left
    out); an exception of [fn] is the exception of the call, and the state
    is the one [fn] leaves, with the colocation and the update device taken
    back.  A call with such an option is the call without it followed by
    that wrapping, with the same effect on the state and the same
    exceptions, in every mode. *)
Theorem C10_group_flag `{External} :
  (∀ group grouped : Value,
     truthy (and_ grouped group) = truthy group && truthy grouped) ∧
  (∀ s var fn args kwargs st,
     current_mode st = CrossReplica s →
     DistributionStrategy.update s var fn args kwargs st =
       match argument_convention "update" args
               (delete "grouped" (delete "group" kwargs)) with
       | inl e => (inl e, st)
       | inr p =>
           DistributionStrategy._update s var fn p.1 p.2
             (and_ (keyword_or (VBool true) kwargs "grouped")
                   (keyword_or (VBool true) kwargs "group")) st
       end) ∧
  (∀ s colocate_with fn args kwargs st,
     current_mode st = CrossReplica s →
     DistributionStrategy.update_non_slot s colocate_with fn args kwargs st =
       match argument_convention "update_non_slot" args
               (delete "grouped" (delete "group" kwargs)) with
       | inl e => (inl e, st)
       | inr p =>
           DistributionStrategy._update_non_slot s colocate_with fn p.1 p.2
             (and_ (keyword_or (VBool true) kwargs "grouped")
                   (keyword_or (VBool true) kwargs "group")) st
       end) ∧
  (∀ d colocate_with fn args kwargs should_group st,
     strategy_class d = _DefaultDistributionStrategy_class →
     DistributionStrategy._update_non_slot d colocate_with fn args kwargs should_group st =
       (result <- DistributionStrategy._update_non_slot d colocate_with fn args kwargs
                    (VBool true) ;;
        ret (if truthy should_group then result
             else nest.map_structure (fun leaf => VList [leaf]) result)) st) ∧
  (∀ d var fn args kwargs group st,
     strategy_class d = _DefaultDistributionStrategy_class →
     DistributionStrategy._update d var fn args kwargs group st =
       (result <- DistributionStrategy._update d var fn args kwargs (VBool true) ;;
        ret (if truthy group then result
             else nest.map_structure (fun leaf => VList [leaf]) result)) st) ∧
  (∀ d colocate_with fn args kwargs should_group l kw st,
     strategy_class d = _DefaultDistributionStrategy_class →
     iter_value args = Some l → mapping_value kwargs = Some kw →
     (DistributionStrategy._update_non_slot d colocate_with fn args kwargs
        should_group st).1 =
       match (fn l kw (set_update_device colocate_with
                         (set_colocation_stack (cons colocate_with) st))).1 with
       | inl e => inl e
       | inr result =>
           inr (if truthy should_group then result
                else nest.map_structure (fun leaf => VList [leaf]) result)
       end) ∧
  (∀ d colocate_with fn args kw key v st,
     strategy_class d = _DefaultDistributionStrategy_class →
     key = "group" ∨ key = "grouped" →
     kw !! "group" = None → kw !! "grouped" = None → truthy v = false →
     DistributionStrategy.update_non_slot d colocate_with fn args (<[key := v]> kw) st =
       (result <- DistributionStrategy.update_non_slot d colocate_with fn args kw ;;
        ret (nest.map_structure (fun leaf => VList [leaf]) result)) st) ∧
  (∀ d var fn args kw key v st,
     strategy_class d = _DefaultDistributionStrategy_class →
     key = "group" ∨ key = "grouped" →
     kw !! "group" = None → kw !! "grouped" = None → truthy v = false →
     DistributionStrategy.update d var fn args (<[key := v]> kw) st =
       (result <- DistributionStrategy.update d var fn args kw ;;
        ret (nest.map_structure (fun leaf => VList [leaf]) result)) st) ∧
  (∀ d var fn args kwargs group rest kw st,
     strategy_class d = _DefaultDistributionStrategy_class →
     iter_value args = Some rest → mapping_value kwargs = Some kw →
     let st_in := set_update_device var (set_colocation_stack (cons var) st) in
     DistributionStrategy._update d var fn args kwargs group st =
       (match (fn (var :: rest) kw st_in).1 with
        | inl e => inl e
        | inr result =>
            inr (if truthy group then result
                 else nest.map_structure (fun leaf => VList [leaf]) result)
        end,
        set_colocation_stack (drop 1)
          (set_update_device (_update_device_current st) (fn (var :: rest) kw st_in).2))) ∧
  (∀ d var fn args kw key v st,
     strategy_class d = _DefaultDistributionStrategy_class →
     current_mode st = CrossReplica d →
     key = "group" ∨ key = "grouped" →
     kw !! "group" = None → kw !! "grouped" = None →
     kw !! "args" = None → kw !! "kwargs" = None → truthy v = false →
     let st_in := set_update_device var (set_colocation_stack (cons var) st) in
     let st_out := set_colocation_stack (drop 1)
                     (set_update_device (_update_device_current st)
                        (fn (var :: args) kw st_in).2) in
     DistributionStrategy.update d var fn args kw st
       = ((fn (var :: args) kw st_in).1, st_out) ∧
     DistributionStrategy.update d var fn args (<[key := v]> kw) st
       = (match (fn (var :: args) kw st_in).1 with
          | inl e => inl e
          | inr result => inr (nest.map_structure (fun leaf => VList [leaf]) result)
          end, st_out)) ∧
  (∀ d colocate_with fn args kw key v st,
     strategy_class d = _DefaultDistributionStrategy_class →
     current_mode st = CrossReplica d →
     key = "group" ∨ key = "grouped" →
     kw !! "group" = None → kw !! "grouped" = None →
     kw !! "args" = None → kw !! "kwargs" = None → truthy v = false →
     let st_in := set_update_device colocate_with
                    (set_colocation_stack (cons colocate_with) st) in
     let st_out := set_colocation_stack (drop 1)
                     (set_update_device (_update_device_current st)
                        (fn args kw st_in).2) in
     DistributionStrategy.update_non_slot d colocate_with fn args kw st
       = ((fn args kw st_in).1, st_out) ∧
     DistributionStrategy.update_non_slot d colocate_with fn args (<[key := v]> kw) st
       = (match (fn args kw st_in).1 with
          | inl e => inl e
          | inr result => inr (nest.map_structure (fun leaf => VList [leaf]) result)
          end, st_out)).
Proof.
  assert (Hhook : ∀ d colocate_with fn args kwargs should_group st,
     strategy_class d = _DefaultDistributionStrategy_class →
     DistributionStrategy._update_non_slot d colocate_with fn args kwargs should_group st =
       (result <- DistributionStrategy._update_non_slot d colocate_with fn args kwargs
                    (VBool true) ;;
        ret (if truthy should_group then result
             else nest.map_structure (fun leaf => VList [leaf]) result)) st).
  { intros d colocate_with fn args kwargs should_group st Hd.
    unfold DistributionStrategy._update_non_slot. rewrite Hd.
    apply _DefaultDistributionStrategy__update_non_slot_group. }
  assert (Hhook' : ∀ d var fn args kwargs group st,
     strategy_class d = _DefaultDistributionStrategy_class →
     DistributionStrategy._update d var fn args kwargs group st =
       (result <- DistributionStrategy._update d var fn args kwargs (VBool true) ;;
        ret (if truthy group then result
             else nest.map_structure (fun leaf => VList [leaf]) result)) st).
  { intros d var fn args kwargs group st Hd.
    unfold DistributionStrategy._update. rewrite Hd.
    apply _DefaultDistributionStrategy__update_group. }
  split_and!.
  - intros group grouped. rewrite truthy_and_. apply andb_comm.
  - intros. by apply update_eq.
  - intros. by apply update_non_slot_eq.
  - exact Hhook.
  - exact Hhook'.
  - intros d colocate_with fn args kwargs should_group l kw st Hd Hl Hkw.
    unfold DistributionStrategy._update_non_slot. rewrite Hd.
    by apply _DefaultDistributionStrategy__update_non_slot_result.
  - intros d colocate_with fn args kw key v st Hd Hkey Hgroup Hgrouped Hv.
    destruct (options_with_one_flag key v kw Hkey Hgroup Hgrouped Hv) as [Ekw Eflag].
    destruct (options_without_flag kw Hgroup Hgrouped) as [Ekw' Eflag'].
    unfold bind at 1.
    destruct (decide (current_mode st = CrossReplica d)) as [Hmode|Hmode].
    + rewrite !update_non_slot_eq by done.
      rewrite Ekw, Eflag, Ekw', Eflag'.
      destruct (argument_convention _ _ _) as [e|p]; [done|].
      rewrite Hhook by done. unfold bind. by rewrite Hv.
    + destruct (_require_cross_replica_context_fails d st Hmode) as [e He].
      unfold DistributionStrategy.update_non_slot.
      rewrite !(bind_guard_fails d _ st e) by by rewrite He. done.
  - intros d var fn args kw key v st Hd Hkey Hgroup Hgrouped Hv.
    destruct (options_with_one_flag key v kw Hkey Hgroup Hgrouped Hv) as [Ekw Eflag].
    destruct (options_without_flag kw Hgroup Hgrouped) as [Ekw' Eflag'].
    unfold bind at 1.
    destruct (decide (current_mode st = CrossReplica d)) as [Hmode|Hmode].
    + rewrite !update_eq by done.
      rewrite Ekw, Eflag, Ekw', Eflag'.
      destruct (argument_convention _ _ _) as [e|p]; [done|].
      rewrite Hhook' by done. unfold bind. by rewrite Hv.
    + destruct (_require_cross_replica_context_fails d st Hmode) as [e He].
      unfold DistributionStrategy.update.
      rewrite !(bind_guard_fails d _ st e) by by rewrite He. done.
  - intros d var fn args kwargs group rest kw st Hd Hrest Hkw st_in.
    unfold DistributionStrategy._update. rewrite Hd.
    by apply _DefaultDistributionStrategy__update_run.
  - intros d var fn args kw key v st Hd Hmode Hkey Hgroup Hgrouped Ha Hk Hv st_in st_out.
    destruct (options_with_one_flag key v kw Hkey Hgroup Hgrouped Hv) as [Ekw Eflag].
    destruct (options_without_flag kw Hgroup Hgrouped) as [Ekw' Eflag'].
    rewrite !update_eq by done.
    rewrite Ekw, Eflag, Ekw', Eflag', argument_convention_direct by done.
    cbn [fst snd]. unfold DistributionStrategy._update. rewrite Hd.
    rewrite !(_DefaultDistributionStrategy__update_run d var fn (VTuple args) (VDict kw)
                _ args kw st eq_refl eq_refl).
    fold st_in. fold st_out. rewrite Hv. cbn [truthy].
    split; [|done]. by destruct (fn (var :: args) kw st_in).1.
  - intros d colocate_with fn args kw key v st Hd Hmode Hkey Hgroup Hgrouped Ha Hk Hv
      st_in st_out.
    destruct (options_with_one_flag key v kw Hkey Hgroup Hgrouped Hv) as [Ekw Eflag].
    destruct (options_without_flag kw Hgroup Hgrouped) as [Ekw' Eflag'].
    rewrite !update_non_slot_eq by done.
    rewrite Ekw, Eflag, Ekw', Eflag', argument_convention_direct by done.
    cbn [fst snd]. unfold DistributionStrategy._update_non_slot. rewrite Hd.
    rewrite !(_DefaultDistributionStrategy__update_non_slot_run d colocate_with fn
                (VTuple args) (VDict kw) _ args kw st eq_refl eq_refl).
    fold st_in. fold st_out. rewrite Hv. cbn [truthy].
    split; [|done]. by destruct (fn args kw st_in).1.
Qed.

(** In the default strategy [grouped=False] wraps every leaf of the result
    in a one-element list and keeps the tuple and the dictionary; without
    the option the result comes back as it is; and [update] with
    [group=False] returns what [fn] returns on the variable and the
    argument, every leaf wrapped. *)
Lemma C10_group_flag_witness :
  let st := thread_in [CrossReplica default_strategy] in
  @DistributionStrategy.update_non_slot example_external default_strategy (VObject 9)
     nested_result [] (<["grouped" := VBool false]> ∅) st
    = (inr (VTuple [VList [VObject 1]; VDict (<["a" := VList [VObject 2]]> ∅)]), st) ∧
  @DistributionStrategy.update_non_slot example_external default_strategy (VObject 9)
     nested_result [] ∅ st
    = (inr (VTuple [VObject 1; VDict (<["a" := VObject 2]> ∅)]), st) ∧
  @DistributionStrategy.update example_external default_strategy (VObject 7) echo
     [VInt 1] (<["group" := VBool false]> ∅) st
    = (inr (VTuple [VTuple [VList [VObject 7]; VList [VInt 1]]; VDict ∅]), st).
Proof.
  intros st.
  destruct (@C10_group_flag example_external)
    as (_ & _ & Hcall & _ & _ & _ & Hflag & _ & _ & Hupdate & _).
  split_and!.
  - rewrite (Hflag default_strategy (VObject 9) nested_result [] ∅ "grouped" (VBool false) st)
      by first [reflexivity | by right].
    vm_compute. reflexivity.
  - rewrite Hcall by reflexivity. vm_compute. reflexivity.
  - destruct (Hupdate default_strategy (VObject 7) echo [VInt 1] ∅ "group" (VBool false) st
                eq_refl eq_refl (or_introl eq_refl) (lookup_empty _) (lookup_empty _)
                (lookup_empty _) (lookup_empty _) eq_refl) as [_ ->].
    vm_compute. reflexivity.
Defined.

(** * Properties of the rest of the file *)

Lemma set_mode_stack_same (st : State) : set_mode_stack (fun _ => mode_stack st) st = st.
Proof. by destruct st. Qed.

(** ** The two other guards *)


(** X1.  [require_replica_context] never changes the state and returns
    normally exactly when the current mode is the replica mode of the very
    object [replica_ctx].  Otherwise it raises a RuntimeError that tells
    apart: not being in any replica context (default or cross-replica mode),
    being in another replica context of the same strategy, and being in a
    replica context of another strategy, whose message names both
    strategies.  [merge_call] and [replica_id_in_sync_group] start with this
    guard: when it fails, they fail with its error, [merge_fn] is not run
    and the state is untouched; when it passes, [replica_id_in_sync_group]
    is the id the context was made with. *)
Theorem X1_require_replica_context (r : ReplicaContext) (st : State) :
  (require_replica_context r st).2 = st ∧
  ((require_replica_context r st).1 = inr tt ↔ current_mode st = InReplica r) ∧
  ((∀ r', current_mode st ≠ InReplica r') →
     (require_replica_context r st).1
       = inl (RuntimeError Need_to_be_inside_call_for_each_replica)) ∧
  (∀ r', current_mode st = InReplica r' → r' ≠ r →
     _distribution_strategy r' = _distribution_strategy r →
     (require_replica_context r st).1 = inl (RuntimeError Mismatching_replica_context)) ∧
  (∀ r', current_mode st = InReplica r' →
     _distribution_strategy r' ≠ _distribution_strategy r →
     (require_replica_context r st).1
       = inl (RuntimeError (Mismatching_DistributionStrategy_objects
                (Some (_distribution_strategy r')) (_distribution_strategy r)))) ∧
  (∀ e, (require_replica_context r st).1 = inl e →
     (∀ merge_fn args kwargs,
        ReplicaContext.merge_call r merge_fn args kwargs st = (inl e, st)) ∧
     ReplicaContext.replica_id_in_sync_group r st = (inl e, st)) ∧
  (current_mode st = InReplica r →
     ReplicaContext.replica_id_in_sync_group r st = (inr (_replica_id_in_sync_group r), st)).
Proof.
  split_and!.
  - by rewrite require_replica_context_eq.
  - rewrite require_replica_context_eq.
    destruct (current_mode st) as [|s'|r']; simpl; [split; discriminate..|].
    repeat case_decide; simpl; split; try discriminate; congruence.
  - intros Hmode. rewrite require_replica_context_eq.
    destruct (current_mode st) as [|s'|r']; [done..|]. by destruct (Hmode r').
  - intros r' E Hne Hs. rewrite require_replica_context_eq, E.
    by rewrite decide_False, decide_True.
  - intros r' E Hs. rewrite require_replica_context_eq, E.
    rewrite decide_False by congruence. by rewrite decide_False.
  - intros e He. rewrite require_replica_context_eq in He. simpl in He.
    split; [intros merge_fn args kwargs; unfold ReplicaContext.merge_call|
            unfold ReplicaContext.replica_id_in_sync_group];
      unfold bind; rewrite require_replica_context_eq; by rewrite He.
  - intros E. unfold ReplicaContext.replica_id_in_sync_group, bind.
    by rewrite (require_replica_context_ok r st E).
Qed.

Lemma _require_distribution_strategy_scope_eq (s : Strategy) (st : State) :
  _require_distribution_strategy_scope s st =
    (match distribution_strategy_context.distribution_strategy (current_mode st) with
     | None => inl (RuntimeError (Need_to_be_inside_scope_for s))
     | Some s' =>
         if decide (s' = s) then inr tt
         else inl (RuntimeError (Mixing_different_DistributionStrategy_objects (Some s') s))
     end, st).
Proof.
  unfold _require_distribution_strategy_scope, bind, _get_per_thread_mode,
    distribution_strategy_context._get_per_thread_mode,
    distribution_strategy_context.has_distribution_strategy, current_mode.
  destruct (distribution_strategy_context.top (mode_stack st)) as [|s'|r] eqn:Et; cbn.
  - rewrite is_ne by done. cbn. by rewrite Et.
  - case_decide as E.
    + subst s'. by rewrite is_refl.
    + rewrite is_ne by congruence. cbn. by rewrite Et.
  - case_decide as E.
    + by rewrite E, is_refl.
    + rewrite is_ne by congruence. cbn. by rewrite Et.
Qed.

(** X2.  [_require_distribution_strategy_scope] never changes the state.
    For a strategy that is not a default strategy, and for every strategy
    in a thread that is not in the default mode, it returns normally
    exactly when the strategy of the current mode is the very object given:
    in its cross-replica context or in one of its replica contexts.  In the
    default mode a strategy that is not a default strategy gets the
    RuntimeError that asks for its scope; under another strategy, not a
    default one, every strategy gets the RuntimeError that names both
    strategies.  (A default strategy in the default mode is left out: the
    default mode belongs to a module that is not in this file.)  The guard
    is weaker than the cross-replica guard: where that one passes this one
    passes, in a replica context of the strategy this one passes and that
    one fails, and where this one fails that one fails with the same
    error. *)
Theorem X2_require_distribution_strategy_scope (s : Strategy) (st : State) :
  (_require_distribution_strategy_scope s st).2 = st ∧
  (current_mode st ≠ Default ∨ strategy_class s ≠ _DefaultDistributionStrategy_class →
   ((_require_distribution_strategy_scope s st).1 = inr tt ↔
      distribution_strategy_context.distribution_strategy (current_mode st) = Some s) ∧
   (∀ e, (_require_distribution_strategy_scope s st).1 = inl e →
      (_require_cross_replica_context s st).1 = inl e)) ∧
  (current_mode st = Default →
   strategy_class s ≠ _DefaultDistributionStrategy_class →
   _require_distribution_strategy_scope s st
     = (inl (RuntimeError (Need_to_be_inside_scope_for s)), st)) ∧
  (∀ s', distribution_strategy_context.distribution_strategy (current_mode st) = Some s' →
     s' ≠ s → strategy_class s' ≠ _DefaultDistributionStrategy_class →
     _require_distribution_strategy_scope s st
       = (inl (RuntimeError (Mixing_different_DistributionStrategy_objects (Some s') s)),
          st)) ∧
  ((_require_cross_replica_context s st).1 = inr tt →
     (_require_distribution_strategy_scope s st).1 = inr tt) ∧
  (∀ r, current_mode st = InReplica r → _distribution_strategy r = s →
     (_require_distribution_strategy_scope s st).1 = inr tt ∧
     (_require_cross_replica_context s st).1
       = inl (RuntimeError Method_requires_cross_replica_context_use_merge_call)).
Proof.
  split_and!.
  - by rewrite _require_distribution_strategy_scope_eq.
  - intros _. split.
    + rewrite _require_distribution_strategy_scope_eq. simpl.
      destruct (distribution_strategy_context.distribution_strategy (current_mode st))
        as [s'|]; [|split; discriminate].
      case_decide; split; try discriminate; congruence.
    + intros e. rewrite _require_distribution_strategy_scope_eq,
        _require_cross_replica_context_eq.
      destruct (current_mode st) as [|s'|r]; simpl; [done| |]; by repeat case_decide.
  - intros Hmode _. by rewrite _require_distribution_strategy_scope_eq, Hmode.
  - intros s' Hs' Hne _. rewrite _require_distribution_strategy_scope_eq, Hs'.
    by rewrite decide_False.
  - rewrite _require_distribution_strategy_scope_eq, _require_cross_replica_context_eq.
    destruct (current_mode st) as [|s'|r]; simpl; [discriminate| |].
    + by case_decide.
    + case_decide; discriminate.
  - intros r E Hs.
    rewrite _require_distribution_strategy_scope_eq, _require_cross_replica_context_eq, E.
    simpl. by rewrite !decide_True.
Qed.

(** [strategy_A] in a fresh thread is asked for its scope; in the scope of
    [strategy_B] it is told that the two are mixed; in its own scope it
    passes. *)
Lemma X2_require_distribution_strategy_scope_witness :
  _require_distribution_strategy_scope strategy_A fresh_thread
    = (inl (RuntimeError (Need_to_be_inside_scope_for strategy_A)), fresh_thread) ∧
  _require_distribution_strategy_scope strategy_A (thread_in [CrossReplica strategy_B])
    = (inl (RuntimeError
              (Mixing_different_DistributionStrategy_objects (Some strategy_B) strategy_A)),
       thread_in [CrossReplica strategy_B]) ∧
  (_require_distribution_strategy_scope strategy_A (thread_in [CrossReplica strategy_A])).1
    = inr tt.
Proof.
  split_and!.
  - destruct (X2_require_distribution_strategy_scope strategy_A fresh_thread)
      as (_ & _ & Hdefault & _).
    apply Hdefault; [reflexivity | discriminate].
  - destruct (X2_require_distribution_strategy_scope strategy_A
                (thread_in [CrossReplica strategy_B])) as (_ & _ & _ & Hmixing & _).
    apply (Hmixing strategy_B); [reflexivity | discriminate | discriminate].
  - destruct (X2_require_distribution_strategy_scope strategy_A
                (thread_in [CrossReplica strategy_A])) as (_ & Hiff & _).
    apply Hiff; [left; discriminate | reflexivity].
Defined.

(** ** Entering and leaving a scope *)

Lemma _CurrentDistributionContext_exit_enter (c : _CurrentDistributionContext.t)
    (st : State) :
  _CurrentDistributionContext.__exit__ c (_CurrentDistributionContext.__enter__ c st).2
    = (inr tt, st) ∧
  (_CurrentDistributionContext.__enter__ c st).1
    = inr (distribution_strategy_context.distribution_strategy
             (_CurrentDistributionContext._context c)) ∧
  mode_stack (_CurrentDistributionContext.__enter__ c st).2
    = _CurrentDistributionContext._context c :: mode_stack st.
Proof.
  destruct c as [context creator_scope var_scope device_scope], st.
  by destruct var_scope, device_scope.
Qed.

(** X3.  Leaving a [_CurrentDistributionContext] undoes entering it: for
    every such context manager, with or without a variable scope and a
    device scope, and every thread state, [__exit__] run right after
    [__enter__] succeeds and gives back the state before [__enter__], the
    stack of modes, the variable creators, the variable scopes and the
    device placements alike; [__enter__] itself returns the strategy of the
    context and adds exactly one mode. *)
Theorem X3_CurrentDistributionContext_round_trip (c : _CurrentDistributionContext.t)
    (st : State) :
  _CurrentDistributionContext.__exit__ c (_CurrentDistributionContext.__enter__ c st).2
    = (inr tt, st) ∧
  (_CurrentDistributionContext.__enter__ c st).1
    = inr (distribution_strategy_context.distribution_strategy
             (_CurrentDistributionContext._context c)) ∧
  mode_stack (_CurrentDistributionContext.__enter__ c st).2
    = _CurrentDistributionContext._context c :: mode_stack st.
Proof. apply _CurrentDistributionContext_exit_enter. Qed.

(** A [with] block over a [_CurrentDistributionContext] whose body gives
    the state back as it found it: the outcome is the body's, and the state
    is the one before the block. *)
Lemma with_CurrentDistributionContext {A} (c : _CurrentDistributionContext.t)
    (body : option Strategy → M A) (st : State) :
  (body (distribution_strategy_context.distribution_strategy
           (_CurrentDistributionContext._context c))
     (_CurrentDistributionContext.__enter__ c st).2).2
    = (_CurrentDistributionContext.__enter__ c st).2 →
  with_scope (a_CurrentDistributionContext c) body st =
    ((body (distribution_strategy_context.distribution_strategy
              (_CurrentDistributionContext._context c))
        (_CurrentDistributionContext.__enter__ c st).2).1, st).
Proof.
  intros Hb.
  destruct (_CurrentDistributionContext_exit_enter c st) as (Hexit & Henter & _).
  unfold with_scope, with_, scope__enter__, scope__exit__, bind, try_finally.
  destruct (_CurrentDistributionContext.__enter__ c st) as [res st1]. simpl in *.
  subst res.
  destruct (body _ st1) as [out st2]. simpl in *. subst st2.
  by rewrite Hexit.
Qed.

(** What [scope()] returns to a thread in the default mode. *)
Lemma scope_from_Default (s : Strategy) (st : State) :
  current_mode st = Default →
  ∃ c, DistributionStrategy.scope s st = (inr (a_CurrentDistributionContext c), st) ∧
       _CurrentDistributionContext._context c = CrossReplica s.
Proof.
  intros E. unfold DistributionStrategy.scope, _DefaultDistributionStrategy.scope.
  destruct (strategy_class s); unfold bind; rewrite has_distribution_strategy_eq, E;
    by eexists.
Qed.

(** X4.  A [with self.scope():] block entered from the default mode, for
    every strategy: its body starts in the cross-replica context of the
    strategy, one mode deeper than the caller, with the strategy itself as
    the value of [as], so that the cross-replica guard of the strategy passes
    there.  When the body gives the state back as it found it, the block
    gives back the state before it, whether the body returned or raised,
    and its outcome, result or exception, is the body's. *)
Theorem X4_scope_block {A} (s : Strategy) (body : option Strategy → M A) (st : State) :
  current_mode st = Default →
  (∀ x, keeps_state (body x)) →
  with_strategy_scope s body st = ((body (Some s) (in_scope_of s st)).1, st) ∧
  current_mode (in_scope_of s st) = CrossReplica s ∧
  mode_stack (in_scope_of s st) = CrossReplica s :: mode_stack st ∧
  _require_cross_replica_context s (in_scope_of s st) = (inr tt, in_scope_of s st).
Proof.
  intros Hmode Hbody.
  destruct (scope_from_Default s st Hmode) as (c & Hscope & Hc).
  destruct (_CurrentDistributionContext_exit_enter c st) as (_ & _ & Hstack).
  assert (Hin : in_scope_of s st = (_CurrentDistributionContext.__enter__ c st).2)
    by (unfold in_scope_of; by rewrite Hscope).
  assert (Hcur : current_mode (in_scope_of s st) = CrossReplica s)
    by (unfold current_mode; by rewrite Hin, Hstack, Hc).
  split_and!.
  - unfold with_strategy_scope, bind. rewrite Hscope.
    rewrite with_CurrentDistributionContext by apply Hbody. by rewrite Hc, Hin.
  - done.
  - by rewrite Hin, Hstack, Hc.
  - by apply _require_cross_replica_context_ok.
Qed.

(** The scope of [strategy_A], entered by a fresh thread: a body that
    raises leaves the thread fresh, and a body that looks at the mode sees
    the cross-replica context of [strategy_A]. *)
Lemma X4_scope_block_witness :
  with_strategy_scope strategy_A (fun _ => boom [] ∅) fresh_thread
    = (inl (Raised (VStr "boom")), fresh_thread) ∧
  with_strategy_scope strategy_A (fun _ => observe_mode [] ∅) fresh_thread
    = (inr (VStrategy strategy_A), fresh_thread).
Proof.
  split.
  - destruct (X4_scope_block strategy_A (fun _ => boom [] ∅) fresh_thread eq_refl
                ltac:(by intros x st)) as [-> _].
    reflexivity.
  - destruct (X4_scope_block strategy_A (fun _ => observe_mode [] ∅) fresh_thread eq_refl)
      as [-> _].
    + intros x st. unfold observe_mode, bind, _get_per_thread_mode,
        distribution_strategy_context._get_per_thread_mode.
      by destruct (distribution_strategy_context.top (mode_stack st)).
    + vm_compute. reflexivity.
Defined.

(** What [scope()] returns, for a strategy that inherits it from the base
    class, to a thread in the cross-replica context of that strategy. *)
Lemma scope_again (s : Strategy) (st : State) :
  strategy_class s ≠ _DefaultDistributionStrategy_class →
  current_mode st = CrossReplica s →
  DistributionStrategy.scope s st
    = (inr (a_SameScopeAgainContext (_SameScopeAgainContext.__init__ s)), st).
Proof.
  intros Hclass E. unfold DistributionStrategy.scope.
  destruct (strategy_class s); [|done|]; unfold bind at 1;
    rewrite has_distribution_strategy_eq, E; by rewrite bind_guard_ok.
Qed.

Lemma with_strategy_scope_again {A} (s : Strategy) (body : option Strategy → M A)
    (st : State) :
  strategy_class s ≠ _DefaultDistributionStrategy_class →
  current_mode st = CrossReplica s →
  with_strategy_scope s body st = body (Some s) st.
Proof.
  intros Hclass E. unfold with_strategy_scope, bind. rewrite scope_again by done.
  unfold with_scope, with_, bind. simpl. apply try_finally_ret_tt.
Qed.

(** What [scope()] does in a thread where a strategy is current that it
    does not accept. *)
Lemma scope_refused (a b : Strategy) (st : State) :
  current_mode st = CrossReplica a →
  a ≠ b ∨ strategy_class b = _DefaultDistributionStrategy_class →
  DistributionStrategy.scope b st =
    (inl (RuntimeError
            (if decide (strategy_class b = _DefaultDistributionStrategy_class)
             then Must_not_nest_DistributionStrategy_scopes
             else Mixing_different_DistributionStrategy_objects (Some a) b)), st).
Proof.
  intros E Hab. unfold DistributionStrategy.scope, _DefaultDistributionStrategy.scope.
  destruct (strategy_class b) eqn:Eb; unfold bind at 1;
    rewrite has_distribution_strategy_eq, E.
  - destruct Hab as [Hab|?]; [|done].
    apply bind_guard_fails. rewrite _require_cross_replica_context_eq, E.
    by rewrite decide_False.
  - done.
  - destruct Hab as [Hab|?]; [|done].
    apply bind_guard_fails. rewrite _require_cross_replica_context_eq, E.
    by rewrite decide_False.
Qed.

(** X5.  For a strategy that inherits [scope] from the base class, entered
    from the default mode, a block nested in a block of the same strategy is
    the single block: [with s.scope(): with s.scope(): body] does what
    [with s.scope(): body] does, outcome and state, for every body. *)
Theorem X5_nested_same_scope {A} (s : Strategy) (body : option Strategy → M A)
    (st : State) :
  strategy_class s ≠ _DefaultDistributionStrategy_class →
  current_mode st = Default →
  with_strategy_scope s (fun _ => with_strategy_scope s body) st
    = with_strategy_scope s body st.
Proof.
  intros Hclass Hmode.
  destruct (scope_from_Default s st Hmode) as (c & Hscope & Hc).
  destruct (_CurrentDistributionContext_exit_enter c st) as (_ & Henter & Hstack).
  unfold with_strategy_scope at 1 3. unfold bind. rewrite Hscope.
  unfold with_scope, with_, scope__enter__, bind.
  destruct (_CurrentDistributionContext.__enter__ c st) as [res st1]. simpl in *.
  subst res. unfold try_finally.
  rewrite with_strategy_scope_again; [by rewrite Hc|done|].
  unfold current_mode. by rewrite Hstack, Hc.
Qed.

(** Entered twice by a fresh thread, the scope of [strategy_A] is entered
    once: the body sees one mode on the stack. *)
Lemma X5_nested_same_scope_witness :
  with_strategy_scope strategy_A
    (fun _ => with_strategy_scope strategy_A
                (fun _ => st <- get_state ;; ret (length (mode_stack st)))) fresh_thread
    = (inr 1, fresh_thread).
Proof.
  rewrite (X5_nested_same_scope strategy_A
             (fun _ => st <- get_state ;; ret (length (mode_stack st))) fresh_thread)
    by first [discriminate | reflexivity].
  vm_compute. reflexivity.
Defined.

(** X6.  Entered from the default mode, a block of any strategy [a] whose
    body opens the scope of a strategy [b] that does not accept it (another
    strategy, or a default strategy, [a] itself included) raises the error
    of [b.scope()], which names both strategies or, for a default strategy
    [b], none; the body of the inner block is not run, and the outer scope
    is left: the state is the one before the outer block. *)
Theorem X6_nested_other_scope {A} (a b : Strategy) (body : option Strategy → M A)
    (st : State) :
  current_mode st = Default →
  a ≠ b ∨ strategy_class b = _DefaultDistributionStrategy_class →
  with_strategy_scope a (fun _ => with_strategy_scope b body) st =
    (inl (RuntimeError
            (if decide (strategy_class b = _DefaultDistributionStrategy_class)
             then Must_not_nest_DistributionStrategy_scopes
             else Mixing_different_DistributionStrategy_objects (Some a) b)), st).
Proof.
  intros Hmode Hab.
  destruct (scope_from_Default a st Hmode) as (c & Hscope & Hc).
  destruct (_CurrentDistributionContext_exit_enter c st) as (_ & _ & Hstack).
  assert (Hinner : with_strategy_scope b body (_CurrentDistributionContext.__enter__ c st).2
    = (inl (RuntimeError
              (if decide (strategy_class b = _DefaultDistributionStrategy_class)
               then Must_not_nest_DistributionStrategy_scopes
               else Mixing_different_DistributionStrategy_objects (Some a) b)),
       (_CurrentDistributionContext.__enter__ c st).2)).
  { unfold with_strategy_scope, bind. rewrite (scope_refused a b); [done| |done].
    unfold current_mode. by rewrite Hstack, Hc. }
  unfold with_strategy_scope at 1. unfold bind. rewrite Hscope.
  rewrite with_CurrentDistributionContext; by rewrite Hinner.
Qed.

(** Two strategies mixed by a fresh thread, and the default strategy nested
    in itself: both raise and leave the thread fresh. *)
Lemma X6_nested_other_scope_witness :
  with_strategy_scope strategy_A (fun _ => with_strategy_scope strategy_B
                                             (fun _ => observe_mode [] ∅)) fresh_thread
    = (inl (RuntimeError
              (Mixing_different_DistributionStrategy_objects (Some strategy_A) strategy_B)),
       fresh_thread) ∧
  with_strategy_scope default_strategy (fun _ => with_strategy_scope default_strategy
                                                   (fun _ => observe_mode [] ∅)) fresh_thread
    = (inl (RuntimeError Must_not_nest_DistributionStrategy_scopes), fresh_thread).
Proof.
  split.
  - apply (X6_nested_other_scope strategy_A strategy_B (fun _ => observe_mode [] ∅)
             fresh_thread eq_refl).
    left. discriminate.
  - apply (X6_nested_other_scope default_strategy default_strategy
             (fun _ => observe_mode [] ∅) fresh_thread eq_refl).
    by right.
Defined.

(** ** Replica contexts and merge functions *)

Lemma set_mode_stack_pushed (mode : ExecutionMode) (st : State) :
  set_mode_stack (fun _ => mode_stack st) (set_mode_stack (cons mode) st) = st.
Proof. by destruct st. Qed.

(** [_merge_call] with a merge function that, called on the strategy and
    the merged arguments, gives the state back as it found it. *)
Lemma _merge_call_keeps_state (r : ReplicaContext) (merge_fn : Callable)
    (l : list Value) (kw : gmap string Value) (st : State) :
  let st_in := set_mode_stack (cons (CrossReplica (_distribution_strategy r))) st in
  (merge_fn (VStrategy (_distribution_strategy r) :: l) kw st_in).2 = st_in →
  ReplicaContext._merge_call r merge_fn (VTuple l) (VDict kw) st
    = ((merge_fn (VStrategy (_distribution_strategy r) :: l) kw st_in).1, st).
Proof.
  intros st_in Hfn.
  unfold ReplicaContext._merge_call, bind, try_finally, _push_per_thread_mode,
    _pop_per_thread_mode, distribution_strategy_context._push_per_thread_mode,
    distribution_strategy_context._pop_per_thread_mode,
    distribution_strategy_context._CrossReplicaThreadMode, modify, call.
  cbn [iter_value mapping_value app].
  fold st_in. destruct (merge_fn _ kw st_in) as [res st2]. simpl in *. subst st2.
  unfold st_in. by destruct st.
Qed.

(** [merge_call] with arguments given directly, from the replica context
    itself. *)
Lemma merge_call_direct (r : ReplicaContext) (merge_fn : Callable)
    (args : list Value) (kwargs : gmap string Value) (st : State) :
  current_mode st = InReplica r →
  kwargs !! "args" = None → kwargs !! "kwargs" = None →
  ReplicaContext.merge_call r merge_fn args kwargs st
    = ReplicaContext._merge_call r merge_fn (VTuple args) (VDict kwargs) st.
Proof.
  intros Hmode Ha Hk. unfold ReplicaContext.merge_call, bind.
  rewrite require_replica_context_ok by done.
  rewrite handle_old_and_new_args_eq. by rewrite argument_convention_direct.
Qed.

(** X7.  A merge function runs in the cross-replica context, so it cannot
    use a replica context: for every replica context [r] that the thread is
    in, a [merge_fn] that calls [merge_call] of any replica context [r']
    ([r] itself included), with any function and arguments, makes the outer
    [merge_call] raise the RuntimeError of the replica guard; the inner
    function is not run, and the outer call still leaves the cross-replica
    context: the state is the one before the call.  The same holds for a
    [merge_fn] that reads [replica_id_in_sync_group]. *)
Theorem X7_merge_fn_has_no_replica_context (r r' : ReplicaContext) (inner : Callable)
    (a : list Value) (k : gmap string Value)
    (args : list Value) (kwargs : gmap string Value) (st : State) :
  current_mode st = InReplica r →
  kwargs !! "args" = None → kwargs !! "kwargs" = None →
  ReplicaContext.merge_call r (fun _ _ => ReplicaContext.merge_call r' inner a k)
      args kwargs st
    = (inl (RuntimeError Need_to_be_inside_call_for_each_replica), st) ∧
  ReplicaContext.merge_call r (replica_id_of r') args kwargs st
    = (inl (RuntimeError Need_to_be_inside_call_for_each_replica), st).
Proof.
  intros Hmode Ha Hk.
  assert (Hguard : ∀ st0, require_replica_context r'
              (set_mode_stack (cons (CrossReplica (_distribution_strategy r))) st0)
            = (inl (RuntimeError Need_to_be_inside_call_for_each_replica),
               set_mode_stack (cons (CrossReplica (_distribution_strategy r))) st0)).
  { intros st0. by rewrite require_replica_context_eq. }
  split; rewrite merge_call_direct by done.
  - rewrite _merge_call_keeps_state;
      unfold ReplicaContext.merge_call, bind; by rewrite Hguard.
  - rewrite _merge_call_keeps_state;
      unfold replica_id_of, ReplicaContext.replica_id_in_sync_group, bind;
      by rewrite Hguard.
Qed.

(** In the replica context [replica_0], a merge function that calls
    [merge_call] of [replica_0] again. *)
Lemma X7_merge_fn_has_no_replica_context_witness :
  ReplicaContext.merge_call replica_0
      (fun _ _ => ReplicaContext.merge_call replica_0 observe_mode [] ∅)
      [VInt 1] ∅ (thread_in [InReplica replica_0])
    = (inl (RuntimeError Need_to_be_inside_call_for_each_replica),
       thread_in [InReplica replica_0]).
Proof.
  refine (proj1 (X7_merge_fn_has_no_replica_context replica_0 replica_0 observe_mode [] ∅
                   [VInt 1] ∅ (thread_in [InReplica replica_0]) eq_refl
                   (lookup_empty _) (lookup_empty _))).
Defined.

(** [call_for_each_replica] of a default strategy with no arguments, in
    the cross-replica context of the strategy: [fn] is called in the replica
    context made for this call. *)
Lemma default_call_for_each_replica_no_args `{External} (d : Strategy) (fn : Callable)
    (st : State) :
  strategy_class d = _DefaultDistributionStrategy_class →
  current_mode st = CrossReplica d →
  let st_in := set_mode_stack (cons (InReplica (replica_context_made_in d st)))
                 (set_next_addr (S (next_addr st)) st) in
  (fn [] ∅ st_in).2 = st_in →
  DistributionStrategy.call_for_each_replica d fn [] ∅ st
    = ((fn [] ∅ st_in).1, set_next_addr (S (next_addr st)) st).
Proof.
  intros Hd Hmode st_in Hfn.
  unfold DistributionStrategy.call_for_each_replica.
  rewrite bind_guard_ok by done.
  unfold bind at 1. rewrite handle_old_and_new_args_eq.
  rewrite argument_convention_direct by done.
  cbn [fst snd value_pop]. unfold bind at 1, ret at 1. rewrite delete_empty.
  unfold DistributionStrategy._call_for_each_replica. rewrite Hd.
  unfold _DefaultDistributionStrategy._call_for_each_replica, bind at 1.
  assert (Hinit : ReplicaContext.__init__ d 0 st
                  = (inr (replica_context_made_in d st),
                     set_next_addr (S (next_addr st)) st)) by reflexivity.
  rewrite Hinit.
  unfold with_, bind, try_finally, ReplicaContext.__enter__, ReplicaContext.__exit__,
    ReplicaContext._thread_context, distribution_strategy_context._InReplicaThreadMode,
    _push_per_thread_mode, _pop_per_thread_mode,
    distribution_strategy_context._push_per_thread_mode,
    distribution_strategy_context._pop_per_thread_mode, modify, call.
  cbn [iter_value mapping_value app].
  fold st_in. destruct (fn [] ∅ st_in) as [res st2]. simpl in *. subst st2.
  unfold st_in. by destruct st.
Qed.

Lemma own_replica_id_eq (r : ReplicaContext) (a : list Value) (k : gmap string Value)
    (st : State) :
  current_mode st = InReplica r →
  own_replica_id a k st = (inr (VInt (_replica_id_in_sync_group r)), st).
Proof.
  intros Hmode.
  assert (Hget : get_replica_context st = (inr (Some r), st)).
  { unfold get_replica_context, bind, _get_per_thread_mode,
      distribution_strategy_context._get_per_thread_mode.
    unfold current_mode in Hmode. by rewrite Hmode. }
  unfold own_replica_id, bind at 1. rewrite Hget.
  unfold ReplicaContext.replica_id_in_sync_group, bind.
  by rewrite require_replica_context_ok.
Qed.

Lemma replica_id_of_eq (r : ReplicaContext) (a : list Value) (k : gmap string Value)
    (st : State) :
  replica_id_of r a k st =
    (match (require_replica_context r st).1 with
     | inl e => inl e
     | inr _ => inr (VInt (_replica_id_in_sync_group r))
     end, st).
Proof.
  unfold replica_id_of, ReplicaContext.replica_id_in_sync_group, bind.
  rewrite require_replica_context_eq. simpl.
  by destruct (current_mode st); repeat case_decide.
Qed.

(** X8.  [call_for_each_replica] of a default strategy runs [fn] in a
    replica context made for this call: a new object, of this strategy, with
    the replica id 0.  A function that fetches it with
    [get_replica_context()] reads the replica id 0 from it; every other
    replica context of the same strategy, such as one kept from an earlier
    call, is refused by the replica guard although the strategy is the
    right one.  In both cases the call leaves the replica context again: the
    state afterwards differs from the one before only by the object made. *)
Theorem X8_default_replica_context `{External} (d : Strategy) (st : State) :
  strategy_class d = _DefaultDistributionStrategy_class →
  current_mode st = CrossReplica d →
  DistributionStrategy.call_for_each_replica d own_replica_id [] ∅ st
    = (inr (VInt 0), set_next_addr (S (next_addr st)) st) ∧
  (∀ r, _distribution_strategy r = d → r ≠ replica_context_made_in d st →
     DistributionStrategy.call_for_each_replica d (replica_id_of r) [] ∅ st
       = (inl (RuntimeError Mismatching_replica_context),
          set_next_addr (S (next_addr st)) st)).
Proof.
  intros Hd Hmode. split.
  - rewrite default_call_for_each_replica_no_args; [|done..|].
    + by rewrite (own_replica_id_eq (replica_context_made_in d st)).
    + by rewrite (own_replica_id_eq (replica_context_made_in d st)).
  - intros r Hr Hne.
    rewrite default_call_for_each_replica_no_args; [|done..|].
    + rewrite replica_id_of_eq, require_replica_context_eq. cbn.
      rewrite decide_False by done. by rewrite decide_True.
    + by rewrite replica_id_of_eq.
Qed.

(** In the scope of the default strategy, a thread whose next object is
    number 10 makes the replica context number 10; [replica_0], which is
    number 4, is refused. *)
Lemma X8_default_replica_context_witness :
  let st := thread_in [CrossReplica default_strategy] in
  @DistributionStrategy.call_for_each_replica example_external default_strategy
     own_replica_id [] ∅ st
    = (inr (VInt 0), set_next_addr 11 st) ∧
  @DistributionStrategy.call_for_each_replica example_external default_strategy
     (replica_id_of replica_0) [] ∅ st
    = (inl (RuntimeError Mismatching_replica_context), set_next_addr 11 st).
Proof.
  intros st.
  destruct (@X8_default_replica_context example_external default_strategy st
              eq_refl eq_refl) as [Hown Hstale].
  split; [apply Hown | apply Hstale; [reflexivity | discriminate]].
Defined.

(** X9.  The cross-replica guard of [reduce] passes inside a merge
    function: for a replica context [r] of any strategy that the thread is
    in, [merge_call] with the merge function
    [lambda distribution, t: distribution.reduce(op, t, destinations)]
    reaches the strategy's [_reduce], which runs one mode deeper, in the
    cross-replica context of the strategy; when [_reduce] leaves the stack
    of modes alone, [merge_call] returns its outcome and the caller is back
    in the replica context.  For a default strategy the reduction of a
    replica's value is the value itself, and the state is untouched. *)
Theorem X9_reduce_in_merge_fn `{External} (r : ReplicaContext) (op : ReduceOp)
    (t destinations : Value) (st : State) :
  current_mode st = InReplica r →
  let s := _distribution_strategy r in
  let st_in := set_mode_stack (cons (CrossReplica s)) st in
  (mode_stack (DistributionStrategy._reduce s op t destinations st_in).2
     = mode_stack st_in →
   ReplicaContext.merge_call r (reducing_merge_fn op destinations) [t] ∅ st
     = ((DistributionStrategy._reduce s op t destinations st_in).1,
        set_mode_stack (fun _ => mode_stack st)
          (DistributionStrategy._reduce s op t destinations st_in).2)) ∧
  (strategy_class s = _DefaultDistributionStrategy_class →
   ReplicaContext.merge_call r (reducing_merge_fn op destinations) [t] ∅ st
     = (inr t, st)).
Proof.
  intros Hmode s st_in.
  assert (Hfn : reducing_merge_fn op destinations [VStrategy s; t] ∅ st_in
                = DistributionStrategy._reduce s op t destinations st_in).
  { unfold reducing_merge_fn, DistributionStrategy.reduce.
    by rewrite bind_guard_ok by done. }
  assert (Hcall : ReplicaContext.merge_call r (reducing_merge_fn op destinations) [t] ∅ st
            = (let '(res, st1) := DistributionStrategy._reduce s op t destinations st_in in
               match _pop_per_thread_mode st1 with
               | (inl e, st2) => (inl e, st2)
               | (inr _, st2) => (res, st2)
               end)).
  { rewrite merge_call_direct by done.
    unfold ReplicaContext._merge_call, bind, try_finally, _push_per_thread_mode,
      distribution_strategy_context._push_per_thread_mode,
      distribution_strategy_context._CrossReplicaThreadMode, modify, call.
    cbn [iter_value mapping_value app]. fold s. fold st_in. by rewrite Hfn. }
  split.
  - intros Hstack. rewrite Hcall.
    destruct (DistributionStrategy._reduce s op t destinations st_in) as [res st1].
    simpl in *.
    unfold _pop_per_thread_mode, distribution_strategy_context._pop_per_thread_mode.
    by rewrite Hstack.
  - intros Hs. rewrite Hcall.
    unfold DistributionStrategy._reduce. rewrite Hs.
    unfold _DefaultDistributionStrategy._reduce, ret, st_in. by destruct st.
Qed.

(** In [replica_0], a replica context of the default strategy, the sum of
    the value 5 over the replicas is 5. *)
Lemma X9_reduce_in_merge_fn_witness :
  ReplicaContext.merge_call replica_0
      (@reducing_merge_fn example_external SUM VNone) [VInt 5] ∅
      (thread_in [InReplica replica_0])
    = (inr (VInt 5), thread_in [InReplica replica_0]).
Proof.
  refine (proj2 (@X9_reduce_in_merge_fn example_external replica_0 SUM (VInt 5) VNone
                   (thread_in [InReplica replica_0]) eq_refl) eq_refl).
Defined.

(** ** The example of the docstring of call_for_each_replica *)

(** A positional container alone is passed on as it is. *)
Lemma argument_convention_args_container (method : string) (a : Value) :
  is_not_None a = true →
  argument_convention method [] (<["args" := a]> ∅) = inr (a, VDict ∅).
Proof.
  intros Ha. unfold argument_convention, forwarded, direct_keywords.
  assert (Hc : container (<["args" := a]> ∅) "args" = Some a).
  { unfold container. rewrite lookup_insert_eq. by rewrite Ha. }
  assert (Hk : container (<["args" := a]> ∅) "kwargs" = None).
  { apply container_None. by rewrite lookup_insert_ne. }
  rewrite Hc, Hk, delete_insert_eq, !delete_empty.
  rewrite (bool_decide_eq_false_2 (is_Some None)) by (by intros [? ?]).
  by rewrite (bool_decide_eq_true_2 ([] = [])).
Qed.

(** [call_for_each_replica] of a default strategy, in the cross-replica
    context of the strategy, with a function that gives the state back as
    it found it. *)
Lemma default_call_for_each_replica_eq `{External} (d : Strategy) (fn : Callable)
    (args : list Value) (kwargs : gmap string Value)
    (a : Value) (l : list Value) (kw : gmap string Value) (st : State) :
  strategy_class d = _DefaultDistributionStrategy_class →
  current_mode st = CrossReplica d →
  argument_convention "call_for_each_replica" args kwargs = inr (a, VDict kw) →
  iter_value a = Some l →
  let st_in := set_mode_stack (cons (InReplica (replica_context_made_in d st)))
                 (set_next_addr (S (next_addr st)) st) in
  (fn l (delete "run_concurrently" kw) st_in).2 = st_in →
  DistributionStrategy.call_for_each_replica d fn args kwargs st
    = ((fn l (delete "run_concurrently" kw) st_in).1, set_next_addr (S (next_addr st)) st).
Proof.
  intros Hd Hmode Hconv Hl st_in Hfn.
  unfold DistributionStrategy.call_for_each_replica.
  rewrite bind_guard_ok by done.
  unfold bind at 1. rewrite handle_old_and_new_args_eq, Hconv.
  cbn [fst snd value_pop]. unfold bind at 1, ret at 1.
  unfold DistributionStrategy._call_for_each_replica. rewrite Hd.
  unfold _DefaultDistributionStrategy._call_for_each_replica, bind at 1.
  assert (Hinit : ReplicaContext.__init__ d 0 st
                  = (inr (replica_context_made_in d st),
                     set_next_addr (S (next_addr st)) st)) by reflexivity.
  rewrite Hinit.
  unfold with_, bind, try_finally, ReplicaContext.__enter__, ReplicaContext.__exit__,
    ReplicaContext._thread_context, distribution_strategy_context._InReplicaThreadMode,
    _push_per_thread_mode, _pop_per_thread_mode,
    distribution_strategy_context._push_per_thread_mode,
    distribution_strategy_context._pop_per_thread_mode, modify, call.
  rewrite Hl. cbn [mapping_value app].
  fold st_in. destruct (fn l _ st_in) as [res st2]. simpl in *. subst st2.
  unfold st_in. by destruct st.
Qed.

(** The replica function of the example, in a replica context of a default
    strategy. *)
Lemma docstring_fn_eq `{External} (r : ReplicaContext) (three : Z) (st : State) :
  strategy_class (_distribution_strategy r) = _DefaultDistributionStrategy_class →
  current_mode st = InReplica r →
  docstring_fn [VInt three] ∅ st
    = (inr (VInt (0 + (three + _replica_id_in_sync_group r)
                  + (three + _replica_id_in_sync_group r))), st).
Proof.
  intros Hs Hmode.
  assert (Hget : get_replica_context st = (inr (Some r), st)).
  { unfold get_replica_context, bind, _get_per_thread_mode,
      distribution_strategy_context._get_per_thread_mode.
    unfold current_mode in Hmode. by rewrite Hmode. }
  unfold docstring_fn, bind at 1. rewrite Hget.
  unfold ReplicaContext.replica_id_in_sync_group, bind at 1, bind at 1.
  rewrite require_replica_context_ok by done.
  unfold ret at 1, add_int at 1, bind at 1, ret at 1.
  unfold ReplicaContext.merge_call, bind at 1, bind at 1.
  rewrite require_replica_context_ok by done.
  unfold bind at 1.
  rewrite handle_old_and_new_args_eq, argument_convention_args_container by done.
  cbn [fst snd].
  rewrite _merge_call_keeps_state;
    unfold docstring_merge_fn, DistributionStrategy.unwrap, DistributionStrategy._unwrap;
    rewrite Hs; reflexivity.
Qed.

(** A [with] block over a [_CurrentDistributionContext] whose body only
    makes one object. *)
Lemma with_CurrentDistributionContext_one_object {A}
    (c : _CurrentDistributionContext.t) (body : option Strategy → M A)
    (res : Exception + A) (st : State) :
  (let st1 := (_CurrentDistributionContext.__enter__ c st).2 in
   body (distribution_strategy_context.distribution_strategy
           (_CurrentDistributionContext._context c)) st1
     = (res, set_next_addr (S (next_addr st1)) st1)) →
  with_scope (a_CurrentDistributionContext c) body st
    = (res, set_next_addr (S (next_addr st)) st).
Proof.
  unfold with_scope, with_, scope__enter__, scope__exit__, bind, try_finally.
  destruct c as [context creator_scope var_scope device_scope], st.
  destruct var_scope, device_scope; simpl; intros ->; reflexivity.
Qed.

(** X10.  The example of the docstring of [call_for_each_replica], run
    with a default strategy by a thread in the default mode, for every
    integer [three]: [fn] reads the replica id 0, [merge_fn] sums the one
    value [three + 0] that [unwrap] gives it, [fn] returns [s + v], and
    the list that the example prints is [[2 * three]].  Afterwards the
    thread is as before, but for the replica context that was made. *)
Theorem X10_docstring_example `{External} (d : Strategy) (three : Z) (st : State) :
  strategy_class d = _DefaultDistributionStrategy_class →
  current_mode st = Default →
  docstring_example d three st
    = (inr (VList [VInt (2 * three)]), set_next_addr (S (next_addr st)) st).
Proof.
  intros Hd Hmode.
  destruct (scope_from_Default d st Hmode) as (c & Hscope & Hc).
  destruct (_CurrentDistributionContext_exit_enter c st) as (_ & _ & Hstack).
  unfold docstring_example, with_strategy_scope, bind at 1. rewrite Hscope.
  apply with_CurrentDistributionContext_one_object. intros st1.
  assert (Hcur : current_mode st1 = CrossReplica d)
    by (unfold current_mode, st1; by rewrite Hstack, Hc).
  set (st_in := set_mode_stack (cons (InReplica (replica_context_made_in d st1)))
                  (set_next_addr (S (next_addr st1)) st1)).
  pose proof (docstring_fn_eq (replica_context_made_in d st1) three st_in Hd eq_refl)
    as Hfn.
  pose proof (default_call_for_each_replica_eq d docstring_fn []
                (<["args" := VList [VInt three]]> ∅)
                (VList [VInt three]) [VInt three] ∅ st1 Hd Hcur
                (argument_convention_args_container "call_for_each_replica"
                   (VList [VInt three]) eq_refl) eq_refl) as Hcall.
  cbv zeta in Hcall. fold st_in in Hcall. rewrite delete_empty, Hfn in Hcall.
  unfold bind. rewrite (Hcall eq_refl).
  cbn [fst snd]. unfold DistributionStrategy.unwrap, DistributionStrategy._unwrap.
  rewrite Hd. unfold ret, _DefaultDistributionStrategy._unwrap.
  cbn [replica_context_made_in _replica_id_in_sync_group].
  by replace (0 + (three + 0) + (three + 0))%Z with (2 * three)%Z by lia.
Qed.

(** With the default strategy and the 3 of the docstring, the example
    prints [[6]]. *)
Lemma X10_docstring_example_witness :
  @docstring_example example_external default_strategy 3 fresh_thread
    = (inr (VList [VInt 6]), set_next_addr 11 fresh_thread).
Proof.
  apply (@X10_docstring_example example_external default_strategy 3 fresh_thread
           eq_refl eq_refl).
Defined.

(** ** The update device *)

(** X11.  [with UpdateContext(device):] for every device, body and state:
    the body starts with [device] as the update device, in a state that
    differs from the caller's in nothing else, and its outcome is the
    outcome of the block; when the block is left, by return or by
    exception, the update device is again the one before the block,
    whatever the body did to it.  A body that asks [get_update_device()]
    gets [device], and the state after that block is the state before it,
    so that blocks nest: the inner device is seen inside, the outer one
    after it. *)
Theorem X11_UpdateContext {A} (device : Value) (body : M A) (st : State) :
  let block (A : Type) (device : Value) (body : M A) :=
    with_ (UpdateContext.__enter__ (UpdateContext.__init__ device)) UpdateContext.__exit__
      (fun _ => body) in
  (block A device body st).1 = (body (set_update_device device st)).1 ∧
  _update_device_current (block A device body st).2 = _update_device_current st ∧
  block Value device get_update_device st = (inr device, st) ∧
  (∀ inner,
     block (Value * Value)%type device
       (seen_inside <- block Value inner get_update_device ;;
        seen_after <- get_update_device ;;
        ret (seen_inside, seen_after)) st
     = (inr (inner, device), st)).
Proof.
  intros block. unfold block, with_, bind, try_finally, UpdateContext.__enter__,
    UpdateContext.__exit__, UpdateContext.__init__, get_update_device, modify, ret, bind.
  cbn. split_and!.
  - by destruct (body (set_update_device device st)) as [res st2].
  - by destruct (body (set_update_device device st)) as [res st2].
  - by destruct st.
  - intros inner. by destruct st.
Qed.

(** The hook of the default strategy with a function that gives the state
    back as it found it. *)
Lemma _DefaultDistributionStrategy__update_non_slot_state (d : Strategy)
    (colocate_with : Value) (fn : Callable) (args kwargs should_group : Value) (st : State) :
  _update_device_current
    (_DefaultDistributionStrategy._update_non_slot d colocate_with fn args kwargs
       should_group st).2
  = _update_device_current st.
Proof.
  unfold _DefaultDistributionStrategy._update_non_slot, with_, bind, try_finally,
    ops.colocate_with__enter__, ops.colocate_with__exit__, UpdateContext.__enter__,
    UpdateContext.__exit__, UpdateContext.__init__, get_update_device, modify, ret, bind.
  cbn.
  destruct (call fn [] args kwargs _) as [[e|result] st2]; [done|].
  by destruct (truthy should_group).
Qed.

Lemma _DefaultDistributionStrategy__update_non_slot_observe (d : Strategy)
    (colocate_with : Value) (st : State) :
  _DefaultDistributionStrategy._update_non_slot d colocate_with observe_update_device
    (VTuple []) (VDict ∅) (VBool true) st
  = (inr colocate_with, st).
Proof. by destruct st. Qed.

(** X12.  In a default strategy, called in its own cross-replica context:
    while [fn] runs inside [update_non_slot(colocate_with, fn)] the update
    device is [colocate_with], and inside [update(var, fn)] it is [var],
    where [fn] is called with [var] as its one argument; after either call
    the update device is again the one before the call, for every [fn],
    arguments and keywords, whether the call returned or raised. *)
Theorem X12_default_update_device `{External} (d : Strategy) (st : State) :
  strategy_class d = _DefaultDistributionStrategy_class →
  current_mode st = CrossReplica d →
  (∀ colocate_with,
     DistributionStrategy.update_non_slot d colocate_with observe_update_device [] ∅ st
       = (inr colocate_with, st)) ∧
  (∀ var,
     DistributionStrategy.update d var
       (fun args _ => seen <- get_update_device ;; ret (VTuple (seen :: args))) [] ∅ st
       = (inr (VTuple [var; var]), st)) ∧
  (∀ colocate_with fn args kwargs,
     _update_device_current
       (DistributionStrategy.update_non_slot d colocate_with fn args kwargs st).2
     = _update_device_current st) ∧
  (∀ var fn args kwargs,
     _update_device_current (DistributionStrategy.update d var fn args kwargs st).2
     = _update_device_current st).
Proof.
  intros Hd Hmode. split_and!.
  - intros colocate_with. rewrite update_non_slot_eq by done.
    rewrite !delete_empty, argument_convention_direct by done.
    unfold DistributionStrategy._update_non_slot. rewrite Hd.
    by destruct st.
  - intros var. rewrite update_eq by done.
    rewrite !delete_empty, argument_convention_direct by done.
    unfold DistributionStrategy._update. rewrite Hd.
    by destruct st.
  - intros colocate_with fn args kwargs. rewrite update_non_slot_eq by done.
    destruct (argument_convention _ _ _) as [e|p]; [done|].
    unfold DistributionStrategy._update_non_slot. rewrite Hd.
    apply _DefaultDistributionStrategy__update_non_slot_state.
  - intros var fn args kwargs. rewrite update_eq by done.
    destruct (argument_convention _ _ _) as [e|p]; [done|].
    unfold DistributionStrategy._update. rewrite Hd.
    unfold _DefaultDistributionStrategy._update, tuple_, bind.
    destruct (iter_value p.1) as [rest|]; [|done].
    apply _DefaultDistributionStrategy__update_non_slot_state.
Qed.

(** In the scope of the default strategy, a function run by
    [update_non_slot] on the device of the variable number 7 sees that
    device. *)
Lemma X12_default_update_device_witness :
  let st := thread_in [CrossReplica default_strategy] in
  @DistributionStrategy.update_non_slot example_external default_strategy (VObject 7)
     observe_update_device [] ∅ st
    = (inr (VObject 7), st).
Proof.
  intros st.
  apply (proj1 (@X12_default_update_device example_external default_strategy st
                  eq_refl eq_refl)).
Defined.

(** X13.  In a default strategy, called in its own cross-replica context
    with positional and keyword arguments given directly (no [args=] and
    no [kwargs=] container): [update(var, fn, ...)] is
    [update_non_slot(var, fn, var, ...)], the same call with [var] put in
    front of the positional arguments, for every [fn], arguments and
    keywords, the grouping flags included: same outcome and same state. *)
Theorem X13_default_update_is_update_non_slot `{External} (d : Strategy) (var : Value)
    (fn : Callable) (args : list Value) (kwargs : gmap string Value) (st : State) :
  strategy_class d = _DefaultDistributionStrategy_class →
  current_mode st = CrossReplica d →
  kwargs !! "args" = None → kwargs !! "kwargs" = None →
  DistributionStrategy.update d var fn args kwargs st
    = DistributionStrategy.update_non_slot d var fn (var :: args) kwargs st.
Proof.
  intros Hd Hmode Ha Hk.
  rewrite update_eq, update_non_slot_eq by done.
  rewrite !argument_convention_direct by (by rewrite !lookup_delete_ne).
  cbn [fst snd].
  unfold DistributionStrategy._update, DistributionStrategy._update_non_slot.
  by rewrite Hd.
Qed.

(** [update] of the variable number 7 with [echo], one argument and the
    flag [group=False], in the scope of the default strategy. *)
Lemma X13_default_update_is_update_non_slot_witness :
  let st := thread_in [CrossReplica default_strategy] in
  @DistributionStrategy.update example_external default_strategy (VObject 7) echo
     [VInt 1] (<["group" := VBool false]> ∅) st
  = @DistributionStrategy.update_non_slot example_external default_strategy (VObject 7) echo
      [VObject 7; VInt 1] (<["group" := VBool false]> ∅) st.
Proof.
  intros st.
  apply (@X13_default_update_is_update_non_slot example_external default_strategy
           (VObject 7) echo [VInt 1] (<["group" := VBool false]> ∅) st eq_refl eq_refl);
    vm_compute; reflexivity.
Defined.

(** ** Deprecated aggregation values *)

Lemma reduce_op_of_deprecated `{External} (a : VariableAggregation) (st : State) :
  DistributionStrategy.reduce_op_of (VariableAggregation_ a) st
    = (if decide (a = VA_NONE) then inl AssertionError else from_variable_aggregation a, st).
Proof.
  unfold DistributionStrategy.reduce_op_of, bind, assert_.
  destruct a.
  - rewrite bool_decide_eq_false_2; [done|]. intros E.
    repeat (apply elem_of_cons in E as [?|E]; [done|]). by apply elem_of_nil in E.
  - rewrite bool_decide_eq_true_2 by (repeat constructor).
    cbn. by destruct (from_variable_aggregation _).
  - rewrite bool_decide_eq_true_2 by (repeat constructor).
    cbn. by destruct (from_variable_aggregation _).
  - rewrite bool_decide_eq_true_2 by (repeat constructor).
    cbn. by destruct (from_variable_aggregation _).
Qed.

(** X14.  [reduce] and [batch_reduce] with a deprecated
    [VariableAggregation] value, for every strategy, of any class, called
    in its own cross-replica context: the value NONE fails the assertion,
    before the conversion and before any method of the strategy is
    reached, and the state is untouched; each of the three other values is
    handed to [ReduceOp.from_variable_aggregation], and the call then is the
    call with the reduce op that the conversion returns, or fails with the
    exception that the conversion raises. *)
Theorem X14_deprecated_aggregation `{External} (s : Strategy) (a : VariableAggregation)
    (value destinations : Value) (pairs : list (Value * Value)) (st : State) :
  current_mode st = CrossReplica s →
  DistributionStrategy.reduce s (VariableAggregation_ a) value destinations st
    = (if decide (a = VA_NONE) then (inl AssertionError, st)
       else match from_variable_aggregation a with
            | inl e => (inl e, st)
            | inr op => DistributionStrategy.reduce s (ReduceOp_ op) value destinations st
            end) ∧
  DistributionStrategy.batch_reduce s (VariableAggregation_ a) pairs st
    = (if decide (a = VA_NONE) then (inl AssertionError, st)
       else match from_variable_aggregation a with
            | inl e => (inl e, st)
            | inr op => DistributionStrategy.batch_reduce s (ReduceOp_ op) pairs st
            end).
Proof.
  intros Hmode.
  unfold DistributionStrategy.reduce, DistributionStrategy.batch_reduce.
  rewrite !bind_guard_ok by done.
  unfold bind. rewrite !reduce_op_of_deprecated.
  case_decide; [done|].
  destruct (from_variable_aggregation a) as [e|op]; [done|].
  by rewrite (_require_cross_replica_context_ok s st Hmode).
Qed.

(** In the scope of [strategy_A], whose [_reduce] adds up: the deprecated
    SUM adds up, and the deprecated NONE fails the assertion. *)
Lemma X14_deprecated_aggregation_witness :
  let st := thread_in [CrossReplica strategy_A] in
  @DistributionStrategy.reduce example_external strategy_A (VariableAggregation_ VA_SUM)
     (VList [VInt 3; VInt 4]) VNone st
    = (inr (VInt 7), st) ∧
  @DistributionStrategy.reduce example_external strategy_A (VariableAggregation_ VA_NONE)
     (VList [VInt 3; VInt 4]) VNone st
    = (inl AssertionError, st).
Proof.
  intros st. split.
  - rewrite (proj1 (@X14_deprecated_aggregation example_external strategy_A VA_SUM
                      (VList [VInt 3; VInt 4]) VNone [] st eq_refl)).
    vm_compute. reflexivity.
  - apply (proj1 (@X14_deprecated_aggregation example_external strategy_A VA_NONE
                    (VList [VInt 3; VInt 4]) VNone [] st eq_refl)).
Defined.

(** ** batch_reduce of the classes of this file *)

(** X15.  [batch_reduce] of the two classes that this file defines, in
    the cross-replica context of the strategy and for every reduce op.  A
    default strategy returns the values of the pairs, in their order and
    whatever the destinations are, and leaves the state alone.  The base
    class, whose [_reduce] is left to the descendants, raises
    NotImplementedError as soon as there is one pair, but returns the empty
    list for no pairs: [_reduce] is only reached through the pairs. *)
Theorem X15_batch_reduce_of_this_file `{External} (s : Strategy) (op : ReduceOp)
    (pairs : list (Value * Value)) (st : State) :
  current_mode st = CrossReplica s →
  (strategy_class s = _DefaultDistributionStrategy_class →
   DistributionStrategy.batch_reduce s (ReduceOp_ op) pairs st
     = (inr (VList pairs.*1), st)) ∧
  (strategy_class s = DistributionStrategy_class →
   DistributionStrategy.batch_reduce s (ReduceOp_ op) pairs st
     = (match pairs with
        | [] => inr (VList [])
        | _ :: _ => inl (NotImplementedError must_be_implemented_in_descendants)
        end, st)).
Proof.
  intros Hmode.
  assert (Hbatch : DistributionStrategy.batch_reduce s (ReduceOp_ op) pairs st
            = DistributionStrategy._batch_reduce s op pairs st).
  { unfold DistributionStrategy.batch_reduce. by rewrite bind_guard_ok by done. }
  rewrite Hbatch. clear Hbatch.
  unfold DistributionStrategy._batch_reduce, bind. split; intros Hs.
  - assert (Hall : for_each (fun p => DistributionStrategy.reduce s (ReduceOp_ op) p.1 p.2)
                     pairs st = (inr pairs.*1, st)); [|by rewrite Hall].
    induction pairs as [|[t v] pairs IH]; [done|].
    cbn [for_each]. unfold bind at 1.
    unfold DistributionStrategy.reduce at 1. rewrite bind_guard_ok by done.
    unfold bind at 1. cbn [DistributionStrategy.reduce_op_of ret].
    unfold DistributionStrategy._reduce at 1. rewrite Hs.
    unfold _DefaultDistributionStrategy._reduce, ret at 1.
    unfold bind. by rewrite IH.
  - destruct pairs as [|[t v] pairs]; [done|].
    cbn [for_each]. unfold bind at 1.
    unfold DistributionStrategy.reduce at 1. rewrite bind_guard_ok by done.
    unfold bind at 1. cbn [DistributionStrategy.reduce_op_of ret].
    unfold DistributionStrategy._reduce at 1. by rewrite Hs.
Qed.

(** In its own scope the default strategy reduces two pairs to their two
    values. *)
Lemma X15_batch_reduce_of_this_file_witness :
  let st := thread_in [CrossReplica default_strategy] in
  @DistributionStrategy.batch_reduce example_external default_strategy (ReduceOp_ SUM)
     [(VInt 3, VNone); (VInt 4, VStr "/device:CPU:0")] st
    = (inr (VList [VInt 3; VInt 4]), st).
Proof.
  intros st.
  apply (proj1 (@X15_batch_reduce_of_this_file example_external default_strategy SUM
                  [(VInt 3, VNone); (VInt 4, VStr "/device:CPU:0")] st eq_refl) eq_refl).
Defined.

(** ** value_container *)

(** X16.  The sentence of the docstring of [value_container],
    [value in unwrap(value_container(value))], holds in a default strategy:
    for every value and in every state, whatever the current mode,
    unwrapping the container of [value] returns a list with [value] in it
    (the one-element list of it) and changes no state. *)
Theorem X16_value_in_unwrap_value_container `{External} `{External_rest} (d : Strategy)
    (value : Value) (st : State) :
  strategy_class d = _DefaultDistributionStrategy_class →
  ∃ l, (container_ <- DistributionStrategy_rest.value_container d value ;;
        DistributionStrategy.unwrap d container_) st = (inr (VList l), st) ∧
       value ∈ l.
Proof.
  intros Hd. exists [value]. split; [|by left].
  unfold DistributionStrategy_rest.value_container, DistributionStrategy.unwrap,
    DistributionStrategy._unwrap, bind.
  by rewrite Hd.
Qed.

Lemma X16_value_in_unwrap_value_container_witness :
  ∃ l, (container_ <- @DistributionStrategy_rest.value_container example_external_rest
                        default_strategy (VInt 42) ;;
        @DistributionStrategy.unwrap example_external default_strategy container_)
         fresh_thread = (inr (VList l), fresh_thread) ∧
       VInt 42 ∈ l.
Proof.
  apply (@X16_value_in_unwrap_value_container example_external example_external_rest
           default_strategy (VInt 42) fresh_thread eq_refl).
Defined.

(** ** non_slot_devices *)

(** The order of strings that [min] compares names with. *)
Lemma ltb_leb (a b : string) : String.ltb a b = true → String.leb a b = true.
Proof. unfold String.ltb, String.leb. by destruct (String.compare a b). Qed.

Lemma ltb_ne (a b : string) : String.ltb a b = true → a ≠ b.
Proof.
  unfold String.ltb. intros Hlt ->.
  pose proof (String.compare_antisym b b) as Ha.
  by destruct (String.compare b b).
Qed.

Lemma ltb_false_leb (a b : string) : String.ltb a b = false → String.leb b a = true.
Proof.
  unfold String.ltb, String.leb. rewrite (String.compare_antisym a b).
  by destruct (String.compare b a).
Qed.

Lemma leb_ne_ltb (a b : string) : String.leb a b = true → a ≠ b → String.ltb a b = true.
Proof.
  unfold String.ltb, String.leb. intros Hle Hne.
  destruct (String.compare a b) eqn:E; [|done..].
  by apply String.compare_eq_iff in E.
Qed.

Lemma leb_trans (a b c : string) :
  String.leb a b = true → String.leb b c = true → String.leb a c = true.
Proof.
  intros Hab Hbc. apply Is_true_true.
  apply (@transitivity _ String.le _ a b c); by apply Is_true_true.
Qed.

Lemma ltb_leb_trans (a b c : string) :
  String.ltb a b = true → String.leb b c = true → String.ltb a c = true.
Proof.
  intros Hab Hbc. apply leb_ne_ltb.
  - eapply leb_trans; [by apply ltb_leb|done].
  - intros ->. apply (ltb_ne _ _ Hab).
    apply String.leb_antisym; [by apply ltb_leb|done].
Qed.

Lemma leb_ltb_trans (a b c : string) :
  String.leb a b = true → String.ltb b c = true → String.ltb a c = true.
Proof.
  intros Hab Hbc. apply leb_ne_ltb.
  - eapply leb_trans; [done|by apply ltb_leb].
  - intros ->. apply (ltb_ne _ _ Hbc).
    apply String.leb_antisym; [by apply ltb_leb|done].
Qed.

(** What the loop of [min] returns: the best so far, when nothing that
    follows is strictly smaller, and otherwise the first of the smallest
    elements that follow. *)
Lemma min_from_spec {A} (key : A → string) (l : list A) (best : A) :
  (min_from key best l = best ∧
   Forall (fun x => String.leb (key best) (key x) = true) l) ∨
  (∃ l1 l2, l = l1 ++ min_from key best l :: l2 ∧
     String.ltb (key (min_from key best l)) (key best) = true ∧
     Forall (fun x => String.ltb (key (min_from key best l)) (key x) = true) l1 ∧
     Forall (fun x => String.leb (key (min_from key best l)) (key x) = true) l2).
Proof.
  revert best. induction l as [|x l IH]; intros best; [by left|].
  cbn [min_from]. destruct (String.ltb (key x) (key best)) eqn:Hx.
  - right. destruct (IH x) as [[Hr Hall]|(l1 & l2 & Hl & Hlt & H1 & H2)].
    + exists [], l. rewrite Hr. by split_and!.
    + exists (x :: l1), l2. split_and!.
      * by rewrite Hl at 1.
      * eapply ltb_leb_trans; [done|by apply ltb_leb].
      * by constructor.
      * done.
  - apply ltb_false_leb in Hx.
    destruct (IH best) as [[Hr Hall]|(l1 & l2 & Hl & Hlt & H1 & H2)].
    + left. split; [done|]. by constructor.
    + right. exists (x :: l1), l2. split_and!.
      * by rewrite Hl at 1.
      * done.
      * constructor; [|done]. by eapply ltb_leb_trans.
      * done.
Qed.

Lemma py_min_spec {A} (key : A → string) (l : list A) (v : A) :
  py_min key l = inr v →
  ∃ l1 l2, l = l1 ++ v :: l2 ∧
    Forall (fun x => String.ltb (key v) (key x) = true) l1 ∧
    Forall (fun x => String.leb (key v) (key x) = true) l2.
Proof.
  destruct l as [|x l]; [done|]. cbn [py_min]. intros [= <-].
  destruct (min_from_spec key l x) as [[Hr Hall]|(l1 & l2 & Hl & Hlt & H1 & H2)].
  - exists [], l. rewrite Hr. by split_and!.
  - exists (x :: l1), l2. split_and!.
    + by rewrite Hl at 1.
    + by constructor.
    + done.
Qed.

Lemma py_min_least {A} (key : A → string) (l : list A) (v x : A) :
  py_min key l = inr v → x ∈ l → String.leb (key v) (key x) = true.
Proof.
  intros Hv Hx. destruct (py_min_spec key l v Hv) as (l1 & l2 & -> & H1 & H2).
  apply elem_of_app in Hx as [Hx|Hx].
  - apply ltb_leb. by apply (proj1 (Forall_forall _ _) H1).
  - apply elem_of_cons in Hx as [->|Hx].
    + apply Is_true_true. apply (@reflexivity _ String.le _).
    + by apply (proj1 (Forall_forall _ _) H2).
Qed.

Lemma py_min_elem_of {A} (key : A → string) (l : list A) (v : A) :
  py_min key l = inr v → v ∈ l.
Proof.
  intros Hv. destruct (py_min_spec key l v Hv) as (l1 & l2 & -> & _).
  apply elem_of_app. right. by left.
Qed.

(** X17.  [non_slot_devices] of a default strategy, which is
    [min(var_list, key=lambda x: x.name)]: on the empty list it raises the
    ValueError of [min]; on every other list it returns an element of the
    list whose name is smallest, and the first such element: every variable
    before it in the list has a strictly larger name, every variable after
    it a name at least as large. *)
Theorem X17_non_slot_devices (d : Strategy) (var_list : list TFVariable) :
  match _DefaultDistributionStrategy_rest.non_slot_devices d var_list with
  | inl e => var_list = [] ∧ e = ValueError_rest min_arg_is_an_empty_sequence
  | inr v =>
      ∃ before after, var_list = before ++ v :: after ∧
        Forall (fun x => String.ltb (name v) (name x) = true) before ∧
        Forall (fun x => String.leb (name v) (name x) = true) after
  end.
Proof.
  unfold _DefaultDistributionStrategy_rest.non_slot_devices.
  destruct (py_min name var_list) as [e|v] eqn:E.
  - destruct var_list; [|done]. by injection E as <-.
  - by apply py_min_spec.
Qed.

(** X18.  The choice of [non_slot_devices] does not depend on the order of
    the list as far as the name goes: for two lists with the same
    variables in any order, either both calls raise or both return a
    variable, and the two variables have the same name; when no two
    variables of the list share a name, both calls return the same
    variable. *)
Theorem X18_non_slot_devices_order (d : Strategy) (l l' : list TFVariable) :
  l ≡ₚ l' →
  match _DefaultDistributionStrategy_rest.non_slot_devices d l,
        _DefaultDistributionStrategy_rest.non_slot_devices d l' with
  | inr v, inr v' => name v = name v' ∧ (NoDup (name <$> l) → v = v')
  | inl e, inl e' => e = e'
  | _, _ => False
  end.
Proof.
  intros Hperm. unfold _DefaultDistributionStrategy_rest.non_slot_devices.
  destruct (py_min name l) as [e|v] eqn:E, (py_min name l') as [e'|v'] eqn:E'.
  - destruct l, l'; try done. by simplify_eq/=.
  - destruct l; [|done]. apply Permutation_nil_l in Hperm. by subst l'.
  - destruct l'; [|done]. apply Permutation_nil_r in Hperm. by subst l.
  - pose proof (py_min_elem_of _ _ _ E) as Hv.
    pose proof (py_min_elem_of _ _ _ E') as Hv'.
    assert (Hname : name v = name v').
    { apply String.leb_antisym.
      - apply (py_min_least _ _ _ _ E). by rewrite Hperm.
      - apply (py_min_least _ _ _ _ E'). by rewrite <- Hperm. }
    split; [done|]. intros Hnodup.
    rewrite <- Hperm in Hv'.
    apply list_elem_of_lookup in Hv as [i Hi], Hv' as [j Hj].
    assert (i = j) as ->; [|congruence].
    apply (NoDup_lookup (name <$> l) i j (name v)); [done|..].
    + by rewrite list_lookup_fmap, Hi.
    + by rewrite list_lookup_fmap, Hj, Hname.
Qed.

(** Three variables in two orders; the two named [a] differ. *)
Lemma X18_non_slot_devices_order_witness :
  let a1 := {| variable_addr := 1; name := "a" |} in
  let a2 := {| variable_addr := 2; name := "a" |} in
  let b := {| variable_addr := 3; name := "b" |} in
  _DefaultDistributionStrategy_rest.non_slot_devices default_strategy [b; a1; a2] = inr a1 ∧
  _DefaultDistributionStrategy_rest.non_slot_devices default_strategy [a2; b; a1] = inr a2 ∧
  name a1 = name a2.
Proof.
  intros a1 a2 b.
  pose proof (X18_non_slot_devices_order default_strategy [b; a1; a2] [a2; b; a1]) as Horder.
  assert (H1 : _DefaultDistributionStrategy_rest.non_slot_devices default_strategy
                 [b; a1; a2] = inr a1) by reflexivity.
  assert (H2 : _DefaultDistributionStrategy_rest.non_slot_devices default_strategy
                 [a2; b; a1] = inr a2) by reflexivity.
  rewrite H1, H2 in Horder.
  split_and!; [done..|].
  apply Horder.
  change ([b; a1; a2] ≡ₚ [a2] ++ [b; a1]).
  rewrite (Permutation_app_comm [a2] [b; a1]). reflexivity.
Defined.

(** ** Input functions *)

(** X19.  [make_input_fn_iterator] and [distribute_dataset].  For
    every strategy, of any class, a replication mode other than
    [PER_WORKER] is refused with a ValueError that names it, before
    [input_fn] or any method of the strategy is reached, and the state is
    untouched.  In a default strategy [input_fn] is called once, on the
    input context [InputContext()]: one input pipeline, with id 0, and one
    replica in sync, so that the per-replica batch size it gives is the
    global batch size, for every size; [distribute_dataset] calls
    [dataset_fn] with no argument.  Whatever either method returns is a
    [Dataset], and is what the function returned, with the state the
    function left; a result that is not a [Dataset] is a ValueError. *)
Theorem X19_input_functions `{External_rest} (self : Strategy) (input_fn : DatasetFn)
    (st : State) :
  (∀ v, DistributionStrategy_rest.make_input_fn_iterator self input_fn
          (not_a_replication_mode v) st
        = (inl (ValueError_rest (Input_replication_mode_not_supported v)), st)) ∧
  (strategy_class self = _DefaultDistributionStrategy_class →
   let ctx := DistributionStrategy_rest.InputContext_default in
   (InputContext.num_input_pipelines ctx = 1%Z ∧ InputContext.input_pipeline_id ctx = 0%Z ∧
    ∀ g, InputContext.get_per_replica_batch_size ctx g = inr g) ∧
   (∀ fn_arg method,
      (fn_arg = Some ctx ∧
       method = DistributionStrategy_rest.make_input_fn_iterator self input_fn PER_WORKER) ∨
      (fn_arg = None ∧
       method = DistributionStrategy_rest.distribute_dataset self input_fn) →
      (∀ result st', method st = (inr result, st') ↔
         input_fn fn_arg st = (inr result, st') ∧ isinstance_Dataset result = true) ∧
      (∀ result st', input_fn fn_arg st = (inr result, st') →
         isinstance_Dataset result = false →
         method st = (inl (ValueError_rest dataset_fn_must_return_a_Dataset), st')) ∧
      (∀ e st', input_fn fn_arg st = (inl e, st') → method st = (inl (Earlier e), st')))).
Proof.
  split; [done|]. intros Hd ctx. split.
  - split_and!; [done..|]. intros g.
    unfold InputContext.get_per_replica_batch_size, InputContext.py_mod,
      InputContext.py_floordiv. cbn.
    rewrite Z.mod_1_r. cbn. by rewrite Z.div_1_r.
  - assert (Hcall : ∀ fn_arg,
              DistributionStrategy_rest._call_dataset_fn self input_fn fn_arg st
              = match input_fn fn_arg st with
                | (inl e, st') => (inl (Earlier e), st')
                | (inr result, st') =>
                    if isinstance_Dataset result then (inr result, st')
                    else (inl (ValueError_rest dataset_fn_must_return_a_Dataset), st')
                end).
    { intros fn_arg. unfold DistributionStrategy_rest._call_dataset_fn.
      destruct fn_arg; destruct (input_fn _ st) as [[e|result] st1]; try done;
        by destruct (isinstance_Dataset result). }
    intros fn_arg method Hmethod.
    assert (Hm : method st
                 = DistributionStrategy_rest._call_dataset_fn self input_fn fn_arg st).
    { destruct Hmethod as [[-> ->]|[-> ->]].
      - unfold DistributionStrategy_rest.make_input_fn_iterator,
          DistributionStrategy_rest._make_input_fn_iterator. by rewrite Hd.
      - unfold DistributionStrategy_rest.distribute_dataset. by rewrite Hd. }
    rewrite Hm, Hcall. clear Hm Hcall Hmethod.
    destruct (input_fn fn_arg st) as [[e|r] st1].
    + split_and!; [|done|by intros ?? [= -> ->]].
      intros result st'. split; [done|]. by intros [? _].
    + destruct (isinstance_Dataset r) eqn:Hr.
      * split_and!; [|by intros ?? [= -> ->]; congruence|done].
        intros result st'. split.
        -- by intros [= -> ->].
        -- by intros [[= -> ->] _].
      * split_and!; [|by intros ?? [= -> ->]|done].
        intros result st'. split; [done|].
        intros [[= -> ->] ?]. congruence.
Qed.

(** The default strategy and an input function that returns a dataset of
    the per-replica batch size for a global batch of 64: the dataset is one
    of batches of 64. *)
Lemma X19_input_functions_witness :
  @DistributionStrategy_rest.make_input_fn_iterator example_external_rest default_strategy
     batching_input_fn PER_WORKER fresh_thread
    = (inr (VObject 64), fresh_thread).
Proof.
  destruct (@X19_input_functions example_external_rest default_strategy batching_input_fn
              fresh_thread) as [_ Hdefault].
  destruct (Hdefault eq_refl) as [_ Hmethods].
  destruct (Hmethods (Some DistributionStrategy_rest.InputContext_default)
              (@DistributionStrategy_rest.make_input_fn_iterator example_external_rest
                 default_strategy batching_input_fn PER_WORKER)
              (or_introl (conj eq_refl eq_refl))) as [Hreturns _].
  apply Hreturns. split; reflexivity.
Defined.

(** ** InputContext, for every number of replicas *)

(** X20.  [get_per_replica_batch_size] for every input context, the ones
    with no replica in sync included, and every global batch size [g]: it
    returns [q] exactly when the number of replicas in sync is not zero
    and [g] is that number times [q]; it raises ZeroDivisionError exactly
    when the number of replicas in sync is zero, instead of the ValueError
    of its docstring; and with one replica in sync it returns [g]. *)
Theorem X20_get_per_replica_batch_size_total (c : InputContext.t) (g : Z) :
  let n := InputContext.num_replicas_in_sync c in
  (∀ q, InputContext.get_per_replica_batch_size c g = inr q ↔ n ≠ 0%Z ∧ g = (n * q)%Z) ∧
  (InputContext.get_per_replica_batch_size c g = inl ZeroDivisionError ↔ n = 0%Z) ∧
  (n = 1%Z → InputContext.get_per_replica_batch_size c g = inr g).
Proof.
  intros n.
  destruct (decide (n = 0%Z)) as [Hn|Hn].
  - assert (Hget : InputContext.get_per_replica_batch_size c g = inl ZeroDivisionError).
    { unfold InputContext.get_per_replica_batch_size, InputContext.py_mod.
      unfold n, InputContext.num_replicas_in_sync in Hn. by rewrite Hn. }
    rewrite Hget. split_and!.
    + intros q. split; [done|]. by intros [? _].
    + done.
    + intros ?. lia.
  - rewrite (get_per_replica_batch_size_nonzero c g Hn). fold n.
    case_decide as Hm.
    + split_and!.
      * intros q. split.
        -- intros [= <-]. split; [done|]. by apply Z.div_exact.
        -- intros [_ ->]. f_equal. rewrite Z.mul_comm. by apply Z.div_mul.
      * split; [done|]. intros ?. lia.
      * intros ->. by rewrite Z.div_1_r.
    + split_and!.
      * intros q. split; [done|]. intros [_ ->]. exfalso. apply Hm.
        rewrite Z.mul_comm. by apply Z.mod_mul.
      * split; [done|]. intros ?. lia.
      * intros ->. exfalso. apply Hm. apply Z.mod_1_r.
Qed.

(** ** The closures that intercept variable creation *)

Lemma bind_scope_guard_ok {A} (s : Strategy) (k : unit → M A) (st : State) :
  distribution_strategy_context.distribution_strategy (current_mode st) = Some s →
  bind (_require_distribution_strategy_scope s) k st = k tt st.
Proof.
  intros E. unfold bind. rewrite _require_distribution_strategy_scope_eq, E.
  by rewrite decide_True.
Qed.

Lemma bind_scope_guard_fails (s : Strategy) (st : State) :
  distribution_strategy_context.distribution_strategy (current_mode st) ≠ Some s →
  ∃ m, ∀ A (k : unit → M A),
    bind (_require_distribution_strategy_scope s) k st = (inl (RuntimeError m), st).
Proof.
  intros E.
  destruct (distribution_strategy_context.distribution_strategy (current_mode st))
    as [s'|] eqn:Es.
  - exists (Mixing_different_DistributionStrategy_objects (Some s') s). intros A k.
    unfold bind. rewrite _require_distribution_strategy_scope_eq, Es.
    by rewrite decide_False by congruence.
  - exists (Need_to_be_inside_scope_for s). intros A k.
    unfold bind. by rewrite _require_distribution_strategy_scope_eq, Es.
Qed.

(** X21.  The functions that [scope] and [colocate_vars_with] install to
    intercept variable creation: [creator_with_resource_vars] and
    [create_colocated_variable] of the base class and [creator] of the
    default strategy.  Called in a thread whose current strategy is not
    the strategy they were made for (in the default mode, or under another
    strategy), each raises the RuntimeError of the scope guard, the same for
    all arguments, without calling the next creator and without touching
    the state.  Called under their strategy, in its cross-replica context
    or in one of its replica contexts, [creator] calls the next creator
    with the arguments as they are, and [create_colocated_variable] calls
    it with the same positional arguments and with keywords in which
    [use_resource] is True and [colocate_with] is the variable given to
    [colocate_vars_with], whatever the caller passed for these two, and
    every other keyword is the caller's; [creator_with_resource_vars] hands
    the keywords with [use_resource] set to True to [_create_variable].
    [distributed_getter], for a strategy that does not allow partitioned
    variables (as the two classes of this file), calls the getter without
    the keyword [partitioner] and with every other keyword unchanged. *)
Theorem X21_variable_creators `{External_creators} (s : Strategy) (v : Value)
    (next_creator : Callable) (args : list Value) (kwargs : gmap string Value)
    (st : State) :
  (distribution_strategy_context.distribution_strategy (current_mode st) ≠ Some s →
   ∃ m, ∀ next_creator args kwargs,
     DistributionStrategy_creators.creator_closure s next_creator args kwargs st
       = (inl (RuntimeError m), st) ∧
     DistributionStrategy_creators.create_colocated_variable s v next_creator args kwargs st
       = (inl (RuntimeError m), st) ∧
     DistributionStrategy_creators.creator_with_resource_vars_closure s next_creator args
       kwargs st = (inl (RuntimeError m), st)) ∧
  (distribution_strategy_context.distribution_strategy (current_mode st) = Some s →
   DistributionStrategy_creators.creator_closure s next_creator args kwargs st
     = next_creator args kwargs st ∧
   (∃ kwargs',
      DistributionStrategy_creators.create_colocated_variable s v next_creator args kwargs st
        = next_creator args kwargs' st ∧
      kwargs' !! "use_resource" = Some (VBool true) ∧
      kwargs' !! "colocate_with" = Some v ∧
      ∀ key, key ≠ "use_resource" → key ≠ "colocate_with" →
             kwargs' !! key = kwargs !! key) ∧
   (∃ kwargs',
      DistributionStrategy_creators.creator_with_resource_vars_closure s next_creator args
        kwargs st
        = DistributionStrategy_creators._create_variable s next_creator args kwargs' st ∧
      kwargs' !! "use_resource" = Some (VBool true) ∧
      ∀ key, key ≠ "use_resource" → kwargs' !! key = kwargs !! key)) ∧
  (DistributionStrategy_creators._allow_variable_partition s = false →
   ∃ kwargs',
     DistributionStrategy_creators.distributed_getter_closure s next_creator args kwargs st
       = next_creator args kwargs' st ∧
     kwargs' !! "partitioner" = None ∧
     ∀ key, key ≠ "partitioner" → kwargs' !! key = kwargs !! key).
Proof.
  split_and!.
  - intros E. destruct (bind_scope_guard_fails s st E) as [m Hm]. exists m.
    intros next_creator' args' kwargs'. split_and!; apply (Hm Value).
  - intros E. split_and!.
    + unfold DistributionStrategy_creators.creator_closure.
      by rewrite bind_scope_guard_ok.
    + eexists. split_and!.
      * unfold DistributionStrategy_creators.create_colocated_variable.
        by rewrite bind_scope_guard_ok.
      * by rewrite lookup_insert_ne, lookup_insert_eq.
      * by rewrite lookup_insert_eq.
      * intros key ??. by rewrite !lookup_insert_ne.
    + eexists. split_and!.
      * unfold DistributionStrategy_creators.creator_with_resource_vars_closure.
        by rewrite bind_scope_guard_ok.
      * by rewrite lookup_insert_eq.
      * intros key ?. by rewrite lookup_insert_ne.
  - intros Hallow. eexists. split_and!.
    + unfold DistributionStrategy_creators.distributed_getter_closure.
      by rewrite Hallow.
    + apply lookup_delete_eq.
    + intros key ?. by apply lookup_delete_ne.
Qed.

(** In the scope of [strategy_A], a variable colocated with the variable
    number 7, for a caller that passes [use_resource=False] and a name:
    the next creator gets [use_resource=True] and the caller's name. *)
Lemma X21_variable_creators_witness :
  let kwargs := <["use_resource" := VBool false]> (<["name" := VStr "w"]> ∅) in
  let st := thread_in [CrossReplica strategy_A] in
  ∃ kwargs',
    @DistributionStrategy_creators.create_colocated_variable strategy_A (VObject 7) echo
       [] kwargs st = echo [] kwargs' st ∧
    kwargs' !! "use_resource" = Some (VBool true) ∧
    kwargs' !! "name" = Some (VStr "w").
Proof.
  intros kwargs st.
  destruct (@X21_variable_creators example_external_creators strategy_A (VObject 7) echo
              [] kwargs st) as (_ & Hunder & _).
  destruct (Hunder eq_refl) as (_ & (kwargs' & Hcall & Huse & _ & Hrest) & _).
  exists kwargs'. split_and!; [done..|].
  rewrite Hrest by done. vm_compute. reflexivity.
Defined.

(** ** The replica id and the number of replicas *)

(** X22.  The docstring of [replica_id_in_sync_group] calls it a number
    from 0 to the number of replicas minus one.  In a default strategy
    this holds for the replica context that [call_for_each_replica] makes:
    a function that reads both from its replica context gets the id 0 and
    one replica in sync, so the id is at least 0 and below the number of
    replicas; and [num_replicas_in_sync] of a replica context is the one of
    its strategy, in every mode. *)
Theorem X22_replica_id_below_count `{External} `{External_rest} (d : Strategy) (st : State) :
  strategy_class d = _DefaultDistributionStrategy_class →
  current_mode st = CrossReplica d →
  (∃ id n,
     DistributionStrategy.call_for_each_replica d replica_id_and_count [] ∅ st
       = (inr (VTuple [VInt id; VInt n]), set_next_addr (S (next_addr st)) st) ∧
     (0 ≤ id < n)%Z) ∧
  (∀ r st', _distribution_strategy r = d →
     DistributionStrategy_rest.ReplicaContext_num_replicas_in_sync r st' = (inr 1%Z, st')).
Proof.
  intros Hd Hmode.
  assert (Hcount : ∀ r st', _distribution_strategy r = d →
            DistributionStrategy_rest.ReplicaContext_num_replicas_in_sync r st'
            = (inr 1%Z, st')).
  { intros r st' Hr.
    unfold DistributionStrategy_rest.ReplicaContext_num_replicas_in_sync,
      DistributionStrategy_rest.num_replicas_in_sync.
    by rewrite Hr, Hd. }
  split; [|done]. exists 0%Z, 1%Z. split; [|lia].
  assert (Hfn : ∀ st', current_mode st' = InReplica (replica_context_made_in d st) →
            replica_id_and_count [] ∅ st' = (inr (VTuple [VInt 0; VInt 1]), st')).
  { intros st' Hmode'.
    assert (Hget : get_replica_context st'
                   = (inr (Some (replica_context_made_in d st)), st')).
    { unfold get_replica_context, bind, _get_per_thread_mode,
        distribution_strategy_context._get_per_thread_mode.
      unfold current_mode in Hmode'. by rewrite Hmode'. }
    unfold replica_id_and_count, bind at 1. rewrite Hget.
    unfold ReplicaContext.replica_id_in_sync_group, bind.
    rewrite require_replica_context_ok by done.
    unfold ret at 1. cbv beta iota. by rewrite Hcount. }
  rewrite default_call_for_each_replica_no_args; [|done..|]; by rewrite Hfn.
Qed.

(** In the scope of the default strategy: replica 0 of 1. *)
Lemma X22_replica_id_below_count_witness :
  ∃ id n,
    @DistributionStrategy.call_for_each_replica example_external default_strategy
       (@replica_id_and_count example_external_rest) [] ∅
       (thread_in [CrossReplica default_strategy])
      = (inr (VTuple [VInt id; VInt n]),
         set_next_addr 11 (thread_in [CrossReplica default_strategy])) ∧
    (0 ≤ id < n)%Z.
Proof.
  apply (proj1 (@X22_replica_id_below_count example_external example_external_rest
                  default_strategy (thread_in [CrossReplica default_strategy])
                  eq_refl eq_refl)).
Defined.
